(** * CTG analysis core: a shallow embedding and its properties

    The Python sources under [ctg_analysis/] and [services/analysis_service.py]
    are embedded function by function.  Python floats are read as exact
    rationals ([Q]); Python ints as [Z]; lists as [list]; the strings used as
    labels, statuses and dictionary keys as [string].  A numpy call that yields
    [nan] on an empty array ([np.median], [np.mean]) and an index or key that
    Python rejects are the [None] of an [option] result. *)

From Stdlib Require Import String ZArith QArith Qround Qabs Qminmax Bool Arith List Lia Lqa.
Import ListNotations.

Local Open Scope string_scope.
Local Open Scope list_scope.
Local Open Scope Z_scope.

(* ------------------------------------------------------------------ *)
(** ** Python and numpy primitives used by the sources *)

Module Py.

(** The option monad carries "undefined" results through the callers. *)
Definition bind {A B : Type} (m : option A) (k : A -> option B) : option B :=
  match m with
  | Some a => k a
  | None => None
  end.

Fixpoint mapM {A B : Type} (f : A -> option B) (l : list A) : option (list B) :=
  match l with
  | [] => Some []
  | a :: l' =>
      match f a with
      | Some b =>
          match mapM f l' with
          | Some bs => Some (b :: bs)
          | None => None
          end
      | None => None
      end
  end.

(** [min(a, b)] keeps its first argument unless the second is strictly
    smaller; [max(a, b)] keeps its first unless the second is strictly larger. *)
Definition min (a b : Q) : Q := if Qlt_le_dec b a then b else a.
Definition max (a b : Q) : Q := if Qlt_le_dec a b then b else a.

Definition Qltb (a b : Q) : bool := negb (Qle_bool b a).
Definition Qeqb (a b : Q) : bool := Qeq_bool a b.

(** [l[i:j]] for [0 <= i]. *)
Definition slice {A : Type} (l : list A) (i j : nat) : list A :=
  firstn (j - i) (skipn i l).

(** [l[-k:]]. *)
Definition last_n {A : Type} (l : list A) (k : nat) : list A :=
  skipn (length l - k) l.

(** [l[-1]], rejected on the empty list. *)
Definition last_item {A : Type} (l : list A) : option A :=
  nth_error l (length l - 1).

(** [len(l)] as a Python int. *)
Definition len {A : Type} (l : list A) : Z := Z.of_nat (length l).

Definition sum (l : list Q) : Q := fold_left Qplus l (0 # 1)%Q.

(** [range(0, stop, step)] for a positive step, with CPython's length
    formula [(stop + step - 1) // step] when [stop > 0]. *)
Definition range_step (stop step : Z) : list Z :=
  if stop <=? 0 then []
  else map (fun k => Z.of_nat k * step)
           (seq 0 (Z.to_nat ((stop + step - 1) / step))).

(** [np.mean]: [nan] on the empty array. *)
Definition np_mean (l : list Q) : option Q :=
  match l with
  | [] => None
  | _ => Some (sum l / inject_Z (len l))%Q
  end.

Fixpoint insert_sorted (x : Q) (l : list Q) : list Q :=
  match l with
  | [] => [x]
  | y :: l' => if Qle_bool x y then x :: l else y :: insert_sorted x l'
  end.

Definition sort (l : list Q) : list Q := fold_right insert_sorted [] l.

(** [np.median]: the middle of the sorted values, the mean of the two middle
    ones for an even count, [nan] on the empty array. *)
Definition np_median (l : list Q) : option Q :=
  match l with
  | [] => None
  | _ =>
      let s := sort l in
      let n := length s in
      if Nat.even n
      then Some ((nth (n / 2 - 1) s 0 + nth (n / 2) s 0) / 2)%Q
      else Some (nth (n / 2) s 0%Q)
  end.

(** Rounding to the nearest integer, ties to even. *)
Definition round_half_even (q : Q) : Z :=
  let f := Qfloor q in
  let r := (q - inject_Z f)%Q in
  if Qltb r (1 # 2) then f
  else if Qltb (1 # 2) r then f + 1
  else if Z.even f then f else f + 1.

(** [round(q, ndigits)] for [ndigits >= 0]. *)
Definition round (q : Q) (ndigits : nat) : Q :=
  let scale := inject_Z (10 ^ Z.of_nat ndigits) in
  (inject_Z (round_half_even (q * scale)) / scale)%Q.




End Py.

Notation "x <- m ;; k" := (Py.bind m (fun x => k))
  (at level 61, m at next level, right associativity).

(* ------------------------------------------------------------------ *)
(** ** ctg_analysis/common.py *)

Module Common.

Definition in_range_50_200 (fhr : Q) : bool :=
  Qle_bool 50 fhr && Qle_bool fhr 200.

Definition calc_baseline_ws (fhr_series : list Q) (window_size : nat) : option Q :=
  match fhr_series with
  | [] => Some 0%Q
  | _ =>
      let filtered := filter in_range_50_200 fhr_series in
      match filtered with
      | [] => Some 0%Q
      | _ =>
          if (length filtered <? window_size)%nat then Py.np_median filtered
          else
            windowed_medians <-
              Py.mapM (fun i => Py.np_median (Py.slice filtered i (i + window_size)))
                      (seq 0 (length filtered - window_size + 1)) ;;
            Py.np_median windowed_medians
      end
  end.

(** [calc_baseline(fhr_series)] with the default [window_size=10]. *)
Definition calc_baseline (fhr_series : list Q) : option Q :=
  calc_baseline_ws fhr_series 10.

(** State of the single-pass run detectors: the event count, the
    [in_acceleration] flag and the current run length. *)
Record run_state : Type := mk_run_state {
  events : Z;
  in_run : bool;
  run_length : Z
}.

Definition run_init : run_state := mk_run_state 0 false 0.

(** One iteration of the detector loop; [hit] is the loop's threshold test. *)
Definition run_step (hit : Q -> bool) (s : run_state) (fhr : Q) : run_state :=
  if hit fhr then
    if negb (in_run s)
    then mk_run_state (events s) true 1
    else mk_run_state (events s) (in_run s) (run_length s + 1)
  else
    mk_run_state
      (if in_run s && (15 <=? run_length s) then events s + 1 else events s)
      false 0.

(** The check after the loop, for a run still open at the end. *)
Definition run_flush (s : run_state) : Z :=
  if in_run s && (15 <=? run_length s) then events s + 1 else events s.

Definition is_empty {A : Type} (l : list A) : bool :=
  match l with [] => true | _ => false end.

Definition acceleration_threshold (ga_weeks : Z) : Z :=
  if ga_weeks <? 32 then 10 else 15.

Definition detect_accelerations (fhr_series : list Q) (baseline : Q) (ga_weeks : Z) : Z :=
  if is_empty fhr_series || Py.Qeqb baseline 0 then 0
  else
    let threshold := acceleration_threshold ga_weeks in
    run_flush
      (fold_left (run_step (fun fhr => Qle_bool (baseline + inject_Z threshold) fhr))
                 fhr_series run_init).

Definition detect_decelerations (fhr_series : list Q) (baseline : Q) (threshold : Z) : Z :=
  if is_empty fhr_series || Py.Qeqb baseline 0 then 0
  else
    run_flush
      (fold_left (run_step (fun fhr => Qle_bool fhr (baseline - inject_Z threshold)))
                 fhr_series run_init).

(** The default [threshold=15] of [detect_decelerations]. *)
Definition default_deceleration_threshold : Z := 15.


(** [smooth_signal(signal, window_size)] for [window_size >= 0]; the window
    of sample [i] is [signal[max(0, i - w//2) : min(len, i + w//2 + 1)]]. *)
Definition smooth_signal_ws (signal : list Q) (window_size : nat) : option (list Q) :=
  if (length signal <? window_size)%nat then Some signal
  else
    Py.mapM
      (fun i =>
         let start := Nat.max 0 (i - window_size / 2) in
         let stop := Nat.min (length signal) (i + window_size / 2 + 1) in
         Py.np_mean (Py.slice signal start stop))
      (seq 0 (length signal)).

(** [smooth_signal(signal)] with the default [window_size=5]. *)
Definition smooth_signal (signal : list Q) : option (list Q) :=
  smooth_signal_ws signal 5.

End Common.

(* ------------------------------------------------------------------ *)
(** ** ctg_analysis/variability.py *)

Module Variability.

(** The successive absolute differences [abs(s[i+1] - s[i])]. *)
Fixpoint differences (fhr_series : list Q) : list Q :=
  match fhr_series with
  | a :: ((b :: _) as rest) => Qabs (b - a) :: differences rest
  | _ => []
  end.

Definition calculate_short_term_variability (fhr_series : list Q) : option Q :=
  if (length fhr_series <? 2)%nat then Some 0%Q
  else Py.np_mean (differences fhr_series).

(** [calculate_variability(fhr_series)] with the default
    [method="short_term"]. *)
Definition calculate_variability (fhr_series : list Q) : option Q :=
  if Common.is_empty fhr_series || (length fhr_series <? 2)%nat then Some 0%Q
  else calculate_short_term_variability fhr_series.

Definition classify_variability (variability : Q) : string :=
  if Py.Qeqb variability 0 then "absent"
  else if Py.Qltb variability 5 then "minimal"
  else if Qle_bool 5 variability && Qle_bool variability 25 then "moderate"
  else "marked".






End Variability.

(* ------------------------------------------------------------------ *)
(** ** ctg_analysis/risk_adjustment.py *)

Module RiskAdjustment.

(** A Python dict with string keys, as its items in insertion order. *)
Fixpoint dict_get {V : Type} (d : list (string * V)) (key : string) : option V :=
  match d with
  | [] => None
  | (k, v) :: d' => if String.eqb k key then Some v else dict_get d' key
  end.

Definition RISK_SCORES : list (string * Z) :=
  [ ("diabetes", 2); ("anemia", 1); ("hypertension", 2); ("preeclampsia", 3);
    ("infections", 2); ("multiple", 2); ("placenta", 3); ("term", 2) ].

Definition calculate_risk_score (risk_factors : list (string * bool)) : Z :=
  fold_left
    (fun (score : Z) (item : string * bool) =>
       let '(key, value) := item in
       if value then
         match dict_get RISK_SCORES key with
         | Some w => score + w
         | None => score
         end
       else score)
    risk_factors 0.

(** The dict returned by the two adjusters.  [adjustment_reason] is a
    formatted message around the risk score; it is kept as the score it
    interpolates, present exactly when the message is. *)
Record adjustment : Type := mk_adjustment {
  original_label : string;
  adjusted_label : string;
  code : Z;
  adjustment_applied : bool;
  risk_score : Z;
  adjustment_reason : option Z
}.

Definition figo_code_map : list (string * Z) :=
  [ ("Normal", 0); ("Suspicious", 1); ("Pathological", 2) ].

Definition nichd_code_map : list (string * Z) :=
  [ ("Category I", 0); ("Category II", 1); ("Category III", 2) ].

(** [code_map.get(label, 0)]. *)
Definition code_of (code_map : list (string * Z)) (label : string) : Z :=
  match dict_get code_map label with
  | Some c => c
  | None => 0
  end.

Definition adjust_figo_classification (base_label : string) (risk_score : Z) : adjustment :=
  let '(adjusted_label, adjustment_applied) :=
    if 4 <=? risk_score then
      if String.eqb base_label "Normal" then ("Suspicious", true)
      else if String.eqb base_label "Suspicious" then ("Pathological", true)
      else (base_label, false)
    else (base_label, false) in
  mk_adjustment base_label adjusted_label (code_of figo_code_map adjusted_label)
                adjustment_applied risk_score
                (if adjustment_applied then Some risk_score else None).

Definition adjust_nichd_classification (base_label : string) (risk_score : Z) : adjustment :=
  let '(adjusted_label, adjustment_applied) :=
    if 4 <=? risk_score then
      if String.eqb base_label "Category I" then ("Category II", true)
      else if String.eqb base_label "Category II" then ("Category III", true)
      else (base_label, false)
    else (base_label, false) in
  mk_adjustment base_label adjusted_label (code_of nichd_code_map adjusted_label)
                adjustment_applied risk_score
                (if adjustment_applied then Some risk_score else None).


Definition factor_names : list (string * string) :=
  [ ("diabetes", "Сахарный диабет"); ("anemia", "Анемия");
    ("hypertension", "Хроническая гипертония"); ("preeclampsia", "Преэклампсия");
    ("infections", "Инфекционные заболевания");
    ("multiple", "Многоплодная беременность");
    ("placenta", "Патологии плаценты и пуповины");
    ("term", "Нарушение срока беременности") ].

(** One [{"factor": ..., "score": ...}] entry. *)
Record active_factor : Type := mk_active_factor {
  factor : string;
  score : Z
}.

Definition get_active_risk_factors (risk_factors : list (string * bool))
    : list active_factor :=
  fold_left
    (fun (active : list active_factor) (item : string * bool) =>
       let '(key, value) := item in
       if value then
         match dict_get factor_names key with
         | Some name => active ++ [mk_active_factor name (code_of RISK_SCORES key)]
         | None => active
         end
       else active)
    risk_factors [].

End RiskAdjustment.

(** The [{"label": ..., "code": ...}] pairs of the classifier results. *)
Record classification : Type := mk_classification {
  cls_label : string;
  cls_code : Z
}.

(** The ["risk_adjustment"] entry of the classifier results. *)
Record risk_adjustment_info : Type := mk_risk_adjustment_info {
  applied : bool;
  info_risk_score : Z;
  reason : option Z
}.

(* ------------------------------------------------------------------ *)
(** ** ctg_analysis/figo_nice.py *)

Module FigoNice.

Definition evaluate_baseline (baseline : Q) : string :=
  if Qle_bool 110 baseline && Qle_bool baseline 160 then "reassuring"
  else if (Qle_bool 100 baseline && Py.Qltb baseline 110)
          || (Qle_bool 161 baseline && Qle_bool baseline 180)
       then "non-reassuring"
       else "abnormal".

Definition evaluate_variability (variability : Q) (var_class : string) : string :=
  if String.eqb var_class "moderate" then "reassuring"
  else if existsb (String.eqb var_class) ["minimal"; "marked"] then "non-reassuring"
  else "abnormal".

Definition evaluate_accelerations (accels : Z) : string :=
  if 2 <=? accels then "reassuring" else "non-reassuring".

Definition evaluate_decelerations (decels_count : Z) : string :=
  if decels_count =? 0 then "reassuring"
  else if decels_count <? 3 then "non-reassuring"
  else "abnormal".

Record evaluations : Type := mk_evaluations {
  ev_baseline : string;
  ev_variability : string;
  ev_accelerations : string;
  ev_decelerations : string
}.

Record figo_result : Type := mk_figo_result {
  source : string;
  baseline : Q;
  variability : Q;
  variability_class : string;
  accelerations : Z;
  decelerations : Z;
  evals : evaluations;
  base_classification : classification;
  final_classification : classification;
  risk_adjustment : risk_adjustment_info;
  label : string;
  code : Z
}.

Definition classify_figo (fhr_series : list Q) (risk_factors : list (string * bool))
    (ga_weeks : Z) : option figo_result :=
  baseline <- Common.calc_baseline fhr_series ;;
  variability_value <- Variability.calculate_variability fhr_series ;;
  let var_class := Variability.classify_variability variability_value in
  let accels := Common.detect_accelerations fhr_series baseline ga_weeks in
  let decels_count :=
    Common.detect_decelerations fhr_series baseline
                                Common.default_deceleration_threshold in
  let baseline_eval := evaluate_baseline baseline in
  let variability_eval := evaluate_variability variability_value var_class in
  let accels_eval := evaluate_accelerations accels in
  let decels_eval := evaluate_decelerations decels_count in
  let evaluations := [baseline_eval; variability_eval; accels_eval; decels_eval] in
  let '(base_label, base_code) :=
    if forallb (fun ev => String.eqb ev "reassuring") evaluations then ("Normal", 0)
    else if existsb (String.eqb "abnormal") evaluations then ("Pathological", 2)
    else ("Suspicious", 1) in
  let risk_score := RiskAdjustment.calculate_risk_score risk_factors in
  let adjustment := RiskAdjustment.adjust_figo_classification base_label risk_score in
  Some (mk_figo_result
          "FIGO/NICE"
          (Py.round baseline 1)
          (Py.round variability_value 1)
          var_class accels decels_count
          (mk_evaluations baseline_eval variability_eval accels_eval decels_eval)
          (mk_classification base_label base_code)
          (mk_classification (RiskAdjustment.adjusted_label adjustment)
                             (RiskAdjustment.code adjustment))
          (mk_risk_adjustment_info (RiskAdjustment.adjustment_applied adjustment)
                                   risk_score
                                   (RiskAdjustment.adjustment_reason adjustment))
          (RiskAdjustment.adjusted_label adjustment)
          (RiskAdjustment.code adjustment)).

End FigoNice.

(* ------------------------------------------------------------------ *)
(** ** ctg_analysis/nichd_acog.py *)

Module NichdAcog.

Definition classify_nichd_category (baseline : Q) (var_class : string) (accels : Z)
    (decels_count : Z) (dec_pattern : string) : string * Z :=
  if Qle_bool 110 baseline && Qle_bool baseline 160
     && String.eqb var_class "moderate"
     && existsb (String.eqb dec_pattern) ["none"; "early"]
  then ("Category I", 0)
  else if String.eqb var_class "absent"
          && (existsb (String.eqb dec_pattern) ["late"; "variable"]
              || Py.Qltb baseline 110
              || (3 <? decels_count))
  then ("Category III", 2)
  else ("Category II", 1).

Record deceleration_info : Type := mk_deceleration_info {
  dec_count : Z;
  pattern : string
}.

Record nichd_result : Type := mk_nichd_result {
  source : string;
  baseline : Q;
  variability : Q;
  variability_class : string;
  accelerations : Z;
  decelerations : deceleration_info;
  base_classification : classification;
  final_classification : classification;
  risk_adjustment : risk_adjustment_info;
  label : string;
  code : Z
}.

Definition classify_nichd (fhr_series : list Q) (risk_factors : list (string * bool))
    (ga_weeks : Z) : option nichd_result :=
  baseline <- Common.calc_baseline fhr_series ;;
  variability_value <- Variability.calculate_variability fhr_series ;;
  let var_class := Variability.classify_variability variability_value in
  let accels := Common.detect_accelerations fhr_series baseline ga_weeks in
  let decels_count :=
    Common.detect_decelerations fhr_series baseline
                                Common.default_deceleration_threshold in
  let dec_pattern :=
    if decels_count =? 0 then "none"
    else if decels_count <=? 2 then "early"
    else if decels_count <=? 5 then "variable"
    else "late" in
  let '(base_label, base_code) :=
    classify_nichd_category baseline var_class accels decels_count dec_pattern in
  let risk_score := RiskAdjustment.calculate_risk_score risk_factors in
  let adjustment := RiskAdjustment.adjust_nichd_classification base_label risk_score in
  Some (mk_nichd_result
          "NICHD/ACOG"
          (Py.round baseline 1)
          (Py.round variability_value 1)
          var_class accels
          (mk_deceleration_info decels_count dec_pattern)
          (mk_classification base_label base_code)
          (mk_classification (RiskAdjustment.adjusted_label adjustment)
                             (RiskAdjustment.code adjustment))
          (mk_risk_adjustment_info (RiskAdjustment.adjustment_applied adjustment)
                                   risk_score
                                   (RiskAdjustment.adjustment_reason adjustment))
          (RiskAdjustment.adjusted_label adjustment)
          (RiskAdjustment.code adjustment)).

End NichdAcog.

(* ------------------------------------------------------------------ *)
(** ** ctg_analysis/hypoxia.py *)

Module Hypoxia.

(** One [{"time": ..., "risk": ...}] entry of the risk series. *)
Record risk_point : Type := mk_risk_point {
  time : Q;
  risk : Q
}.

(** [sum(1 for v in l if p v)]. *)
Definition count_if (p : Q -> bool) (l : list Q) : Z :=
  fold_left (fun acc v => if p v then acc + 1 else acc) l 0.

Definition detect_accelerations_in_window (window_fhr : list Q) (baseline : Q)
    (threshold : Z) : bool * Z :=
  let hit := fun fhr => Qle_bool (baseline + inject_Z threshold) fhr in
  (existsb hit window_fhr, count_if hit window_fhr).

Definition detect_decelerations_in_window (window_fhr : list Q) (baseline : Q)
    (threshold : Z) : bool * Z :=
  let hit := fun fhr => Qle_bool fhr (baseline - inject_Z threshold) in
  (existsb hit window_fhr, count_if hit window_fhr).

(** [count_contractions(uc_series)] with the default [threshold=15.0]; the
    loop state is the count and the [in_contraction] flag. *)
Definition count_contractions (uc_series : list Q) : Z :=
  fst (fold_left
         (fun (st : Z * bool) uc =>
            let '(contractions, in_contraction) := st in
            if Py.Qltb 15 uc then
              if negb in_contraction then (contractions + 1, true)
              else (contractions, in_contraction)
            else (contractions, false))
         uc_series (0, false)).

(** [variability] is [None] for Python's [None]. *)
Definition calculate_window_risk (baseline : Q) (variability : option Q) (uc_count : Z)
    (accel_present decel_present : bool) (accel_count decel_count : Z) : Q :=
  let baseline_score :=
    if Py.Qeqb baseline 0 then 2
    else if Qle_bool 110 baseline && Qle_bool baseline 160 then 0
    else if (Qle_bool 105 baseline && Py.Qltb baseline 110)
            || (Py.Qltb 160 baseline && Qle_bool baseline 165) then 1
    else 2 in
  let var_score :=
    match variability with
    | None => 2
    | Some v =>
        if Py.Qeqb v 0 then 2
        else if Qle_bool 5 v then 0
        else if Qle_bool 3 v && Py.Qltb v 5 then 1
        else 2
    end in
  let dec_score := if decel_present then 2 else 0 in
  let acc_score := if accel_present then 0 else 1 in
  let acc_count_score := Z.max 0 (Z.min 1 (2 - accel_count)) in
  let dec_count_score := Z.min 2 (decel_count / 5) in
  let total_score :=
    baseline_score + var_score + dec_score + acc_score
    + acc_count_score + dec_count_score in
  Py.max 0 (Py.min 1 (inject_Z total_score / 10)).

(** The body of the sliding-window loop at window start [i]. *)
Definition window_result (fhr_series uc_series : list Q) (variability_value : option Q)
    (time_series : list Q) (window_size : Z) (i : Z) : option risk_point :=
  let THRESH_ACCEL := 15 in
  let THRESH_DECEL := 15 in
  let window_fhr := Py.slice fhr_series (Z.to_nat i) (Z.to_nat (i + window_size)) in
  let window_uc :=
    if i + window_size <=? Py.len uc_series
    then Py.slice uc_series (Z.to_nat i) (Z.to_nat (i + window_size))
    else [] in
  baseline <- (if Common.is_empty window_fhr then Some 0%Q
               else Py.np_median window_fhr) ;;
  let '(accel_present, accel_count) :=
    detect_accelerations_in_window window_fhr baseline THRESH_ACCEL in
  let '(decel_present, decel_count) :=
    detect_decelerations_in_window window_fhr baseline THRESH_DECEL in
  let uc_count :=
    if Common.is_empty window_uc then 0 else count_contractions window_uc in
  let risk :=
    calculate_window_risk baseline variability_value uc_count
                          accel_present decel_present accel_count decel_count in
  time_center <-
    (if i + window_size / 2 <? Py.len time_series
     then nth_error time_series (Z.to_nat (i + window_size / 2))
     else nth_error time_series (Z.to_nat i)) ;;
  Some (mk_risk_point time_center risk).

Definition calculate_hypoxia_risk_with (fhr_series uc_series : list Q)
    (variability_value : option Q) (time_series : list Q)
    (window_minutes step_minutes : Z) : option (list risk_point) :=
  let window_size := window_minutes * 60 in
  let step_size := step_minutes * 60 in
  Py.mapM (window_result fhr_series uc_series variability_value time_series window_size)
          (Py.range_step (Py.len fhr_series - window_size + 1) step_size).

(** [calculate_hypoxia_risk] with the defaults [window_minutes=2] and
    [step_minutes=1]. *)
Definition calculate_hypoxia_risk (fhr_series uc_series : list Q)
    (variability_value : option Q) (time_series : list Q) : option (list risk_point) :=
  calculate_hypoxia_risk_with fhr_series uc_series variability_value time_series 2 1.



End Hypoxia.

(* ------------------------------------------------------------------ *)
(** ** ctg_analysis/ai_module.py *)

Module AiModule.

(** The entries of the feature dict that [predict_timeframe] reads. *)
Record features : Type := mk_features {
  fhr_mean : Q;
  fhr_std : Q;
  fhr_trend : Q;
  risk_score : Q
}.

(** The per-horizon dict; its ["prediction"] text is fixed by [status]. *)
Record prediction : Type := mk_prediction {
  status : string;
  risk_level : Q;
  confidence : Q;
  timeframe : string
}.

(** The risk accumulated from the features, before the horizon factor. *)
Definition accumulated_risk (f : features) : Q :=
  let risk_level := 0%Q in
  let risk_level :=
    if Py.Qltb (fhr_mean f) 110 || Py.Qltb 160 (fhr_mean f)
    then (risk_level + (3 # 10))%Q else risk_level in
  let risk_level :=
    if Py.Qltb (fhr_std f) 5 then (risk_level + (3 # 10))%Q
    else if Py.Qltb 25 (fhr_std f) then (risk_level + (2 # 10))%Q
    else risk_level in
  let risk_level :=
    if Py.Qltb (fhr_trend f) (- (1 # 2)) then (risk_level + (2 # 10))%Q
    else if Py.Qltb (1 # 2) (fhr_trend f) then (risk_level + (1 # 10))%Q
    else risk_level in
  let risk_score_norm := Py.min (risk_score f / 10) (3 # 10) in
  (risk_level + risk_score_norm)%Q.

Definition predict_timeframe (f : features) (timeframe : string) : prediction :=
  let risk_level := accumulated_risk f in
  let risk_level :=
    if String.eqb timeframe "15min" then risk_level
    else if String.eqb timeframe "30min" then (risk_level * (12 # 10))%Q
    else (risk_level * (15 # 10))%Q in
  let risk_level := Py.min (Py.max risk_level 0) 1 in
  let '(status, confidence) :=
    if Py.Qltb risk_level (3 # 10) then ("normal", (85 # 100)%Q)
    else if Py.Qltb risk_level (6 # 10) then ("warning", (70 # 100)%Q)
    else ("danger", (60 # 100)%Q) in
  mk_prediction status (Py.round risk_level 2) confidence timeframe.


(** [count_peaks(series, threshold)]; the loop state is the count and the
    [in_peak] flag. *)
Definition count_peaks (series : list Q) (threshold : Q) : Z :=
  fst (fold_left
         (fun (st : Z * bool) value =>
            let '(peaks, in_peak) := st in
            if Py.Qltb threshold value then
              if negb in_peak then (peaks + 1, true)
              else (peaks, in_peak)
            else (peaks, false))
         series (0, false)).

(** The ["risk_score"] entry computed by [extract_features]:
    [sum([risk_factors.get(key, 0) * weight, ...])], a present flag counting
    as 1. *)
Definition extract_risk_score (risk_factors : list (string * bool)) : Z :=
  let get := fun key =>
    match RiskAdjustment.dict_get risk_factors key with
    | Some true => 1
    | Some false => 0
    | None => 0
    end in
  fold_left Z.add
    [ get "diabetes" * 2; get "anemia" * 1; get "hypertension" * 2;
      get "preeclampsia" * 3; get "infections" * 2; get "multiple" * 2;
      get "placenta" * 3; get "term" * 2 ]
    0.

End AiModule.

(* ------------------------------------------------------------------ *)
(** ** services/analysis_service.py: the forecast synthesizer *)

Module AnalysisService.

(** What the synthesizer reads of a classifier result dict: its ["code"]
    entry, absent in the substitute dict built after a failure.  [None] as a
    [figo_result] or [nichd_result] argument stands for Python's [None] and
    for the empty dict, both falsy. *)
Record classifier_view : Type := mk_classifier_view {
  view_code : option Z
}.

(** What it reads of a per-horizon predictor dict: its ["status"] entry.
    The predictor result is kept as its per-horizon entries, keyed by the
    horizon name. *)
Record horizon_view : Type := mk_horizon_view {
  view_status : option string
}.

Definition view_of_figo (r : FigoNice.figo_result) : classifier_view :=
  mk_classifier_view (Some (FigoNice.code r)).

Definition view_of_nichd (r : NichdAcog.nichd_result) : classifier_view :=
  mk_classifier_view (Some (NichdAcog.code r)).

Definition view_of_prediction (p : AiModule.prediction) : horizon_view :=
  mk_horizon_view (Some (AiModule.status p)).

(** [d.get(key, default)] on an optional entry. *)
Definition get_or {A : Type} (entry : option A) (default : A) : A :=
  match entry with
  | Some a => a
  | None => default
  end.

(** [_calculate_risk_trend]. *)
Definition _calculate_risk_trend (risk_values : list Q) : Q :=
  if (length risk_values <? 2)%nat then 0%Q
  else
    let n := length risk_values in
    let x := map Z.of_nat (seq 0 n) in
    let y := risk_values in
    let sum_x := fold_left Z.add x 0 in
    let sum_y := Py.sum y in
    let sum_xy := Py.sum (map (fun i => (inject_Z (nth i x 0%Z) * nth i y 0)%Q) (seq 0 n)) in
    let sum_x2 := fold_left Z.add (map (fun i => nth i x 0 ^ 2) (seq 0 n)) 0 in
    if Z.of_nat n * sum_x2 - sum_x ^ 2 =? 0 then 0%Q
    else
      let slope :=
        ((inject_Z (Z.of_nat n) * sum_xy - inject_Z sum_x * sum_y)
         / inject_Z (Z.of_nat n * sum_x2 - sum_x ^ 2))%Q in
      Py.max (-1) (Py.min 1 (slope * 10)).

(** The horizon multiplier chosen by the [if]/[elif]/[else] on [timeframe]. *)
Definition time_multiplier (timeframe : string) : Q :=
  if String.eqb timeframe "15min" then (11 # 10)%Q
  else if String.eqb timeframe "30min" then (13 # 10)%Q
  else (16 # 10)%Q.

Definition _predict_hypoxia_risk_for_timeframe (current_risk : Q)
    (hypoxia_risk_history : list Hypoxia.risk_point) (timeframe : string) : Q :=
  if Common.is_empty hypoxia_risk_history || (length hypoxia_risk_history <? 2)%nat
  then current_risk
  else
    let recent_risks := map Hypoxia.risk (Py.last_n hypoxia_risk_history 10) in
    let trend := _calculate_risk_trend recent_risks in
    let predicted_risk := (current_risk * (1 + trend * time_multiplier timeframe))%Q in
    Py.max 0 (Py.min 1 predicted_risk).

(** [ai_result[timeframe]] when [ai_result and timeframe in ai_result] holds;
    an empty or absent [ai_result] has no entry. *)
Definition ai_entry (ai_result : option (list (string * horizon_view)))
    (timeframe : string) : option horizon_view :=
  match ai_result with
  | Some d => RiskAdjustment.dict_get d timeframe
  | None => None
  end.

(** [r and r.get('code', 0) >= 2], and the same with [== 1]. *)
Definition code_ge_2 (r : option classifier_view) : bool :=
  match r with
  | Some v => 2 <=? get_or (view_code v) 0
  | None => false
  end.

Definition code_eq_1 (r : option classifier_view) : bool :=
  match r with
  | Some v => get_or (view_code v) 0 =? 1
  | None => false
  end.

(** The base status of [_determine_forecast_status], before the risk
    override. *)
Definition base_status_of (figo_result nichd_result : option classifier_view)
    (ai_result : option (list (string * horizon_view))) (timeframe : string) : string :=
  match ai_entry ai_result timeframe with
  | Some h => get_or (view_status h) "normal"
  | None =>
      if code_ge_2 figo_result then "danger"
      else if code_ge_2 nichd_result then "danger"
      else if code_eq_1 figo_result then "warning"
      else if code_eq_1 nichd_result then "warning"
      else "normal"
  end.

Definition _determine_forecast_status (figo_result nichd_result : option classifier_view)
    (ai_result : option (list (string * horizon_view))) (hypoxia_risk : Q)
    (timeframe : string) : string :=
  let base_status := base_status_of figo_result nichd_result ai_result timeframe in
  if Py.Qltb (7 # 10) hypoxia_risk then "danger"
  else if Py.Qltb (4 # 10) hypoxia_risk then
    if String.eqb base_status "normal" then "warning" else base_status
  else base_status.

(** The forecast dict; its ["text"] narrative is not modelled. *)
Record forecast : Type := mk_forecast {
  status : string;
  hypoxia_risk : Q
}.

Definition _generate_forecast_with_hypoxia_risk
    (figo_result nichd_result : option classifier_view)
    (ai_result : option (list (string * horizon_view)))
    (hypoxia_risk : list Hypoxia.risk_point) (timeframe : string) : forecast :=
  let current_hypoxia_risk :=
    match Py.last_item hypoxia_risk with
    | Some point => Hypoxia.risk point
    | None => 0%Q
    end in
  let predicted_risk :=
    _predict_hypoxia_risk_for_timeframe current_hypoxia_risk hypoxia_risk timeframe in
  let status :=
    _determine_forecast_status figo_result nichd_result ai_result predicted_risk timeframe in
  mk_forecast status predicted_risk.


Definition _determine_status (baseline_fhr : Q) : string :=
  if Py.Qltb baseline_fhr 110 then "bradycardia"
  else if Py.Qltb 160 baseline_fhr then "tachycardia"
  else "normal".



End AnalysisService.

(* ------------------------------------------------------------------ *)
(** ** Reference notions the properties are stated against *)

Module Reference.

(** The label sets of the two standards, in increasing severity. *)
Definition figo_labels : list string := ["Normal"; "Suspicious"; "Pathological"].
Definition nichd_labels : list string := ["Category I"; "Category II"; "Category III"].

(** Severity rank of a forecast status. *)
Definition severity (status : string) : Z :=
  if String.eqb status "danger" then 2
  else if String.eqb status "warning" then 1
  else 0.

(** [segmentation P l runs]: [runs] lists, in order, the maximal contiguous
    runs of [l] whose samples all satisfy [P].  A run is non-empty, starts at
    the beginning of the series or right after a sample that fails [P], and
    ends at the end of the series or right before a sample that fails [P]. *)
Inductive segmentation (P : Q -> Prop) : list Q -> list (list Q) -> Prop :=
| seg_end : segmentation P [] []
| seg_gap : forall x l runs,
    ~ P x -> segmentation P l runs -> segmentation P (x :: l) runs
| seg_run : forall r l runs,
    r <> [] -> Forall P r ->
    (l = [] \/ exists x l', l = x :: l' /\ ~ P x) ->
    segmentation P l runs -> segmentation P (r ++ l) (r :: runs).

(** The number of runs that last at least [min_len] samples. *)
Definition count_long (min_len : nat) (runs : list (list Q)) : Z :=
  Z.of_nat (length (filter (fun r => (min_len <=? length r)%nat) runs)).

(** The maximal runs of a series for a decidable test, computed by
    splitting off the leading run or gap; [fuel] bounds the number of
    splits. *)
Fixpoint take_while (p : Q -> bool) (l : list Q) : list Q :=
  match l with
  | x :: l' => if p x then x :: take_while p l' else []
  | [] => []
  end.

Fixpoint drop_while (p : Q -> bool) (l : list Q) : list Q :=
  match l with
  | x :: l' => if p x then drop_while p l' else l
  | [] => []
  end.

Fixpoint maximal_runs_fuel (fuel : nat) (p : Q -> bool) (l : list Q) : list (list Q) :=
  match fuel with
  | O => []
  | S fuel' =>
      match drop_while (fun v => negb (p v)) l with
      | [] => []
      | rest => take_while p rest :: maximal_runs_fuel fuel' p (drop_while p rest)
      end
  end.

Definition maximal_runs (p : Q -> bool) (l : list Q) : list (list Q) :=
  maximal_runs_fuel (S (length l)) p l.

(** The hit tests of the two detectors, as propositions. *)
Definition above (baseline : Q) (threshold : Z) (v : Q) : Prop :=
  (baseline + inject_Z threshold <= v)%Q.

Definition below (baseline : Q) (threshold : Z) (v : Q) : Prop :=
  (v <= baseline - inject_Z threshold)%Q.

(** [clamp lo hi x] with the library's [Qmin] and [Qmax]. *)
Definition clamp (lo hi x : Q) : Q := Qmax lo (Qmin hi x).

(** Arithmetic mean and the ordinary-least-squares slope of [ys] against
    the sample indices [0, 1, ..., n-1]: covariance over variance. *)
Fixpoint total (l : list Q) : Q :=
  match l with
  | [] => 0%Q
  | x :: l' => (x + total l')%Q
  end.

Definition mean (l : list Q) : Q := (total l / inject_Z (Z.of_nat (length l)))%Q.

Definition indices (n : nat) : list Q := map (fun i => inject_Z (Z.of_nat i)) (seq 0 n).

Definition ols_slope (ys : list Q) : Q :=
  let xs := indices (length ys) in
  let xbar := mean xs in
  let ybar := mean ys in
  let cov := total (map (fun xy => ((fst xy - xbar) * (snd xy - ybar))%Q) (combine xs ys)) in
  let var := total (map (fun x => ((x - xbar) * (x - xbar))%Q) xs) in
  (cov / var)%Q.

(** The last [k] elements of a list, or all of it when it is shorter. *)
Definition trailing {A : Type} (k : nat) (l : list A) : list A :=
  rev (firstn k (rev l)).

(** The risk trend of the synthesizer as the text states it. *)
Definition trend_of (recent : list Q) : Q := clamp (-1) 1 (ols_slope recent * 10).

End Reference.

(* ------------------------------------------------------------------ *)
(** ** Sample traces *)

Module Traces.

(** Thirty samples alternating 140 and 146. *)
Definition calm : list Q := concat (repeat [140; 146]%Q 15).

(** Sixteen samples alternating 160 and 166. *)
Definition rise : list Q := concat (repeat [160; 166]%Q 8).

(** A calm trace with two sustained rises and no fall. *)
Definition reassuring_trace : list Q := calm ++ rise ++ calm ++ rise ++ calm.

(** Preeclampsia and a placental pathology: a risk score of 6. *)
Definition high_risk : list (string * bool) :=
  [ ("preeclampsia", true); ("placenta", true) ].

End Traces.

(* ================================================================== *)
(** * Properties *)

Ltac split_all := repeat match goal with |- _ /\ _ => split end.

Ltac each_label H :=
  repeat (destruct H as [ <- | H ]; [ | try contradiction ]).

(** ** The run detectors count the long maximal runs *)

Section RunDetector.

Variable hit : Q -> bool.
Variable P : Q -> Prop.
Hypothesis hit_iff : forall v, hit v = true <-> P v.

Let step := Common.run_step hit.

Lemma hit_false (v : Q) : ~ P v -> hit v = false.
Proof.
  intros HnP. destruct (hit v) eqn:E; [ | reflexivity ].
  apply hit_iff in E. contradiction.
Qed.

Lemma fold_open_run (r : list Q) :
  Forall P r ->
  forall c k,
    fold_left step r (Common.mk_run_state c true k)
    = Common.mk_run_state c true (k + Z.of_nat (length r)).
Proof.
  induction 1 as [ | v r Hv _ IH ]; intros c k; simpl.
  - f_equal. lia.
  - unfold step at 2, Common.run_step. simpl.
    apply hit_iff in Hv. rewrite Hv. rewrite IH. f_equal. lia.
Qed.

Lemma fold_fresh_run (r : list Q) :
  r <> [] -> Forall P r ->
  forall c k,
    fold_left step r (Common.mk_run_state c false k)
    = Common.mk_run_state c true (Z.of_nat (length r)).
Proof.
  intros Hne HP c k. destruct r as [ | v r ]; [ congruence | ].
  inversion HP as [ | ? ? Hv Hr ]; subst. simpl.
  unfold step at 2, Common.run_step. simpl.
  apply hit_iff in Hv. rewrite Hv. rewrite (fold_open_run r Hr). f_equal. lia.
Qed.

Lemma step_gap (x : Q) (c k : Z) (b : bool) :
  ~ P x ->
  step (Common.mk_run_state c b k) x
  = Common.mk_run_state (if b && (15 <=? k) then c + 1 else c) false 0.
Proof.
  intros HnP. unfold step, Common.run_step. rewrite (hit_false x HnP). reflexivity.
Qed.

Lemma long_run_test (r : list Q) :
  (15 <=? Z.of_nat (length r)) = (15 <=? length r)%nat.
Proof.
  destruct (Nat.leb_spec 15 (length r)); [ apply Z.leb_le | apply Z.leb_gt ]; lia.
Qed.

Lemma count_long_cons (r : list Q) (runs : list (list Q)) :
  Reference.count_long 15 (r :: runs)
  = (if (15 <=? length r)%nat then 1 else 0) + Reference.count_long 15 runs.
Proof.
  unfold Reference.count_long. cbn [filter].
  destruct (15 <=? length r)%nat; [ | lia ].
  change (length (r :: filter (fun r0 => (15 <=? length r0)%nat) runs))
    with (S (length (filter (fun r0 => (15 <=? length r0)%nat) runs))).
  lia.
Qed.

(** From a closed state, the loop and the final flush add to the count
    the number of maximal runs of at least 15 samples. *)
Lemma detector_counts_runs (l : list Q) (runs : list (list Q)) :
  Reference.segmentation P l runs ->
  forall c,
    Common.run_flush (fold_left step l (Common.mk_run_state c false 0))
    = c + Reference.count_long 15 runs.
Proof.
  induction 1 as [ | x l runs HnP _ IH | r l runs Hne HP Hnext _ IH ]; intros c.
  - unfold Reference.count_long. simpl. unfold Common.run_flush. simpl. lia.
  - simpl. rewrite (step_gap x c 0 false HnP). simpl. apply IH.
  - rewrite fold_left_app, (fold_fresh_run r Hne HP), count_long_cons.
    destruct Hnext as [ -> | (x & l' & -> & HnP) ].
    + specialize (IH c). cbn in IH.
      cbn [fold_left]. unfold Common.run_flush.
      cbn [Common.in_run Common.run_length Common.events andb].
      rewrite long_run_test. destruct (15 <=? length r)%nat; lia.
    + specialize (IH (if (15 <=? length r)%nat then c + 1 else c)).
      cbn [fold_left] in IH. rewrite (step_gap x _ 0 false HnP) in IH.
      cbn [andb] in IH.
      cbn [fold_left]. rewrite (step_gap x c _ true HnP). cbn [andb].
      rewrite long_run_test, IH. destruct (15 <=? length r)%nat; lia.
Qed.

End RunDetector.

(** ** Every series has a segmentation: the computed maximal runs *)

Section MaximalRuns.

Variable p : Q -> bool.
Variable P : Q -> Prop.
Hypothesis p_iff : forall v, p v = true <-> P v.

Lemma take_drop_while (q : Q -> bool) (l : list Q) :
  Reference.take_while q l ++ Reference.drop_while q l = l.
Proof.
  induction l as [ | x l IH ]; simpl; [ reflexivity | ].
  destruct (q x); simpl; [ now rewrite IH | reflexivity ].
Qed.

Lemma take_while_all (q : Q -> bool) (l : list Q) :
  Forall (fun v => q v = true) (Reference.take_while q l).
Proof.
  induction l as [ | x l IH ]; simpl; [ constructor | ].
  destruct (q x) eqn:E; constructor; assumption.
Qed.

Lemma drop_while_head (q : Q -> bool) (l : list Q) :
  Reference.drop_while q l = []
  \/ exists x l', Reference.drop_while q l = x :: l' /\ q x = false.
Proof.
  induction l as [ | x l IH ]; simpl; [ now left | ].
  destruct (q x) eqn:E; [ exact IH | right; eauto ].
Qed.

Lemma drop_while_length (q : Q -> bool) (l : list Q) :
  (length (Reference.drop_while q l) <= length l)%nat.
Proof.
  induction l as [ | x l IH ]; simpl; [ lia | ].
  destruct (q x); simpl; lia.
Qed.

Lemma segmentation_gaps (g l : list Q) (runs : list (list Q)) :
  Forall (fun v => ~ P v) g ->
  Reference.segmentation P l runs -> Reference.segmentation P (g ++ l) runs.
Proof.
  induction 1 as [ | x g Hx _ IH ]; intros Hl; simpl; [ assumption | ].
  apply Reference.seg_gap; auto.
Qed.

Lemma not_p_false (v : Q) : p v = false -> ~ P v.
Proof. intros E HP. apply p_iff in HP. congruence. Qed.

Lemma maximal_runs_fuel_segmentation (fuel : nat) :
  forall l, (length l < fuel)%nat ->
            Reference.segmentation P l (Reference.maximal_runs_fuel fuel p l).
Proof.
  induction fuel as [ | fuel IH ]; intros l Hlen; [ lia | ].
  cbn [Reference.maximal_runs_fuel].
  set (q := fun v => negb (p v)).
  assert (Hgaps : Forall (fun v => ~ P v) (Reference.take_while q l)).
  { eapply Forall_impl; [ | apply take_while_all ].
    intros v Hv. apply not_p_false. unfold q in Hv.
    now apply negb_true_iff in Hv. }
  pose proof (take_drop_while q l) as Hsplit.
  pose proof (drop_while_length q l) as Hrest.
  destruct (drop_while_head q l) as [ Hnil | (x & rest' & Hcons & Hx) ].
  - rewrite Hnil in *. rewrite <- Hsplit.
    apply segmentation_gaps; [ assumption | constructor ].
  - rewrite Hcons in *. rewrite <- Hsplit at 1.
    apply segmentation_gaps; [ assumption | ].
    unfold q in Hx. apply negb_false_iff in Hx.
    pose proof (take_drop_while p (x :: rest')) as Hrun.
    pose proof (drop_while_length p rest') as Htail.
    rewrite <- Hrun at 1.
    apply Reference.seg_run.
    + simpl. rewrite Hx. discriminate.
    + eapply Forall_impl; [ | apply take_while_all ].
      intros v Hv. now apply p_iff.
    + destruct (drop_while_head p (x :: rest')) as [ E | (y & t & E & Hy) ].
      * now left.
      * right. exists y, t. split; [ assumption | now apply not_p_false ].
    + apply IH. simpl. rewrite Hx. simpl in Hrest. lia.
Qed.

Lemma maximal_runs_segmentation (l : list Q) :
  Reference.segmentation P l (Reference.maximal_runs p l).
Proof. apply maximal_runs_fuel_segmentation. lia. Qed.

(** A series made of one stretch of hits between two stretches of misses
    has that stretch as its only run. *)
Lemma single_run_segmentation (pre run post : list Q) :
  run <> [] ->
  Forall (fun v => ~ P v) pre -> Forall P run -> Forall (fun v => ~ P v) post ->
  Reference.segmentation P (pre ++ run ++ post) [run].
Proof.
  intros Hne Hpre Hrun Hpost.
  apply segmentation_gaps; [ assumption | ].
  apply Reference.seg_run; try assumption.
  - destruct Hpost as [ | x post Hx _ ]; [ now left | right; eauto ].
  - rewrite <- (app_nil_r post). apply segmentation_gaps; [ assumption | constructor ].
Qed.

End MaximalRuns.

(** ** Acceleration detection (C5) *)

Lemma above_iff (baseline : Q) (threshold : Z) (v : Q) :
  Qle_bool (baseline + inject_Z threshold) v = true <-> Reference.above baseline threshold v.
Proof. apply Qle_bool_iff. Qed.

Lemma below_iff (baseline : Q) (threshold : Z) (v : Q) :
  Qle_bool v (baseline - inject_Z threshold) = true <-> Reference.below baseline threshold v.
Proof. apply Qle_bool_iff. Qed.

Lemma segmentation_nil_runs (P : Q -> Prop) (runs : list (list Q)) :
  Reference.segmentation P [] runs -> runs = [].
Proof.
  intros H. remember (@nil Q) as l0 eqn:El0.
  destruct H as [ | x l runs _ _ | r l runs Hne _ _ _ ].
  - reflexivity.
  - discriminate El0.
  - apply app_eq_nil in El0. destruct El0. contradiction.
Qed.

Lemma nonzero_test (baseline : Q) : ~ (baseline == 0)%Q -> Py.Qeqb baseline 0 = false.
Proof.
  intros Hnz. unfold Py.Qeqb. destruct (Qeq_bool baseline 0) eqn:E; [ | reflexivity ].
  apply Qeq_bool_iff in E. contradiction.
Qed.

Lemma detect_accelerations_runs (fhr_series : list Q) (baseline : Q) (ga_weeks : Z)
    (runs : list (list Q)) :
  ~ (baseline == 0)%Q ->
  Reference.segmentation
    (Reference.above baseline (Common.acceleration_threshold ga_weeks)) fhr_series runs ->
  Common.detect_accelerations fhr_series baseline ga_weeks = Reference.count_long 15 runs.
Proof.
  intros Hnz Hseg. unfold Common.detect_accelerations.
  rewrite (nonzero_test baseline Hnz), orb_false_r.
  destruct fhr_series as [ | v l ].
  - apply segmentation_nil_runs in Hseg. subst. reflexivity.
  - cbn [Common.is_empty]. cbv zeta.
    apply (detector_counts_runs _ _ (above_iff baseline _) _ _ Hseg 0).
Qed.

Lemma detect_decelerations_runs (fhr_series : list Q) (baseline : Q) (threshold : Z)
    (runs : list (list Q)) :
  ~ (baseline == 0)%Q ->
  Reference.segmentation (Reference.below baseline threshold) fhr_series runs ->
  Common.detect_decelerations fhr_series baseline threshold = Reference.count_long 15 runs.
Proof.
  intros Hnz Hseg. unfold Common.detect_decelerations.
  rewrite (nonzero_test baseline Hnz), orb_false_r.
  destruct fhr_series as [ | v l ].
  - apply segmentation_nil_runs in Hseg. subst. reflexivity.
  - cbn [Common.is_empty].
    apply (detector_counts_runs _ _ (below_iff baseline _) _ _ Hseg 0).
Qed.

(** C5.  For a nonzero baseline, [detect_accelerations] returns the number
    of maximal contiguous runs of samples [>= baseline + threshold] that last
    at least 15 samples, a run still open at the end of the series included;
    such a segmentation into maximal runs always exists.  In particular a
    series whose only above-threshold stretch has 14 samples yields 0 events,
    and one whose only such stretch has 15 samples yields 1. *)
Theorem detect_accelerations_counts_long_runs
    (fhr_series : list Q) (baseline : Q) (ga_weeks : Z) :
  ~ (baseline == 0)%Q ->
  let threshold := Common.acceleration_threshold ga_weeks in
  let hit := Reference.above baseline threshold in
  (forall runs,
      Reference.segmentation hit fhr_series runs ->
      Common.detect_accelerations fhr_series baseline ga_weeks
      = Reference.count_long 15 runs)
  /\ Reference.segmentation hit fhr_series
       (Reference.maximal_runs
          (fun v => Qle_bool (baseline + inject_Z threshold) v) fhr_series)
  /\ (forall pre run post,
         fhr_series = pre ++ run ++ post ->
         Forall (fun v => ~ hit v) pre -> Forall hit run ->
         Forall (fun v => ~ hit v) post ->
         (length run = 14%nat ->
          Common.detect_accelerations fhr_series baseline ga_weeks = 0)
         /\ (length run = 15%nat ->
             Common.detect_accelerations fhr_series baseline ga_weeks = 1)).
Proof.
  intros Hnz threshold hit. split; [ | split ].
  - intros runs Hseg. now apply detect_accelerations_runs.
  - apply maximal_runs_segmentation. intros v. apply above_iff.
  - intros pre run post -> Hpre Hrun Hpost.
    assert (Hone : forall n, length run = S n ->
              Common.detect_accelerations (pre ++ run ++ post) baseline ga_weeks
              = Reference.count_long 15 [run]).
    { intros n Hlen. apply detect_accelerations_runs; [ assumption | ].
      apply single_run_segmentation; try assumption.
      intros ->. discriminate. }
    split; intros Hlen; rewrite (Hone _ Hlen);
      unfold Reference.count_long; cbn [filter]; rewrite Hlen; reflexivity.
Qed.

(** A 15-sample stretch at 160 in a series around a baseline of 140 is one
    acceleration. *)
Lemma detect_accelerations_counts_long_runs_witness :
  ~ (140 == 0)%Q
  /\ Common.detect_accelerations ([140; 141] ++ repeat 160 15 ++ [139])%Q 140 37 = 1.
Proof.
  assert (Hnz : ~ (140 == 0)%Q) by (intros H; discriminate H).
  split; [ exact Hnz | ].
  refine (proj2 (proj2 (proj2
            (detect_accelerations_counts_long_runs
               ([140; 141] ++ repeat 160 15 ++ [139])%Q 140 37 Hnz))
            [140; 141]%Q (repeat 160 15)%Q [139]%Q eq_refl _ _ _) eq_refl).
  - repeat constructor; intros H; vm_compute in H; apply H; reflexivity.
  - repeat constructor; intros H; discriminate H.
  - repeat constructor; intros H; vm_compute in H; apply H; reflexivity.
Defined.

(** ** The statistic primitives are defined on every series (C8, C9) *)

Lemma mapM_defined {A B : Type} (f : A -> option B) (l : list A) :
  (forall a, In a l -> exists b, f a = Some b) ->
  exists bs, Py.mapM f l = Some bs /\ length bs = length l.
Proof.
  induction l as [ | a l IH ]; intros Hf; simpl.
  - exists []. split; reflexivity.
  - destruct (Hf a (or_introl eq_refl)) as (b & ->).
    destruct IH as (bs & -> & Hlen).
    + intros a' Ha'. apply Hf. now right.
    + exists (b :: bs). split; [ reflexivity | simpl; lia ].
Qed.

Lemma np_median_defined (l : list Q) :
  l <> [] -> exists m, Py.np_median l = Some m.
Proof.
  destruct l as [ | x l ]; [ congruence | intros _ ].
  unfold Py.np_median. destruct (Nat.even _); eauto.
Qed.

Lemma slice_length {A : Type} (l : list A) (i w : nat) :
  (i + w <= length l)%nat -> length (Py.slice l i (i + w)) = w.
Proof.
  intros H. unfold Py.slice. rewrite length_firstn, length_skipn. lia.
Qed.

Lemma nonempty_of_length {A : Type} (l : list A) : (0 < length l)%nat -> l <> [].
Proof. intros H ->. simpl in H. lia. Qed.

Lemma calc_baseline_ws_defined (fhr_series : list Q) (window_size : nat) :
  (0 < window_size)%nat ->
  exists b, Common.calc_baseline_ws fhr_series window_size = Some b.
Proof.
  intros Hws. unfold Common.calc_baseline_ws.
  destruct fhr_series as [ | v l ]; [ eauto | ].
  remember (filter Common.in_range_50_200 (v :: l)) as filtered eqn:Ef.
  destruct filtered as [ | y ys ]; [ eauto | ].
  destruct (Nat.ltb_spec (length (y :: ys)) window_size) as [ Hlt | Hge ].
  - apply np_median_defined. discriminate.
  - destruct (mapM_defined
                (fun i => Py.np_median (Py.slice (y :: ys) i (i + window_size)))
                (seq 0 (length (y :: ys) - window_size + 1)))
      as (meds & Hmeds & Hlen).
    + intros i Hi. apply in_seq in Hi. apply np_median_defined.
      apply nonempty_of_length. rewrite slice_length; lia.
    + rewrite Hmeds. cbn [Py.bind]. apply np_median_defined.
      apply nonempty_of_length. rewrite Hlen, length_seq. lia.
Qed.

Lemma calc_baseline_defined (fhr_series : list Q) :
  exists b, Common.calc_baseline fhr_series = Some b.
Proof. apply calc_baseline_ws_defined. lia. Qed.

Lemma calculate_variability_defined (fhr_series : list Q) :
  exists v, Variability.calculate_variability fhr_series = Some v.
Proof.
  unfold Variability.calculate_variability,
    Variability.calculate_short_term_variability.
  destruct fhr_series as [ | a [ | b rest ] ]; simpl; eauto.
Qed.

Lemma filter_none (fhr_series : list Q) :
  Forall (fun v => ~ (50 <= v /\ v <= 200)%Q) fhr_series ->
  filter Common.in_range_50_200 fhr_series = [].
Proof.
  induction 1 as [ | v l Hv _ IH ]; simpl; [ reflexivity | ].
  destruct (Common.in_range_50_200 v) eqn:E; [ | exact IH ].
  exfalso. apply Hv. unfold Common.in_range_50_200 in E.
  apply andb_true_iff in E. destruct E as (E1 & E2).
  split; now apply Qle_bool_iff.
Qed.

(** C8.  On the empty series [calc_baseline] and [calculate_variability]
    both return 0.0, a defined value and not a failure, and
    [calc_baseline([150]*20)] is 150.0. *)
Theorem statistics_on_empty_input :
  Common.calc_baseline [] = Some 0%Q
  /\ Variability.calculate_variability [] = Some 0%Q
  /\ exists b, Common.calc_baseline (repeat 150%Q 20) = Some b /\ (b == 150)%Q.
Proof.
  split; [ reflexivity | split; [ reflexivity | ] ].
  exists (300 # 2)%Q. split; [ vm_compute; reflexivity | reflexivity ].
Qed.

(** C9.  On a non-empty series whose samples all lie outside [50, 200] the
    filtered list is empty, its median would be undefined, and the guard makes
    [calc_baseline] return 0.0; and [calc_baseline] returns a value on every
    series. *)
Theorem calc_baseline_guard_and_totality (fhr_series : list Q) :
  (fhr_series <> [] ->
   Forall (fun v => ~ (50 <= v /\ v <= 200)%Q) fhr_series ->
   filter Common.in_range_50_200 fhr_series = []
   /\ Py.np_median (filter Common.in_range_50_200 fhr_series) = None
   /\ Common.calc_baseline fhr_series = Some 0%Q)
  /\ exists b, Common.calc_baseline fhr_series = Some b.
Proof.
  split; [ | apply calc_baseline_defined ].
  intros Hne Hout. pose proof (filter_none fhr_series Hout) as Hf.
  split; [ exact Hf | ]. split; [ now rewrite Hf | ].
  unfold Common.calc_baseline, Common.calc_baseline_ws.
  destruct fhr_series as [ | v l ]; [ congruence | ].
  now rewrite Hf.
Qed.

(** Three samples of signal loss (0) and saturation (250). *)
Lemma calc_baseline_guard_and_totality_witness :
  Common.calc_baseline [0; 250; 0]%Q = Some 0%Q.
Proof.
  refine (proj2 (proj2 (proj1 (calc_baseline_guard_and_totality [0; 250; 0]%Q) _ _))).
  - discriminate.
  - repeat constructor; intros (H1 & H2); vm_compute in H1, H2;
      first [ apply H1; reflexivity | apply H2; reflexivity ].
Defined.

(** ** Deceleration detection inside the classifiers (C6) *)

Lemma classify_figo_events (fhr_series : list Q) (risk_factors : list (string * bool))
    (ga_weeks : Z) (b : Q) :
  Common.calc_baseline fhr_series = Some b ->
  exists r,
    FigoNice.classify_figo fhr_series risk_factors ga_weeks = Some r
    /\ FigoNice.accelerations r = Common.detect_accelerations fhr_series b ga_weeks
    /\ FigoNice.decelerations r = Common.detect_decelerations fhr_series b 15.
Proof.
  intros Hb. destruct (calculate_variability_defined fhr_series) as (v & Hv).
  unfold FigoNice.classify_figo. rewrite Hb, Hv. cbn [Py.bind].
  match goal with |- context [ let '(_, _) := ?c in _ ] => destruct c end.
  eexists. split; [ reflexivity | split; reflexivity ].
Qed.

Lemma classify_nichd_events (fhr_series : list Q) (risk_factors : list (string * bool))
    (ga_weeks : Z) (b : Q) :
  Common.calc_baseline fhr_series = Some b ->
  exists r,
    NichdAcog.classify_nichd fhr_series risk_factors ga_weeks = Some r
    /\ NichdAcog.accelerations r = Common.detect_accelerations fhr_series b ga_weeks
    /\ NichdAcog.dec_count (NichdAcog.decelerations r)
       = Common.detect_decelerations fhr_series b 15.
Proof.
  intros Hb. destruct (calculate_variability_defined fhr_series) as (v & Hv).
  unfold NichdAcog.classify_nichd. rewrite Hb, Hv. cbn [Py.bind].
  match goal with |- context [ let '(_, _) := ?c in _ ] => destruct c end.
  eexists. split; [ reflexivity | split; reflexivity ].
Qed.

(** C6, as the code has it.  Inside both classifiers decelerations are the
    maximal contiguous runs of samples [<= baseline - 15] that last at least
    15 samples, for a nonzero computed baseline: the threshold is the fixed
    default 15 of [detect_decelerations] for every gestational age, which is
    the acceleration threshold exactly from 32 weeks on. *)
Theorem classifier_decelerations_fixed_threshold
    (fhr_series : list Q) (risk_factors : list (string * bool)) (ga_weeks : Z)
    (b : Q) (runs : list (list Q)) :
  Common.calc_baseline fhr_series = Some b ->
  ~ (b == 0)%Q ->
  Reference.segmentation (Reference.below b 15) fhr_series runs ->
  (exists r,
      FigoNice.classify_figo fhr_series risk_factors ga_weeks = Some r
      /\ FigoNice.decelerations r = Reference.count_long 15 runs)
  /\ (exists r,
         NichdAcog.classify_nichd fhr_series risk_factors ga_weeks = Some r
         /\ NichdAcog.dec_count (NichdAcog.decelerations r)
            = Reference.count_long 15 runs)
  /\ (Common.acceleration_threshold ga_weeks = 15 <-> 32 <= ga_weeks).
Proof.
  intros Hb Hnz Hseg.
  pose proof (detect_decelerations_runs fhr_series b 15 runs Hnz Hseg) as Hdec.
  split; [ | split ].
  - destruct (classify_figo_events fhr_series risk_factors ga_weeks b Hb)
      as (r & Hr & _ & Hd).
    exists r. split; [ exact Hr | congruence ].
  - destruct (classify_nichd_events fhr_series risk_factors ga_weeks b Hb)
      as (r & Hr & _ & Hd).
    exists r. split; [ exact Hr | congruence ].
  - unfold Common.acceleration_threshold.
    destruct (Z.ltb_spec ga_weeks 32); split; intros; lia.
Qed.

(** Forty samples at 140 followed by fifteen at 125: one deceleration. *)
Lemma classifier_decelerations_fixed_threshold_witness :
  exists r,
    FigoNice.classify_figo (repeat 140 40 ++ repeat 125 15)%Q [] 30 = Some r
    /\ FigoNice.decelerations r = 1.
Proof.
  assert (Hseg : Reference.segmentation (Reference.below (1120 # 8) 15)
                   (repeat 140 40 ++ repeat 125 15)%Q [repeat 125 15]%Q).
  { refine (single_run_segmentation (Reference.below (1120 # 8) 15)
              (repeat 140 40)%Q (repeat 125 15)%Q [] _ _ _ _).
    - discriminate.
    - repeat constructor; intros H; vm_compute in H; apply H; reflexivity.
    - repeat constructor; intros H; discriminate H.
    - constructor. }
  exact (proj1 (classifier_decelerations_fixed_threshold
                  (repeat 140 40 ++ repeat 125 15)%Q [] 30 (1120 # 8) _
                  eq_refl (Qeq_bool_neq (1120 # 8) 0 eq_refl) Hseg)).
Defined.

(** C6 as stated fails below 32 weeks: with [ga_weeks = 30] the acceleration
    threshold is 10, and the series of forty samples at 140 followed by
    fifteen at 128 has one maximal run of samples [<= baseline - 10] of 15
    samples, yet both classifiers report 0 decelerations. *)
Lemma classifier_decelerations_ga_threshold_counterexample :
  let fhr_series := (repeat 140 40 ++ repeat 128 15)%Q in
  exists b figo nichd runs,
    Common.calc_baseline fhr_series = Some b
    /\ ~ (b == 0)%Q
    /\ FigoNice.classify_figo fhr_series [] 30 = Some figo
    /\ NichdAcog.classify_nichd fhr_series [] 30 = Some nichd
    /\ Reference.segmentation
         (Reference.below b (Common.acceleration_threshold 30)) fhr_series runs
    /\ Reference.count_long 15 runs = 1
    /\ FigoNice.decelerations figo = 0
    /\ NichdAcog.dec_count (NichdAcog.decelerations nichd) = 0.
Proof.
  intros fhr_series.
  destruct (classify_figo_events fhr_series [] 30 (1120 # 8) eq_refl)
    as (figo & Hfigo & _ & Hfd).
  destruct (classify_nichd_events fhr_series [] 30 (1120 # 8) eq_refl)
    as (nichd & Hnichd & _ & Hnd).
  exists (1120 # 8)%Q, figo, nichd, [repeat 128 15]%Q.
  split; [ reflexivity | ].
  split; [ intros H; discriminate H | ].
  split; [ exact Hfigo | ]. split; [ exact Hnichd | ].
  split; [ | split; [ reflexivity | split ] ].
  - refine (single_run_segmentation (Reference.below (1120 # 8) 10)
              (repeat 140 40)%Q (repeat 128 15)%Q [] _ _ _ _).
    + discriminate.
    + repeat constructor; intros H; vm_compute in H; apply H; reflexivity.
    + repeat constructor; intros H; discriminate H.
    + constructor.
  - rewrite Hfd. reflexivity.
  - rewrite Hnd. reflexivity.
Qed.

(** The guard on a zero baseline: fifteen samples at -20 are all filtered
    out, the baseline is 0, and no deceleration is reported although the
    series is one run of 15 samples [<= 0 - 15]. *)
Lemma zero_baseline_reports_no_deceleration :
  let fhr_series := repeat (-20)%Q 15 in
  Common.calc_baseline fhr_series = Some 0%Q
  /\ Reference.segmentation (Reference.below 0 15) fhr_series [fhr_series]
  /\ Reference.count_long 15 [fhr_series] = 1
  /\ Common.detect_decelerations fhr_series 0 15 = 0.
Proof.
  intros fhr_series. split_all; try reflexivity.
  refine (single_run_segmentation (Reference.below 0 15) [] fhr_series [] _ _ _ _).
  - discriminate.
  - constructor.
  - repeat constructor; intros H; discriminate H.
  - constructor.
Qed.

(** ** One-step risk escalation (C2) *)

(** C2.  With [risk_score >= 4] each of the FIGO and NICHD labels moves
    exactly one severity step up (code 0 to 1, 1 to 2) and the top label stays;
    with [risk_score < 4] the label and its code are unchanged; in all cases
    the adjusted code is the base code or the base code plus one. *)
Theorem risk_adjustment_one_step (risk_score : Z) :
  let figo := fun l => RiskAdjustment.adjust_figo_classification l risk_score in
  let nichd := fun l => RiskAdjustment.adjust_nichd_classification l risk_score in
  let result := fun a : RiskAdjustment.adjustment =>
    (RiskAdjustment.adjusted_label a, RiskAdjustment.code a,
     RiskAdjustment.adjustment_applied a) in
  (4 <= risk_score ->
   result (figo "Normal") = ("Suspicious", 1, true)
   /\ result (figo "Suspicious") = ("Pathological", 2, true)
   /\ result (figo "Pathological") = ("Pathological", 2, false)
   /\ result (nichd "Category I") = ("Category II", 1, true)
   /\ result (nichd "Category II") = ("Category III", 2, true)
   /\ result (nichd "Category III") = ("Category III", 2, false))
  /\ (risk_score < 4 ->
      (forall l, In l Reference.figo_labels ->
                 result (figo l)
                 = (l, RiskAdjustment.code_of RiskAdjustment.figo_code_map l, false))
      /\ (forall l, In l Reference.nichd_labels ->
                    result (nichd l)
                    = (l, RiskAdjustment.code_of RiskAdjustment.nichd_code_map l, false)))
  /\ (forall l, In l Reference.figo_labels ->
                let base_code := RiskAdjustment.code_of RiskAdjustment.figo_code_map l in
                base_code <= RiskAdjustment.code (figo l) <= base_code + 1)
  /\ (forall l, In l Reference.nichd_labels ->
                let base_code := RiskAdjustment.code_of RiskAdjustment.nichd_code_map l in
                base_code <= RiskAdjustment.code (nichd l) <= base_code + 1).
Proof.
  intros figo nichd result. subst figo nichd result. cbv beta.
  unfold RiskAdjustment.adjust_figo_classification,
    RiskAdjustment.adjust_nichd_classification.
  split_all.
  - intros H. apply Z.leb_le in H. rewrite H. split_all; reflexivity.
  - intros H. apply Z.leb_gt in H. rewrite H.
    split; intros l Hl; simpl in Hl; each_label Hl; reflexivity.
  - intros l Hl. simpl in Hl.
    destruct (4 <=? risk_score); each_label Hl; vm_compute; split; discriminate.
  - intros l Hl. simpl in Hl.
    destruct (4 <=? risk_score); each_label Hl; vm_compute; split; discriminate.
Qed.

(** A risk score of 5 moves Normal to Suspicious. *)
Lemma risk_adjustment_one_step_witness :
  4 <= 5
  /\ RiskAdjustment.adjusted_label (RiskAdjustment.adjust_figo_classification "Normal" 5)
     = "Suspicious".
Proof.
  assert (H : 4 <= 5) by lia.
  split; [ exact H | ].
  exact (f_equal (fun t => fst (fst t)) (proj1 (proj1 (risk_adjustment_one_step 5) H))).
Defined.

(** ** Forecast status precedence (C1) *)

Lemma Qltb_true (a b : Q) : Py.Qltb a b = true <-> (a < b)%Q.
Proof.
  unfold Py.Qltb. rewrite negb_true_iff. split.
  - intros E. apply Qnot_le_lt. intros Hle. apply Qle_bool_iff in Hle. congruence.
  - intros Hlt. destruct (Qle_bool b a) eqn:E; [ | reflexivity ].
    apply Qle_bool_iff in E. exfalso. apply (Qlt_not_le _ _ Hlt E).
Qed.

Lemma Qltb_false (a b : Q) : Py.Qltb a b = false <-> (b <= a)%Q.
Proof.
  unfold Py.Qltb. rewrite negb_false_iff. apply Qle_bool_iff.
Qed.

Lemma severity_danger_top (s : string) :
  Reference.severity s <= Reference.severity "danger".
Proof.
  unfold Reference.severity.
  destruct (String.eqb s "danger"); [ vm_compute; discriminate | ].
  destruct (String.eqb s "warning"); vm_compute; discriminate.
Qed.

(** C1.  The status of a horizon forecast is [_determine_forecast_status]
    at the predicted risk.  A risk above 0.7 gives [danger]; a risk in
    (0.4, 0.7] turns a [normal] base into [warning] and keeps every other base;
    a risk of at most 0.4 keeps the base; so the final status is never less
    severe than the base status, in particular not for a [warning] or [danger]
    base.  The base is the predictor's status for the horizon when it has an
    entry, and otherwise [danger] if a classifier code is at least 2, else
    [warning] if one is 1, else [normal], FIGO being tested before NICHD. *)
Theorem forecast_status_never_downgrades
    (figo_result nichd_result : option AnalysisService.classifier_view)
    (ai_result : option (list (string * AnalysisService.horizon_view)))
    (history : list Hypoxia.risk_point) (hypoxia_risk : Q) (timeframe : string) :
  let base :=
    AnalysisService.base_status_of figo_result nichd_result ai_result timeframe in
  let final :=
    AnalysisService._determine_forecast_status
      figo_result nichd_result ai_result hypoxia_risk timeframe in
  let forecast :=
    AnalysisService._generate_forecast_with_hypoxia_risk
      figo_result nichd_result ai_result history timeframe in
  AnalysisService.status forecast
  = AnalysisService._determine_forecast_status
      figo_result nichd_result ai_result
      (AnalysisService.hypoxia_risk forecast) timeframe
  /\ ((7 # 10 < hypoxia_risk)%Q -> final = "danger")
  /\ ((4 # 10 < hypoxia_risk)%Q -> (hypoxia_risk <= 7 # 10)%Q ->
      (base = "normal" -> final = "warning") /\ (base <> "normal" -> final = base))
  /\ ((hypoxia_risk <= 4 # 10)%Q -> final = base)
  /\ Reference.severity base <= Reference.severity final
  /\ (base = "warning" \/ base = "danger" ->
      Reference.severity base <= Reference.severity final)
  /\ (forall h, AnalysisService.ai_entry ai_result timeframe = Some h ->
                base = AnalysisService.get_or (AnalysisService.view_status h) "normal")
  /\ (AnalysisService.ai_entry ai_result timeframe = None ->
      base = if AnalysisService.code_ge_2 figo_result
                || AnalysisService.code_ge_2 nichd_result then "danger"
             else if AnalysisService.code_eq_1 figo_result
                     || AnalysisService.code_eq_1 nichd_result then "warning"
             else "normal").
Proof.
  intros base final forecast.
  assert (Hsev : Reference.severity base <= Reference.severity final).
  { subst final. unfold AnalysisService._determine_forecast_status. fold base.
    destruct (Py.Qltb (7 # 10) hypoxia_risk); [ apply severity_danger_top | ].
    destruct (Py.Qltb (4 # 10) hypoxia_risk); [ | lia ].
    destruct (String.eqb_spec base "normal") as [ -> | _ ];
      [ vm_compute; discriminate | lia ]. }
  split_all.
  - reflexivity.
  - intros H. apply Qltb_true in H. subst final.
    unfold AnalysisService._determine_forecast_status. now rewrite H.
  - intros H H0. apply Qltb_false in H0. apply Qltb_true in H. subst final.
    unfold AnalysisService._determine_forecast_status. fold base. rewrite H0, H.
    destruct (String.eqb_spec base "normal"); split; congruence.
  - intros H. subst final. unfold AnalysisService._determine_forecast_status.
    fold base. assert (H7 : (hypoxia_risk <= 7 # 10)%Q) by lra.
    apply Qltb_false in H, H7. now rewrite H7, H.
  - exact Hsev.
  - intros _. exact Hsev.
  - intros h Hh. subst base. unfold AnalysisService.base_status_of. now rewrite Hh.
  - intros Hnone. subst base. unfold AnalysisService.base_status_of. rewrite Hnone.
    destruct (AnalysisService.code_ge_2 figo_result),
      (AnalysisService.code_ge_2 nichd_result),
      (AnalysisService.code_eq_1 figo_result),
      (AnalysisService.code_eq_1 nichd_result); reflexivity.
Qed.

(** A pathological FIGO code with no predictor entry and a zero predicted
    risk: the base is [danger] and so is the final status. *)
Lemma forecast_status_never_downgrades_witness :
  let figo := Some (AnalysisService.mk_classifier_view (Some 2)) in
  AnalysisService.base_status_of figo None None "15min" = "danger"
  /\ Reference.severity "danger"
     <= Reference.severity
          (AnalysisService._determine_forecast_status figo None None 0 "15min").
Proof.
  split; [ reflexivity | ].
  exact (proj1 (proj2 (proj2 (proj2 (proj2 (proj2
           (forecast_status_never_downgrades
              (Some (AnalysisService.mk_classifier_view (Some 2)))
              None None [] 0 "15min"))))))
           (or_intror eq_refl)).
Defined.

(** ** Number of hypoxia-risk windows (C7) *)

Lemma range_step_length (stop step : Z) :
  0 < stop -> length (Py.range_step stop step) = Z.to_nat ((stop + step - 1) / step).
Proof.
  intros H. unfold Py.range_step.
  destruct (Z.leb_spec stop 0); [ lia | ].
  now rewrite length_map, length_seq.
Qed.

Lemma range_step_in (stop step i : Z) :
  0 < step -> In i (Py.range_step stop step) ->
  0 <= i /\ i < stop /\ i mod step = 0.
Proof.
  intros Hstep. unfold Py.range_step.
  destruct (Z.leb_spec stop 0); [ intros [] | ].
  intros Hin. apply in_map_iff in Hin. destruct Hin as (k & <- & Hk).
  apply in_seq in Hk.
  assert (Hk' : Z.of_nat k < (stop + step - 1) / step) by lia.
  assert (Hq : Z.of_nat k + 1 <= (stop + step - 1) / step) by lia.
  assert (Hm : step * (Z.of_nat k + 1) <= stop + step - 1).
  { etransitivity; [ apply Z.mul_le_mono_nonneg_l; [ lia | exact Hq ] | ].
    apply Z.mul_div_le. lia. }
  split; [ lia | ]. split; [ lia | ].
  apply Z.mod_mul. lia.
Qed.

Lemma window_result_defined (fhr_series uc_series : list Q) (variability_value : option Q)
    (time_series : list Q) (i : Z) :
  length time_series = length fhr_series ->
  0 <= i -> i + 120 <= Py.len fhr_series ->
  exists p,
    Hypoxia.window_result fhr_series uc_series variability_value time_series 120 i
    = Some p.
Proof.
  intros Hts Hi Hfit. unfold Py.len in Hfit. unfold Hypoxia.window_result.
  cbv zeta.
  assert (Hw : length (Py.slice fhr_series (Z.to_nat i) (Z.to_nat (i + 120))) = 120%nat).
  { replace (Z.to_nat (i + 120)) with (Z.to_nat i + 120)%nat by lia.
    apply slice_length. lia. }
  destruct (Py.slice fhr_series (Z.to_nat i) (Z.to_nat (i + 120))) as [ | w ws ] eqn:Ew;
    [ discriminate Hw | ].
  cbn [Common.is_empty].
  destruct (np_median_defined (w :: ws)) as (m & ->); [ discriminate | ].
  cbn [Py.bind Hypoxia.detect_accelerations_in_window
         Hypoxia.detect_decelerations_in_window].
  change (120 / 2) with 60.
  destruct (Z.ltb_spec (i + 60) (Py.len time_series)) as [ Hlt | Hge ];
    [ | unfold Py.len in Hge; lia ].
  destruct (nth_error time_series (Z.to_nat (i + 60))) as [ t | ] eqn:Et.
  - cbn [Py.bind]. eauto.
  - apply nth_error_None in Et. lia.
Qed.

(** C7.  For FHR, UC and timestamp series of one common length [n],
    [calculate_hypoxia_risk] with its default 2-minute window and 1-minute step
    returns [floor((n - 120) / 60) + 1] window results when [n >= 120] and the
    empty list when [n < 120]; 300 samples give 4 windows. *)
Theorem hypoxia_window_count (fhr_series uc_series time_series : list Q)
    (variability_value : option Q) :
  length uc_series = length fhr_series ->
  length time_series = length fhr_series ->
  let n := length fhr_series in
  let result :=
    Hypoxia.calculate_hypoxia_risk fhr_series uc_series variability_value time_series in
  ((120 <= n)%nat ->
   exists windows, result = Some windows
                   /\ length windows = ((n - 120) / 60 + 1)%nat)
  /\ ((n < 120)%nat -> result = Some [])
  /\ (n = 300%nat -> exists windows, result = Some windows /\ length windows = 4%nat).
Proof.
  intros Huc Hts n result.
  assert (Hlong : (120 <= n)%nat ->
            exists windows, result = Some windows
                            /\ length windows = ((n - 120) / 60 + 1)%nat).
  { intros Hn. subst result.
    unfold Hypoxia.calculate_hypoxia_risk, Hypoxia.calculate_hypoxia_risk_with.
    cbv zeta. change (2 * 60) with 120. change (1 * 60) with 60.
    destruct (mapM_defined
                (Hypoxia.window_result fhr_series uc_series variability_value
                   time_series 120)
                (Py.range_step (Py.len fhr_series - 120 + 1) 60))
      as (windows & Hw & Hlen).
    - intros i Hin. apply range_step_in in Hin; [ | lia ].
      destruct Hin as (H0 & Hstop & Hmod).
      apply window_result_defined; [ assumption | assumption | ].
      lia.
    - exists windows. split; [ exact Hw | ].
      rewrite Hlen, range_step_length by (unfold Py.len; fold n; lia).
      unfold Py.len. fold n.
      replace (Z.of_nat n - 120 + 1 + 60 - 1) with (Z.of_nat (n - 120) + 1 * 60) by lia.
      rewrite Z.div_add by lia.
      change 60 with (Z.of_nat 60). rewrite <- Nat2Z.inj_div. lia. }
  split; [ exact Hlong | split ].
  - intros Hn. subst result.
    unfold Hypoxia.calculate_hypoxia_risk, Hypoxia.calculate_hypoxia_risk_with.
    cbv zeta. unfold Py.range_step.
    destruct (Z.leb_spec (Py.len fhr_series - 2 * 60 + 1) 0) as [ _ | Hpos ];
      [ reflexivity | unfold Py.len in Hpos; fold n in Hpos; lia ].
  - intros Hn. destruct Hlong as (windows & Hw & Hlen); [ lia | ].
    exists windows. split; [ exact Hw | ]. rewrite Hlen, Hn. reflexivity.
Qed.

(** Five minutes of samples at 1 Hz: four windows. *)
Lemma hypoxia_window_count_witness :
  let fhr_series := repeat 140%Q 300 in
  let uc_series := repeat 10%Q 300 in
  let time_series := map (fun k => inject_Z (Z.of_nat k)) (seq 0 300) in
  length fhr_series = 300%nat
  /\ exists windows,
       Hypoxia.calculate_hypoxia_risk fhr_series uc_series (Some 8%Q) time_series
       = Some windows
       /\ length windows = 4%nat.
Proof.
  intros fhr_series uc_series time_series.
  split; [ reflexivity | ].
  exact (proj2 (proj2 (hypoxia_window_count fhr_series uc_series time_series (Some 8%Q)
                         eq_refl eq_refl)) eq_refl).
Defined.

(** ** Monotonicity of the heuristic predictor in the horizon (C10) *)

Lemma round_half_even_bounds (q : Q) :
  Qfloor q <= Py.round_half_even q <= Qfloor q + 1.
Proof.
  unfold Py.round_half_even.
  destruct (Py.Qltb _ _); [ lia | ].
  destruct (Py.Qltb _ _); [ lia | ].
  destruct (Z.even _); lia.
Qed.

Lemma round_half_even_mono (a b : Q) :
  (a <= b)%Q -> Py.round_half_even a <= Py.round_half_even b.
Proof.
  intros Hab. pose proof (Qfloor_resp_le a b Hab) as Hfl.
  destruct (Z.eq_dec (Qfloor a) (Qfloor b)) as [ E | NE ].
  - unfold Py.round_half_even. rewrite <- E.
    destruct (Py.Qltb (a - inject_Z (Qfloor a)) (1 # 2)) eqn:A1;
      destruct (Py.Qltb (b - inject_Z (Qfloor a)) (1 # 2)) eqn:B1;
      destruct (Py.Qltb (1 # 2) (a - inject_Z (Qfloor a))) eqn:A2;
      destruct (Py.Qltb (1 # 2) (b - inject_Z (Qfloor a))) eqn:B2;
      repeat match goal with
             | H : Py.Qltb _ _ = true |- _ => apply Qltb_true in H
             | H : Py.Qltb _ _ = false |- _ => apply Qltb_false in H
             end;
      try (exfalso; lra);
      destruct (Z.even (Qfloor a)); lia.
  - pose proof (round_half_even_bounds a). pose proof (round_half_even_bounds b). lia.
Qed.

Lemma round_mono (a b : Q) (ndigits : nat) :
  (a <= b)%Q -> (Py.round a ndigits <= Py.round b ndigits)%Q.
Proof.
  intros Hab. unfold Py.round.
  assert (Hpos : 0 < 10 ^ Z.of_nat ndigits) by (apply Z.pow_pos_nonneg; lia).
  set (scale := inject_Z (10 ^ Z.of_nat ndigits)).
  assert (Hscale : (0 < scale)%Q).
  { unfold scale. rewrite <- (Zlt_Qlt 0). exact Hpos. }
  unfold Qdiv. apply Qmult_le_compat_r.
  - rewrite <- Zle_Qle. apply round_half_even_mono.
    apply Qmult_le_compat_r; [ exact Hab | now apply Qlt_le_weak ].
  - apply Qlt_le_weak. now apply Qinv_lt_0_compat.
Qed.

Lemma predict_timeframe_risk_level (f : AiModule.features) (timeframe : string) :
  AiModule.risk_level (AiModule.predict_timeframe f timeframe)
  = Py.round
      (Py.min
         (Py.max
            (if String.eqb timeframe "15min" then AiModule.accumulated_risk f
             else if String.eqb timeframe "30min"
                  then (AiModule.accumulated_risk f * (12 # 10))%Q
                  else (AiModule.accumulated_risk f * (15 # 10))%Q)
            0)
         1)
      2.
Proof.
  unfold AiModule.predict_timeframe. cbv zeta.
  destruct (Py.Qltb _ (3 # 10)); [ reflexivity | ].
  destruct (Py.Qltb _ (6 # 10)); reflexivity.
Qed.

Lemma accumulated_risk_nonneg (f : AiModule.features) :
  (0 <= AiModule.risk_score f)%Q -> (0 <= AiModule.accumulated_risk f)%Q.
Proof.
  intros Hrs.
  assert (Hd : (0 <= AiModule.risk_score f / 10)%Q).
  { apply Qle_shift_div_l; [ reflexivity | lra ]. }
  unfold AiModule.accumulated_risk, Py.min. cbv zeta.
  set (d := (AiModule.risk_score f / 10)%Q) in *.
  destruct (Py.Qltb (AiModule.fhr_mean f) 110 || Py.Qltb 160 (AiModule.fhr_mean f));
    destruct (Py.Qltb (AiModule.fhr_std f) 5);
    destruct (Py.Qltb 25 (AiModule.fhr_std f));
    destruct (Py.Qltb (AiModule.fhr_trend f) (- (1 # 2)));
    destruct (Py.Qltb (1 # 2) (AiModule.fhr_trend f));
    destruct (Qlt_le_dec _ _); lra.
Qed.

(** C10.  For every feature vector the reported [risk_level] is the rounded
    clamp of one accumulated risk times the horizon factor (1.0, 1.2, 1.5), and
    it does not decrease with the horizon: 15min <= 30min <= 60min.  The
    accumulated risk is non-negative whenever the feature [risk_score] is. *)
Theorem predictor_risk_monotone_in_horizon (f : AiModule.features) :
  let level := fun tf => AiModule.risk_level (AiModule.predict_timeframe f tf) in
  let acc := AiModule.accumulated_risk f in
  level "15min" = Py.round (Py.min (Py.max acc 0) 1) 2
  /\ level "30min" = Py.round (Py.min (Py.max (acc * (12 # 10)) 0) 1) 2
  /\ level "60min" = Py.round (Py.min (Py.max (acc * (15 # 10)) 0) 1) 2
  /\ (level "15min" <= level "30min")%Q
  /\ (level "30min" <= level "60min")%Q
  /\ ((0 <= AiModule.risk_score f)%Q -> (0 <= acc)%Q).
Proof.
  intros level acc. subst level. cbv beta.
  rewrite !predict_timeframe_risk_level. cbn [String.eqb Ascii.eqb Bool.eqb]. fold acc.
  split_all; try reflexivity.
  - apply round_mono. unfold Py.min, Py.max.
    repeat destruct (Qlt_le_dec _ _); lra.
  - apply round_mono. unfold Py.min, Py.max.
    repeat destruct (Qlt_le_dec _ _); lra.
  - apply accumulated_risk_nonneg.
Qed.

(** A low mean, a flat trace and a risk score of 4. *)
Lemma predictor_risk_monotone_in_horizon_witness :
  let f := AiModule.mk_features 100 3 0 4 in
  (0 <= AiModule.risk_score f)%Q /\ (0 <= AiModule.accumulated_risk f)%Q.
Proof.
  intros f.
  assert (H : (0 <= AiModule.risk_score f)%Q) by discriminate.
  split; [ exact H | ].
  exact (proj2 (proj2 (proj2 (proj2 (proj2
           (predictor_risk_monotone_in_horizon f))))) H).
Defined.

(** ** The all-reassuring trace (C3) *)

Lemma classify_variability_moderate (v : Q) :
  (5 <= v)%Q -> (v <= 25)%Q -> Variability.classify_variability v = "moderate".
Proof.
  intros H5 H25. unfold Variability.classify_variability.
  assert (E0 : Py.Qeqb v 0 = false).
  { apply nonzero_test. intros E. lra. }
  assert (E5 : Py.Qltb v 5 = false) by now apply Qltb_false.
  apply Qle_bool_iff in H5, H25. now rewrite E0, E5, H5, H25.
Qed.

Lemma evaluate_baseline_reassuring (b : Q) :
  (110 <= b)%Q -> (b <= 160)%Q -> FigoNice.evaluate_baseline b = "reassuring".
Proof.
  intros H1 H2. unfold FigoNice.evaluate_baseline.
  apply Qle_bool_iff in H1, H2. now rewrite H1, H2.
Qed.

(** C3, as the code has it.  When the computed baseline lies in [110,160],
    the short-term variability in [5,25], at least 2 accelerations and no
    deceleration are detected, the base classification is Normal (0) for FIGO
    and Category I (0) for NICHD.  The final classification equals it, with no
    escalation, exactly for risk-factor sets scoring below 4; for a score of 4
    or more both classifiers escalate one step, to Suspicious (1) and
    Category II (1). *)
Theorem reassuring_trace_classification
    (fhr_series : list Q) (risk_factors : list (string * bool)) (ga_weeks : Z)
    (b v : Q) :
  Common.calc_baseline fhr_series = Some b ->
  Variability.calculate_variability fhr_series = Some v ->
  (110 <= b)%Q -> (b <= 160)%Q -> (5 <= v)%Q -> (v <= 25)%Q ->
  2 <= Common.detect_accelerations fhr_series b ga_weeks ->
  Common.detect_decelerations fhr_series b 15 = 0 ->
  let score := RiskAdjustment.calculate_risk_score risk_factors in
  exists figo nichd,
    FigoNice.classify_figo fhr_series risk_factors ga_weeks = Some figo
    /\ NichdAcog.classify_nichd fhr_series risk_factors ga_weeks = Some nichd
    /\ FigoNice.base_classification figo = mk_classification "Normal" 0
    /\ NichdAcog.base_classification nichd = mk_classification "Category I" 0
    /\ (score < 4 ->
        FigoNice.final_classification figo = mk_classification "Normal" 0
        /\ (FigoNice.label figo, FigoNice.code figo) = ("Normal", 0)
        /\ applied (FigoNice.risk_adjustment figo) = false
        /\ NichdAcog.final_classification nichd = mk_classification "Category I" 0
        /\ (NichdAcog.label nichd, NichdAcog.code nichd) = ("Category I", 0)
        /\ applied (NichdAcog.risk_adjustment nichd) = false)
    /\ (4 <= score ->
        FigoNice.final_classification figo = mk_classification "Suspicious" 1
        /\ (FigoNice.label figo, FigoNice.code figo) = ("Suspicious", 1)
        /\ applied (FigoNice.risk_adjustment figo) = true
        /\ NichdAcog.final_classification nichd = mk_classification "Category II" 1
        /\ (NichdAcog.label nichd, NichdAcog.code nichd) = ("Category II", 1)
        /\ applied (NichdAcog.risk_adjustment nichd) = true).
Proof.
  intros Hb Hv Hb1 Hb2 Hv1 Hv2 Hacc Hdec score.
  unfold FigoNice.classify_figo, NichdAcog.classify_nichd.
  rewrite Hb, Hv. cbn [Py.bind]. cbv zeta.
  unfold Common.default_deceleration_threshold. rewrite Hdec.
  rewrite (classify_variability_moderate v Hv1 Hv2).
  rewrite (evaluate_baseline_reassuring b Hb1 Hb2).
  unfold FigoNice.evaluate_accelerations, NichdAcog.classify_nichd_category.
  apply Z.leb_le in Hacc. rewrite Hacc.
  apply Qle_bool_iff in Hb1, Hb2. rewrite Hb1, Hb2.
  cbn [FigoNice.evaluate_variability FigoNice.evaluate_decelerations Z.eqb
         forallb existsb String.eqb Ascii.eqb Bool.eqb andb orb].
  fold score.
  unfold RiskAdjustment.adjust_figo_classification,
    RiskAdjustment.adjust_nichd_classification.
  destruct (Z.leb_spec 4 score) as [ Hhigh | Hlow ];
    cbn [String.eqb Ascii.eqb Bool.eqb];
    do 2 eexists; split_all; try reflexivity; intros; try lia; split_all; reflexivity.
Qed.

(** The reassuring sample trace with no risk factor is Normal, code 0. *)
Lemma reassuring_trace_classification_witness :
  exists figo,
    FigoNice.classify_figo Traces.reassuring_trace [] 37 = Some figo
    /\ (FigoNice.label figo, FigoNice.code figo) = ("Normal", 0)
    /\ applied (FigoNice.risk_adjustment figo) = false.
Proof.
  assert (Hb : Common.calc_baseline Traces.reassuring_trace = Some (286 # 2)%Q)
    by (vm_compute; reflexivity).
  assert (Hv : Variability.calculate_variability Traces.reassuring_trace
               = Some (782 # 121)%Q) by (vm_compute; reflexivity).
  assert (Hb1 : (110 <= 286 # 2)%Q) by (vm_compute; discriminate).
  assert (Hb2 : (286 # 2 <= 160)%Q) by (vm_compute; discriminate).
  assert (Hv1 : (5 <= 782 # 121)%Q) by (vm_compute; discriminate).
  assert (Hv2 : (782 # 121 <= 25)%Q) by (vm_compute; discriminate).
  assert (Hacc : 2 <= Common.detect_accelerations Traces.reassuring_trace (286 # 2) 37)
    by (vm_compute; discriminate).
  assert (Hdec : Common.detect_decelerations Traces.reassuring_trace (286 # 2) 15 = 0)
    by (vm_compute; reflexivity).
  destruct (reassuring_trace_classification Traces.reassuring_trace [] 37 _ _
              Hb Hv Hb1 Hb2 Hv1 Hv2 Hacc Hdec)
    as (figo & nichd & Hfigo & _ & _ & _ & Hlow & _).
  exists figo. split; [ exact Hfigo | ].
  destruct Hlow as (_ & Hlabel & Happlied & _); [ vm_compute; reflexivity | ].
  split; assumption.
Defined.

(** C3 as stated fails for a risk-factor set scoring 4 or more: on the
    reassuring sample trace (baseline 143, variability about 6.5, two
    accelerations, no deceleration) with preeclampsia and a placental
    pathology, both classifiers escalate and return code 1. *)
Lemma reassuring_trace_escalation_counterexample :
  exists b v figo nichd,
    Common.calc_baseline Traces.reassuring_trace = Some b
    /\ Variability.calculate_variability Traces.reassuring_trace = Some v
    /\ (110 <= b)%Q /\ (b <= 160)%Q /\ (5 <= v)%Q /\ (v <= 25)%Q
    /\ 2 <= Common.detect_accelerations Traces.reassuring_trace b 37
    /\ Common.detect_decelerations Traces.reassuring_trace b 15 = 0
    /\ FigoNice.classify_figo Traces.reassuring_trace Traces.high_risk 37 = Some figo
    /\ NichdAcog.classify_nichd Traces.reassuring_trace Traces.high_risk 37 = Some nichd
    /\ FigoNice.accelerations figo = 2
    /\ FigoNice.decelerations figo = 0
    /\ (FigoNice.label figo, FigoNice.code figo) = ("Suspicious", 1)
    /\ FigoNice.final_classification figo = mk_classification "Suspicious" 1
    /\ applied (FigoNice.risk_adjustment figo) = true
    /\ (NichdAcog.label nichd, NichdAcog.code nichd) = ("Category II", 1)
    /\ applied (NichdAcog.risk_adjustment nichd) = true.
Proof.
  destruct (FigoNice.classify_figo Traces.reassuring_trace Traces.high_risk 37)
    as [ figo | ] eqn:Hfigo; [ | vm_compute in Hfigo; discriminate Hfigo ].
  destruct (NichdAcog.classify_nichd Traces.reassuring_trace Traces.high_risk 37)
    as [ nichd | ] eqn:Hnichd; [ | vm_compute in Hnichd; discriminate Hnichd ].
  exists (286 # 2)%Q, (782 # 121)%Q, figo, nichd.
  vm_compute in Hfigo, Hnichd.
  injection Hfigo as <-. injection Hnichd as <-.
  split_all; try reflexivity; vm_compute; discriminate.
Qed.

(** ** The predicted hypoxia risk (C4) *)

Section Sums.

Local Open Scope Q_scope.

Lemma fold_left_Qplus (l : list Q) (a : Q) :
  fold_left Qplus l a == a + Reference.total l.
Proof.
  revert a. induction l as [ | x l IH ]; intros a; simpl.
  - ring.
  - rewrite IH. ring.
Qed.

Lemma sum_total (l : list Q) : Py.sum l == Reference.total l.
Proof. unfold Py.sum. rewrite fold_left_Qplus. ring. Qed.

Lemma fold_left_Zadd (l : list Z) (a : Z) :
  fold_left Z.add l a = (a + fold_right Z.add 0 l)%Z.
Proof.
  revert a. induction l as [ | x l IH ]; intros a; simpl; [ lia | ].
  rewrite IH. lia.
Qed.

Lemma inject_Z_fold_right (l : list Z) :
  inject_Z (fold_right Z.add 0%Z l) == Reference.total (map inject_Z l).
Proof.
  induction l as [ | x l IH ]; simpl; [ reflexivity | ].
  rewrite inject_Z_plus, IH. reflexivity.
Qed.

Lemma inject_Z_succ (n : nat) :
  inject_Z (Z.of_nat (S n)) == inject_Z (Z.of_nat n) + 1.
Proof. rewrite Nat2Z.inj_succ. unfold Z.succ. now rewrite inject_Z_plus. Qed.

(** Sums of centred products, for arbitrary centres [c] and [d]. *)
Lemma total_centred_products (xs ys : list Q) (c d : Q) :
  length xs = length ys ->
  Reference.total (map (fun xy => (fst xy - c) * (snd xy - d)) (combine xs ys))
  == Reference.total (map (fun xy => fst xy * snd xy) (combine xs ys))
     - c * Reference.total ys - d * Reference.total xs
     + inject_Z (Z.of_nat (length ys)) * c * d.
Proof.
  revert ys. induction xs as [ | x xs IH ]; intros [ | y ys ] Hlen;
    try discriminate Hlen.
  - simpl. ring.
  - injection Hlen as Hlen. cbn [combine map Reference.total fst snd length].
    rewrite (IH ys Hlen), inject_Z_succ. ring.
Qed.

Lemma total_centred_squares (xs : list Q) (c : Q) :
  Reference.total (map (fun x => (x - c) * (x - c)) xs)
  == Reference.total (map (fun x => x * x) xs)
     - 2 * c * Reference.total xs
     + inject_Z (Z.of_nat (length xs)) * c * c.
Proof.
  induction xs as [ | x xs IH ].
  - simpl. ring.
  - cbn [map Reference.total length]. rewrite IH, inject_Z_succ. ring.
Qed.

End Sums.

Section IndexSums.

Local Open Scope Q_scope.

Lemma total_ext {A : Type} (f g : A -> Q) (l : list A) :
  (forall a, In a l -> f a == g a) ->
  Reference.total (map f l) == Reference.total (map g l).
Proof.
  induction l as [ | a l IH ]; intros H; simpl; [ reflexivity | ].
  rewrite (H a (or_introl eq_refl)), IH; [ reflexivity | ].
  intros a' Ha'. apply H. now right.
Qed.

Lemma nth_range (n i : nat) :
  (i < n)%nat -> nth i (map Z.of_nat (seq 0 n)) 0%Z = Z.of_nat i.
Proof.
  intros Hi. change 0%Z with (Z.of_nat 0). rewrite map_nth, seq_nth; [ reflexivity | lia ].
Qed.

(** Indexing [ys] along [seq k (length ys)] pairs each index with its
    sample. *)
Lemma map_index_combine (g : nat -> Q) (ys : list Q) (k : nat) :
  map (fun i => g i * nth (i - k) ys 0) (seq k (length ys))
  = map (fun xy => fst xy * snd xy) (combine (map g (seq k (length ys))) ys).
Proof.
  revert k. induction ys as [ | y ys IH ]; intros k; [ reflexivity | ].
  cbn [length seq map combine fst snd]. rewrite Nat.sub_diag. cbn [nth].
  f_equal. rewrite <- IH. apply map_ext_in. intros i Hi. apply in_seq in Hi.
  replace (i - k)%nat with (S (i - S k)) by lia. reflexivity.
Qed.

Lemma code_sum_xy (ys : list Q) :
  let n := length ys in
  let x := map Z.of_nat (seq 0 n) in
  Py.sum (map (fun i => inject_Z (nth i x 0%Z) * nth i ys 0) (seq 0 n))
  == Reference.total
       (map (fun xy => fst xy * snd xy) (combine (Reference.indices n) ys)).
Proof.
  intros n x. rewrite sum_total. unfold Reference.indices. subst n.
  rewrite <- (map_index_combine (fun i => inject_Z (Z.of_nat i)) ys 0).
  apply total_ext. intros i Hi. apply in_seq in Hi.
  subst x. rewrite nth_range by lia. now rewrite Nat.sub_0_r.
Qed.

Lemma code_sum_x (n : nat) :
  inject_Z (fold_left Z.add (map Z.of_nat (seq 0 n)) 0%Z)
  == Reference.total (Reference.indices n).
Proof.
  rewrite fold_left_Zadd, Z.add_0_l, inject_Z_fold_right, map_map. reflexivity.
Qed.

Lemma code_sum_x2 (n : nat) :
  let x := map Z.of_nat (seq 0 n) in
  inject_Z (fold_left Z.add (map (fun i => (nth i x 0 ^ 2)%Z) (seq 0 n)) 0%Z)
  == Reference.total (map (fun v => v * v) (Reference.indices n)).
Proof.
  intros x. rewrite fold_left_Zadd, Z.add_0_l, inject_Z_fold_right.
  unfold Reference.indices. rewrite !map_map.
  apply total_ext. intros i Hi. apply in_seq in Hi.
  subst x. rewrite nth_range by lia.
  rewrite <- inject_Z_mult. apply inject_Z_injective. lia.
Qed.

End IndexSums.

Lemma fold_right_Zadd_snoc (l : list Z) (a : Z) :
  fold_right Z.add 0 (l ++ [a]) = fold_right Z.add 0 l + a.
Proof. induction l as [ | x l IH ]; simpl; lia. Qed.

Lemma sum_of_indices (n : nat) :
  2 * fold_right Z.add 0 (map Z.of_nat (seq 0 n)) = Z.of_nat n * (Z.of_nat n - 1).
Proof.
  induction n as [ | n IH ]; [ reflexivity | ].
  rewrite seq_S, map_app. cbn [map Nat.add]. rewrite fold_right_Zadd_snoc. nia.
Qed.

Lemma sum_of_squared_indices (n : nat) :
  6 * fold_right Z.add 0 (map (fun i => Z.of_nat i ^ 2) (seq 0 n))
  = (Z.of_nat n - 1) * Z.of_nat n * (2 * Z.of_nat n - 1).
Proof.
  induction n as [ | n IH ]; [ reflexivity | ].
  rewrite seq_S, map_app. cbn [map Nat.add]. rewrite fold_right_Zadd_snoc. nia.
Qed.

(** The denominator of the slope is positive from two points on. *)
Lemma slope_denominator_positive (n : nat) :
  (2 <= n)%nat ->
  let x := map Z.of_nat (seq 0 n) in
  0 < Z.of_nat n * fold_left Z.add (map (fun i => nth i x 0 ^ 2) (seq 0 n)) 0
      - fold_left Z.add x 0 ^ 2.
Proof.
  intros Hn x. rewrite !fold_left_Zadd, !Z.add_0_l.
  replace (map (fun i => nth i x 0 ^ 2) (seq 0 n))
    with (map (fun i => Z.of_nat i ^ 2) (seq 0 n)).
  - subst x. pose proof (sum_of_indices n) as H1.
    pose proof (sum_of_squared_indices n) as H2.
    set (sx := fold_right Z.add 0 (map Z.of_nat (seq 0 n))) in *.
    set (sxx := fold_right Z.add 0 (map (fun i => Z.of_nat i ^ 2) (seq 0 n))) in *.
    assert (H12 : 12 * (Z.of_nat n * sxx - sx ^ 2)
                  = Z.of_nat n * Z.of_nat n * (Z.of_nat n - 1) * (Z.of_nat n + 1)).
    { replace (12 * (Z.of_nat n * sxx - sx ^ 2))
        with (2 * Z.of_nat n * (6 * sxx) - 3 * (2 * sx) * (2 * sx)) by ring.
      rewrite H1, H2. ring. }
    assert (Hpos : 0 < Z.of_nat n * Z.of_nat n * (Z.of_nat n - 1) * (Z.of_nat n + 1))
      by (repeat apply Z.mul_pos_pos; lia).
    lia.
  - apply map_ext_in. intros i Hi. apply in_seq in Hi. subst x.
    now rewrite nth_range by lia.
Qed.

Section PredictedRisk.

Local Open Scope Q_scope.

Lemma py_clamp (lo hi x y : Q) :
  x == y -> Py.max lo (Py.min hi x) == Reference.clamp lo hi y.
Proof.
  intros Hxy. unfold Reference.clamp, Py.max, Py.min.
  destruct (Q.min_spec hi y) as [ (Hm & ->) | (Hm & ->) ];
    destruct (Q.max_spec lo hi) as [ (H1 & E1) | (H1 & E1) ];
    destruct (Q.max_spec lo y) as [ (H2 & E2) | (H2 & E2) ];
    rewrite ?E1, ?E2;
    repeat destruct (Qlt_le_dec _ _); lra.
Qed.

Lemma inject_Z_nonzero (z : Z) : z <> 0%Z -> ~ inject_Z z == 0.
Proof. intros Hz E. unfold Qeq in E. simpl in E. lia. Qed.

Lemma last_n_trailing {A : Type} (l : list A) (k : nat) :
  Py.last_n l k = Reference.trailing k l.
Proof.
  unfold Py.last_n, Reference.trailing. now rewrite firstn_rev, rev_involutive.
Qed.

Lemma last_item_last {A : Type} (l : list A) (d : A) :
  l <> [] -> Py.last_item l = Some (last l d).
Proof.
  unfold Py.last_item. induction l as [ | a l IH ]; intros Hne; [ congruence | ].
  destruct l as [ | b l ]; [ reflexivity | ].
  specialize (IH ltac:(discriminate)).
  cbn [length] in *.
  replace (S (S (length l)) - 1)%nat with (S (length l)) by lia.
  replace (S (length l) - 1)%nat with (length l) in IH by lia.
  change (nth_error (a :: b :: l) (S (length l))) with (nth_error (b :: l) (length l)).
  rewrite IH. reflexivity.
Qed.

(** The slope computed by [_calculate_risk_trend] is the least-squares
    slope: covariance over variance. *)
Lemma trend_is_ols (ys : list Q) :
  (2 <= length ys)%nat ->
  AnalysisService._calculate_risk_trend ys == Reference.trend_of ys.
Proof.
  intros Hn. unfold AnalysisService._calculate_risk_trend, Reference.trend_of.
  destruct (Nat.ltb_spec (length ys) 2) as [ Hlt | _ ]; [ lia | ].
  cbv zeta.
  pose proof (slope_denominator_positive (length ys) Hn) as Hden. cbv zeta in Hden.
  set (n := length ys) in *.
  set (x := map Z.of_nat (seq 0 n)) in *.
  set (sum_x := fold_left Z.add x 0%Z) in *.
  set (sum_x2 := fold_left Z.add (map (fun i => (nth i x 0 ^ 2)%Z) (seq 0 n)) 0%Z) in *.
  destruct (Z.eqb_spec (Z.of_nat n * sum_x2 - sum_x ^ 2) 0) as [ E | _ ]; [ lia | ].
  apply py_clamp. apply Qmult_comp; [ | reflexivity ].
  unfold Reference.ols_slope. fold n. cbv zeta.
  assert (HN : ~ inject_Z (Z.of_nat n) == 0).
  { apply inject_Z_nonzero. lia. }
  assert (HD : ~ inject_Z (Z.of_nat n * sum_x2 - sum_x ^ 2) == 0).
  { apply inject_Z_nonzero. lia. }
  assert (Hlen : length (Reference.indices n) = length ys).
  { unfold Reference.indices. now rewrite length_map, length_seq. }
  rewrite (total_centred_products (Reference.indices n) ys _ _ Hlen).
  rewrite (total_centred_squares (Reference.indices n)).
  rewrite Hlen. fold n. unfold Reference.mean. rewrite Hlen. fold n.
  pose proof (code_sum_xy ys) as Exy. cbv zeta in Exy. fold n in Exy. fold x in Exy.
  rewrite Exy.
  rewrite (sum_total ys).
  assert (Ex : inject_Z sum_x == Reference.total (Reference.indices n))
    by apply code_sum_x.
  assert (Exx : inject_Z sum_x2
                == Reference.total (map (fun v => v * v) (Reference.indices n)))
    by apply code_sum_x2.
  assert (ED : inject_Z (Z.of_nat n * sum_x2 - sum_x ^ 2)
               == inject_Z (Z.of_nat n) * inject_Z sum_x2 - inject_Z sum_x * inject_Z sum_x).
  { replace (Z.of_nat n * sum_x2 - sum_x ^ 2)%Z
      with (Z.of_nat n * sum_x2 + - (sum_x * sum_x))%Z by ring.
    rewrite inject_Z_plus, inject_Z_opp, !inject_Z_mult. ring. }
  rewrite ED in HD |- *. rewrite Ex, Exx in HD. rewrite Ex, Exx.
  set (N := inject_Z (Z.of_nat n)) in *.
  set (Tx := Reference.total (Reference.indices n)) in *.
  set (Ty := Reference.total ys) in *.
  set (Txx := Reference.total (map (fun v => v * v) (Reference.indices n))) in *.
  set (Txy := Reference.total
                (map (fun xy => fst xy * snd xy) (combine (Reference.indices n) ys))) in *.
  assert (Ecov : Txy - Tx / N * Ty - Ty / N * Tx + N * (Tx / N) * (Ty / N)
                 == (N * Txy - Tx * Ty) / N) by (field; exact HN).
  assert (Evar : Txx - 2 * (Tx / N) * Tx + N * (Tx / N) * (Tx / N)
                 == (N * Txx - Tx * Tx) / N) by (field; exact HN).
  rewrite Ecov, Evar. field. split; assumption.
Qed.

End PredictedRisk.

Lemma last_map {A B : Type} (f : A -> B) (l : list A) (d : A) :
  last (map f l) (f d) = f (last l d).
Proof.
  induction l as [ | a l IH ]; [ reflexivity | ].
  destruct l as [ | b l ]; [ reflexivity | ].
  exact IH.
Qed.

Lemma predict_hypoxia_risk_formula (current_risk : Q)
    (history : list Hypoxia.risk_point) (timeframe : string) :
  (2 <= length history)%nat ->
  (AnalysisService._predict_hypoxia_risk_for_timeframe current_risk history timeframe
   == Reference.clamp 0 1
        (current_risk
         * (1 + Reference.trend_of (map Hypoxia.risk (Reference.trailing 10 history))
                * AnalysisService.time_multiplier timeframe)))%Q.
Proof.
  intros Hn. unfold AnalysisService._predict_hypoxia_risk_for_timeframe.
  destruct history as [ | p0 history' ] eqn:Eh; [ simpl in Hn; lia | ].
  rewrite <- Eh in *. cbn [Common.is_empty orb].
  replace (Common.is_empty history) with false by (rewrite Eh; reflexivity).
  destruct (Nat.ltb_spec (length history) 2) as [ Hlt | _ ]; [ lia | ].
  cbn [orb]. cbv zeta. apply py_clamp.
  rewrite trend_is_ols.
  - rewrite last_n_trailing. reflexivity.
  - rewrite length_map. unfold Py.last_n. rewrite length_skipn. lia.
Qed.

(** C4.  For a risk history of at least 2 points, the predicted hypoxia risk
    of each horizon forecast is [clamp(current * (1 + trend * m), 0, 1)], where
    [current] is the last history value, [m] is 1.1, 1.3 and 1.6 for 15min,
    30min and 60min, and [trend] is the least-squares slope of the last (up to)
    10 history values against their index, times 10, clamped to [-1, 1]. *)
Theorem predicted_hypoxia_risk_formula
    (figo_result nichd_result : option AnalysisService.classifier_view)
    (ai_result : option (list (string * AnalysisService.horizon_view)))
    (history : list Hypoxia.risk_point) :
  (2 <= length history)%nat ->
  let current := last (map Hypoxia.risk history) 0%Q in
  let recent := map Hypoxia.risk (Reference.trailing 10 history) in
  let trend := Reference.clamp (-1) 1 (Reference.ols_slope recent * 10) in
  let predicted := fun timeframe =>
    AnalysisService.hypoxia_risk
      (AnalysisService._generate_forecast_with_hypoxia_risk
         figo_result nichd_result ai_result history timeframe) in
  (predicted "15min" == Reference.clamp 0 1 (current * (1 + trend * (11 # 10))))%Q
  /\ (predicted "30min" == Reference.clamp 0 1 (current * (1 + trend * (13 # 10))))%Q
  /\ (predicted "60min" == Reference.clamp 0 1 (current * (1 + trend * (16 # 10))))%Q
  /\ (2 <= length recent <= 10)%nat.
Proof.
  intros Hn current recent trend predicted.
  assert (Hne : history <> []) by (intros ->; simpl in Hn; lia).
  assert (Hcur : forall timeframe,
             (predicted timeframe
              == Reference.clamp 0 1
                   (current * (1 + trend * AnalysisService.time_multiplier timeframe)))%Q).
  { intros timeframe. subst predicted. cbv beta.
    unfold AnalysisService._generate_forecast_with_hypoxia_risk. cbv zeta.
    cbn [AnalysisService.hypoxia_risk].
    rewrite (last_item_last history (Hypoxia.mk_risk_point 0 0) Hne).
    rewrite (predict_hypoxia_risk_formula _ history timeframe Hn).
    subst current. change 0%Q with (Hypoxia.risk (Hypoxia.mk_risk_point 0 0)).
    rewrite last_map. reflexivity. }
  split_all; try apply Hcur.
  - subst recent. rewrite length_map. rewrite <- last_n_trailing.
    unfold Py.last_n. rewrite length_skipn. lia.
  - subst recent. rewrite length_map. rewrite <- last_n_trailing.
    unfold Py.last_n. rewrite length_skipn. lia.
Qed.

(** A history rising by 0.1 per window: the trend saturates at 1 and the
    15-minute prediction is 0.4 * 2.1 = 0.84. *)
Lemma predicted_hypoxia_risk_formula_witness :
  let history :=
    [ Hypoxia.mk_risk_point 60 (2 # 10); Hypoxia.mk_risk_point 120 (3 # 10);
      Hypoxia.mk_risk_point 180 (4 # 10) ] in
  (2 <= length history)%nat
  /\ (AnalysisService.hypoxia_risk
        (AnalysisService._generate_forecast_with_hypoxia_risk
           None None None history "15min")
      == 84 # 100)%Q.
Proof.
  intros history.
  assert (H : (2 <= length history)%nat) by (simpl; lia).
  split; [ exact H | ].
  eapply Qeq_trans;
    [ exact (proj1 (predicted_hypoxia_risk_formula None None None history H))
    | vm_compute; reflexivity ].
Defined.

(* ================================================================== *)
(** * Further properties of the analysis core *)

(** ** The hypoxia estimator *)

Lemma py_clamp_bounds (lo hi x : Q) :
  (lo <= hi)%Q -> (lo <= Py.max lo (Py.min hi x) /\ Py.max lo (Py.min hi x) <= hi)%Q.
Proof.
  intros H. unfold Py.max, Py.min. repeat destruct (Qlt_le_dec _ _); split; lra.
Qed.

Lemma mapM_Forall {A B : Type} (f : A -> option B) (P : B -> Prop) (l : list A) :
  (forall a b, In a l -> f a = Some b -> P b) ->
  forall bs, Py.mapM f l = Some bs -> Forall P bs.
Proof.
  induction l as [ | a l IH ]; intros Hf bs Hm; simpl in Hm.
  - injection Hm as <-. constructor.
  - destruct (f a) as [ b | ] eqn:Eb; [ | discriminate ].
    destruct (Py.mapM f l) as [ bs' | ] eqn:Ebs; [ | discriminate ].
    injection Hm as <-. constructor.
    + apply (Hf a b); [ now left | exact Eb ].
    + apply IH; [ | reflexivity ]. intros a' b' Ha'. apply Hf. now right.
Qed.

Lemma mapM_ext {A B : Type} (f g : A -> option B) (l : list A) :
  (forall a, In a l -> f a = g a) -> Py.mapM f l = Py.mapM g l.
Proof.
  induction l as [ | a l IH ]; intros H; simpl; [ reflexivity | ].
  rewrite (H a (or_introl eq_refl)), IH; [ reflexivity | ].
  intros a' Ha'. apply H. now right.
Qed.

(** The clamped tenth of an integer score is a tenth of an integer in
    [0, 10]. *)
Lemma clamped_tenths (t : Z) :
  (Py.max 0 (Py.min 1 (inject_Z t / 10)) == inject_Z (Z.max 0 (Z.min 10 t)) / 10)%Q.
Proof.
  assert (Ht : (inject_Z t / 10 == inject_Z t * (1 # 10))%Q) by (field; discriminate).
  assert (Hk : (inject_Z (Z.max 0 (Z.min 10 t)) / 10
                == inject_Z (Z.max 0 (Z.min 10 t)) * (1 # 10))%Q) by (field; discriminate).
  rewrite Hk. unfold Py.max, Py.min.
  destruct (Qlt_le_dec (inject_Z t / 10) 1) as [ H1 | H1 ];
    [ destruct (Qlt_le_dec 0 (inject_Z t / 10)) as [ H0 | H0 ]
    | destruct (Qlt_le_dec 0 1) as [ H0 | H0 ] ];
    rewrite ?Ht in *.
  - assert (0 < t < 10)%Z by (unfold Qlt in H0, H1; simpl in H0, H1; lia).
    replace (Z.max 0 (Z.min 10 t)) with t by lia. reflexivity.
  - assert (t <= 0)%Z by (unfold Qle in H0; simpl in H0; lia).
    replace (Z.max 0 (Z.min 10 t)) with 0%Z by lia. reflexivity.
  - assert (10 <= t)%Z by (unfold Qle in H1; simpl in H1; lia).
    replace (Z.max 0 (Z.min 10 t)) with 10%Z by lia. reflexivity.
  - exfalso. lra.
Qed.

Lemma window_result_risk (fhr_series uc_series : list Q) (variability_value : option Q)
    (time_series : list Q) (window_size i : Z) (p : Hypoxia.risk_point) :
  Hypoxia.window_result fhr_series uc_series variability_value time_series window_size i
  = Some p ->
  exists baseline uc_count accel_present decel_present accel_count decel_count,
    Hypoxia.risk p
    = Hypoxia.calculate_window_risk baseline variability_value uc_count
        accel_present decel_present accel_count decel_count.
Proof.
  unfold Hypoxia.window_result. cbv zeta.
  destruct (if Common.is_empty _ then Some 0%Q else Py.np_median _) as [ b | ];
    [ | discriminate ].
  cbn [Py.bind Hypoxia.detect_accelerations_in_window
         Hypoxia.detect_decelerations_in_window].
  destruct (if (_ <? _) then nth_error _ _ else nth_error _ _) as [ t | ];
    [ | discriminate ].
  cbn [Py.bind]. intros H. injection H as <-. cbn [Hypoxia.risk]. eauto 10.
Qed.

Lemma hypoxia_series_bounds (fhr_series uc_series : list Q) (variability_value : option Q)
    (time_series : list Q) (window_minutes step_minutes : Z)
    (points : list Hypoxia.risk_point) :
  Hypoxia.calculate_hypoxia_risk_with fhr_series uc_series variability_value
    time_series window_minutes step_minutes = Some points ->
  Forall (fun p => (0 <= Hypoxia.risk p /\ Hypoxia.risk p <= 1)%Q) points.
Proof.
  unfold Hypoxia.calculate_hypoxia_risk_with. cbv zeta.
  apply mapM_Forall. intros i p _ Hp.
  destruct (window_result_risk _ _ _ _ _ _ _ Hp) as (b & u & ap & dp & ac & dc & ->).
  unfold Hypoxia.calculate_window_risk. cbv zeta.
  apply py_clamp_bounds. discriminate.
Qed.

(** X1.  Every value of the hypoxia-risk series lies in [0, 1] and is a
    whole number of tenths, for every window and step size and every input,
    and so does [calculate_window_risk] on arbitrary arguments. *)
Theorem hypoxia_risk_is_tenths_in_unit_interval :
  (forall baseline variability uc_count accel_present decel_present
          accel_count decel_count,
      exists k, 0 <= k <= 10
                /\ (Hypoxia.calculate_window_risk baseline variability uc_count
                      accel_present decel_present accel_count decel_count
                    == inject_Z k / 10)%Q)
  /\ (forall fhr_series uc_series variability_value time_series
             window_minutes step_minutes points,
         Hypoxia.calculate_hypoxia_risk_with fhr_series uc_series variability_value
           time_series window_minutes step_minutes = Some points ->
         Forall (fun p => (0 <= Hypoxia.risk p <= 1)%Q
                          /\ exists k, 0 <= k <= 10
                                       /\ (Hypoxia.risk p == inject_Z k / 10)%Q)
                points).
Proof.
  assert (Hw : forall baseline variability uc_count accel_present decel_present
                      accel_count decel_count,
             exists k, 0 <= k <= 10
                       /\ (Hypoxia.calculate_window_risk baseline variability uc_count
                             accel_present decel_present accel_count decel_count
                           == inject_Z k / 10)%Q).
  { intros. unfold Hypoxia.calculate_window_risk. cbv zeta.
    eexists. split; [ | apply clamped_tenths ]. lia. }
  split; [ exact Hw | ].
  intros fhr uc v ts wm sm points Hp.
  pose proof (hypoxia_series_bounds _ _ _ _ _ _ _ Hp) as Hb.
  unfold Hypoxia.calculate_hypoxia_risk_with in Hp. cbv zeta in Hp.
  pose proof (mapM_Forall _
                (fun p => exists k, 0 <= k <= 10
                                    /\ (Hypoxia.risk p == inject_Z k / 10)%Q)
                _ (fun i p _ Hi =>
                     match window_result_risk _ _ _ _ _ _ _ Hi with
                     | ex_intro _ b (ex_intro _ u (ex_intro _ ap (ex_intro _ dp
                         (ex_intro _ ac (ex_intro _ dc E))))) =>
                         eq_ind_r (fun r => exists k, 0 <= k <= 10
                                                      /\ (r == inject_Z k / 10)%Q)
                                  (Hw b v u ap dp ac dc) E
                     end)
                _ Hp) as Ht.
  clear Hp. induction Hb as [ | p points Hp _ IH ]; [ constructor | ].
  inversion Ht; subst. constructor; [ split; assumption | apply IH; assumption ].
Qed.

(** One window of 120 samples at 140 with a variability of 8. *)
Lemma hypoxia_risk_is_tenths_in_unit_interval_witness :
  exists points,
    Hypoxia.calculate_hypoxia_risk_with (repeat 140%Q 120) (repeat 10%Q 120) (Some 8%Q)
      (repeat 0%Q 120) 2 1 = Some points
    /\ Forall (fun p => (0 <= Hypoxia.risk p <= 1)%Q
                        /\ exists k, 0 <= k <= 10
                                     /\ (Hypoxia.risk p == inject_Z k / 10)%Q)
              points.
Proof.
  eexists. split; [ vm_compute; reflexivity | ].
  apply (proj2 hypoxia_risk_is_tenths_in_unit_interval
           (repeat 140%Q 120) (repeat 10%Q 120) (Some 8%Q) (repeat 0%Q 120) 2 1).
  vm_compute. reflexivity.
Defined.

(** X2.  The uterine-contraction series never influences the hypoxia-risk
    series: the contraction count of a window is computed and then not used by
    [calculate_window_risk]. *)
Theorem hypoxia_risk_ignores_contractions
    (fhr_series uc_series uc_series' : list Q) (variability_value : option Q)
    (time_series : list Q) (window_minutes step_minutes : Z) :
  Hypoxia.calculate_hypoxia_risk_with fhr_series uc_series variability_value
    time_series window_minutes step_minutes
  = Hypoxia.calculate_hypoxia_risk_with fhr_series uc_series' variability_value
      time_series window_minutes step_minutes.
Proof.
  unfold Hypoxia.calculate_hypoxia_risk_with. cbv zeta.
  apply mapM_ext. intros i _.
  unfold Hypoxia.window_result, Hypoxia.calculate_window_risk. reflexivity.
Qed.

Lemma count_if_filter (h : Q -> bool) (l : list Q) :
  Hypoxia.count_if h l = Z.of_nat (length (filter h l)).
Proof.
  unfold Hypoxia.count_if.
  assert (H : forall a,
             fold_left (fun acc v => if h v then acc + 1 else acc) l a
             = a + Z.of_nat (length (filter h l))).
  { induction l as [ | v l IH ]; intros a; simpl; [ lia | ].
    rewrite IH. destruct (h v); simpl length; lia. }
  now rewrite H.
Qed.

Lemma existsb_count_if (h : Q -> bool) (l : list Q) :
  existsb h l = (0 <? Hypoxia.count_if h l).
Proof.
  rewrite count_if_filter. induction l as [ | v l IH ]; simpl; [ reflexivity | ].
  destruct (h v); simpl; [ | exact IH ].
  symmetry. apply Z.ltb_lt. lia.
Qed.

Lemma tenths_zero (k : Z) : (inject_Z k / 10 == 0)%Q <-> k = 0.
Proof.
  split.
  - intros H. unfold Qeq in H. simpl in H. lia.
  - intros ->. reflexivity.
Qed.

(** X3.  With the presence flags and counts that the window detectors
    produce, a window has hypoxia risk 0 exactly when its baseline lies in
    [110, 160], the variability is at least 5, no sample is a deceleration point
    and at least 2 samples are acceleration points. *)
Theorem window_risk_zero_iff (window_fhr : list Q) (baseline : Q)
    (variability : option Q) (uc_count : Z) :
  let acc := Hypoxia.detect_accelerations_in_window window_fhr baseline 15 in
  let dec := Hypoxia.detect_decelerations_in_window window_fhr baseline 15 in
  (Hypoxia.calculate_window_risk baseline variability uc_count
     (fst acc) (fst dec) (snd acc) (snd dec) == 0)%Q
  <-> ((110 <= baseline)%Q /\ (baseline <= 160)%Q
       /\ (exists v, variability = Some v /\ (5 <= v)%Q)
       /\ snd dec = 0 /\ 2 <= snd acc).
Proof.
  intros acc dec. subst acc dec.
  unfold Hypoxia.detect_accelerations_in_window, Hypoxia.detect_decelerations_in_window.
  cbn [fst snd]. rewrite !existsb_count_if.
  set (ac := Hypoxia.count_if _ window_fhr).
  set (dc := Hypoxia.count_if (fun fhr => Qle_bool fhr _) window_fhr).
  assert (Hac : 0 <= ac) by (subst ac; rewrite count_if_filter; lia).
  assert (Hdc : 0 <= dc) by (subst dc; rewrite count_if_filter; lia).
  unfold Hypoxia.calculate_window_risk. cbv zeta.
  rewrite clamped_tenths, tenths_zero.
  match goal with
  | |- context [ (?b + ?v + ?d + ?a + ?x + ?y)%Z ] =>
      set (bs := b); set (vs := v); set (ds := d); set (az := a);
      set (acs := x); set (dcs := y)
  end.
  assert (Hbs : 0 <= bs /\ (bs = 0 <-> (110 <= baseline)%Q /\ (baseline <= 160)%Q)).
  { subst bs.
    destruct (Py.Qeqb baseline 0) eqn:E0.
    - apply Qeq_bool_iff in E0. split; [ lia | ]. split; [ lia | intros (H1 & H2); lra ].
    - destruct (Qle_bool 110 baseline) eqn:E1; destruct (Qle_bool baseline 160) eqn:E2;
        cbn [andb];
        try (apply Qle_bool_iff in E1); try (apply Qle_bool_iff in E2).
      + split; [ lia | tauto ].
      + assert (~ (baseline <= 160)%Q)
          by (intros H; apply Qle_bool_iff in H; congruence).
        destruct (_ || _); split; try lia; split; try lia; tauto.
      + assert (~ (110 <= baseline)%Q)
          by (intros H; apply Qle_bool_iff in H; congruence).
        destruct (_ || _); split; try lia; split; try lia; tauto.
      + assert (~ (110 <= baseline)%Q)
          by (intros H; apply Qle_bool_iff in H; congruence).
        destruct (_ || _); split; try lia; split; try lia; tauto. }
  assert (Hvs : 0 <= vs /\ (vs = 0 <-> exists v, variability = Some v /\ (5 <= v)%Q)).
  { subst vs. destruct variability as [ v | ].
    - destruct (Py.Qeqb v 0) eqn:E0.
      + apply Qeq_bool_iff in E0. split; [ lia | ].
        split; [ lia | intros (v' & Hv & H5); injection Hv as <-; lra ].
      + destruct (Qle_bool 5 v) eqn:E5.
        * apply Qle_bool_iff in E5. split; [ lia | ]. split; [ eauto | reflexivity ].
        * assert (~ (5 <= v)%Q) by (intros H; apply Qle_bool_iff in H; congruence).
          destruct (Qle_bool 3 v && Py.Qltb v 5); split; try lia;
            (split; [ lia | intros (v' & Hv & H5); injection Hv as <-; contradiction ]).
    - split; [ lia | ]. split; [ lia | intros (v' & Hv & _); discriminate ]. }
  subst ds az acs dcs.
  destruct Hbs as (Hbs0 & Hbs). destruct Hvs as (Hvs0 & Hvs). clearbody bs vs ac dc.
  assert (Hq : 0 <= dc / 5) by (apply Z.div_pos; lia).
  destruct (Z.ltb_spec 0 dc) as [ Hd | Hd ]; destruct (Z.ltb_spec 0 ac) as [ Ha | Ha ].
  - split; [ intros H; exfalso; lia | intros (_ & _ & _ & Hz & _); lia ].
  - split; [ intros H; exfalso; lia | intros (_ & _ & _ & Hz & _); lia ].
  - assert (Edc : dc = 0) by lia. rewrite Edc. cbn [Z.div Z.min].
    change (Z.min 2 (0 / 5)) with 0.
    split.
    + intros H. assert (bs = 0 /\ vs = 0 /\ 2 <= ac) as (Eb & Ev & Hk) by lia.
      apply Hbs in Eb. apply Hvs in Ev. tauto.
    + intros (H1 & H2 & Hv & _ & Hk).
      assert (bs = 0) by (apply Hbs; tauto). assert (vs = 0) by (apply Hvs; exact Hv).
      lia.
  - assert (Edc : dc = 0) by lia. rewrite Edc. change (Z.min 2 (0 / 5)) with 0.
    split; [ intros H; exfalso; lia | intros (_ & _ & _ & _ & Hk); lia ].
Qed.

(** ** Contraction and peak counting *)

Section PeakCounter.

Variable hit : Q -> bool.
Variable P : Q -> Prop.
Hypothesis hit_iff : forall v, hit v = true <-> P v.

Let step := fun (st : Z * bool) (v : Q) =>
  let '(count, inside) := st in
  if hit v then
    if negb inside then (count + 1, true) else (count, inside)
  else (count, false).

Lemma peak_fold_run (r : list Q) :
  Forall P r -> forall c, fold_left step r (c, true) = (c, true).
Proof.
  induction 1 as [ | v r Hv _ IH ]; intros c; simpl; [ reflexivity | ].
  apply hit_iff in Hv. rewrite Hv. simpl. apply IH.
Qed.

Lemma peak_fold_fresh (r : list Q) :
  r <> [] -> Forall P r -> forall c, fold_left step r (c, false) = (c + 1, true).
Proof.
  intros Hne HP c. destruct r as [ | v r ]; [ congruence | ].
  inversion HP as [ | ? ? Hv Hr ]; subst. simpl.
  apply hit_iff in Hv. rewrite Hv. simpl. now apply peak_fold_run.
Qed.

Lemma peak_step_gap (x : Q) (c : Z) (b : bool) : ~ P x -> step (c, b) x = (c, false).
Proof.
  intros HnP. simpl. destruct (hit x) eqn:E; [ | reflexivity ].
  apply hit_iff in E. contradiction.
Qed.

(** The peak counter returns the number of maximal runs of hits. *)
Lemma peak_counter_counts_runs (l : list Q) (runs : list (list Q)) :
  Reference.segmentation P l runs ->
  forall c, fst (fold_left step l (c, false)) = c + Z.of_nat (length runs).
Proof.
  induction 1 as [ | x l runs HnP _ IH | r l runs Hne HP Hnext _ IH ]; intros c.
  - simpl. lia.
  - cbn [fold_left]. rewrite (peak_step_gap x c false HnP). apply IH.
  - rewrite fold_left_app, (peak_fold_fresh r Hne HP).
    destruct Hnext as [ -> | (x & l' & -> & HnP) ].
    + specialize (IH (c + 1)). cbn [fold_left] in IH |- *.
      cbn [length]. cbn [fst] in IH |- *. lia.
    + specialize (IH (c + 1)). cbn [fold_left] in IH |- *.
      rewrite (peak_step_gap x _ false HnP) in IH.
      rewrite (peak_step_gap x _ true HnP). rewrite IH. cbn [length]. lia.
Qed.

End PeakCounter.

(** X4.  [count_contractions] returns the number of maximal contiguous
    runs of samples strictly above 15, whatever their length; such a
    segmentation exists for every series; and [count_peaks] with threshold 15
    is the same function. *)
Theorem count_contractions_counts_runs (uc_series : list Q) :
  (forall runs,
      Reference.segmentation (fun uc => (15 < uc)%Q) uc_series runs ->
      Hypoxia.count_contractions uc_series = Z.of_nat (length runs))
  /\ Reference.segmentation (fun uc => (15 < uc)%Q) uc_series
       (Reference.maximal_runs (fun uc => Py.Qltb 15 uc) uc_series)
  /\ AiModule.count_peaks uc_series 15 = Hypoxia.count_contractions uc_series.
Proof.
  split_all.
  - intros runs Hseg. unfold Hypoxia.count_contractions.
    apply (peak_counter_counts_runs (fun uc => Py.Qltb 15 uc) _
             (fun v => Qltb_true 15 v) _ _ Hseg 0).
  - apply maximal_runs_segmentation. intros v. apply Qltb_true.
  - reflexivity.
Qed.

(** Two contractions: a bump to 40 twice on a tonus of 10. *)
Lemma count_contractions_counts_runs_witness :
  Hypoxia.count_contractions [10; 40; 40; 10; 10; 40; 10]%Q = 2.
Proof.
  refine (proj1 (count_contractions_counts_runs [10; 40; 40; 10; 10; 40; 10]%Q)
            [[40; 40]; [40]]%Q _).
  apply Reference.seg_gap; [ intros H; discriminate H | ].
  apply (Reference.seg_run _ [40; 40]%Q [10; 10; 40; 10]%Q).
  - discriminate.
  - repeat constructor.
  - right. exists 10%Q, [10; 40; 10]%Q. split; [ reflexivity | intros H; discriminate H ].
  - apply Reference.seg_gap; [ intros H; discriminate H | ].
    apply Reference.seg_gap; [ intros H; discriminate H | ].
    apply (Reference.seg_run _ [40]%Q [10]%Q).
    + discriminate.
    + repeat constructor.
    + right. exists 10%Q, []. split; [ reflexivity | intros H; discriminate H ].
    + apply Reference.seg_gap; [ intros H; discriminate H | constructor ].
Defined.

(** ** Variability of flat and varying traces *)

Section Flatness.

Local Open Scope Q_scope.

Lemma total_nonneg (l : list Q) : Forall (fun d => 0 <= d) l -> 0 <= Reference.total l.
Proof.
  induction 1 as [ | d l Hd _ IH ]; simpl; [ apply Qle_refl | lra ].
Qed.

Lemma total_zero_iff (l : list Q) :
  Forall (fun d => 0 <= d) l ->
  (Reference.total l == 0 <-> Forall (fun d => d == 0) l).
Proof.
  induction 1 as [ | d l Hd Hl IH ]; simpl.
  - split; [ constructor | reflexivity ].
  - pose proof (total_nonneg l Hl) as Ht. split.
    + intros H. constructor; [ lra | apply IH; lra ].
    + intros H. inversion H as [ | ? ? Hd0 Hl0 ]; subst.
      apply IH in Hl0. lra.
Qed.

Lemma differences_nonneg (l : list Q) :
  Forall (fun d => 0 <= d) (Variability.differences l).
Proof.
  induction l as [ | a [ | b rest ] IH ]; cbn [Variability.differences];
    try constructor.
  - apply Qabs_nonneg.
  - exact IH.
Qed.

Lemma differences_cons2 (a b : Q) (rest : list Q) :
  Variability.differences (a :: b :: rest)
  = Qabs (b - a) :: Variability.differences (b :: rest).
Proof. reflexivity. Qed.

(** A series is flat when all its samples are equal. *)
Lemma differences_zero_iff_flat (l : list Q) :
  Forall (fun d => d == 0) (Variability.differences l)
  <-> (forall x y, In x l -> In y l -> x == y).
Proof.
  induction l as [ | a [ | b rest ] IH ].
  - split; [ intros _ x y [] | constructor ].
  - split; [ | constructor ].
    intros _ x y [ <- | [] ] [ <- | [] ]. reflexivity.
  - rewrite differences_cons2. split.
    + intros H. apply Forall_cons_iff in H. destruct H as (Hd & Hrest).
      assert (Eab : b == a).
      { destruct (Qabs_Qle_condition (b - a) 0) as [ Hc _ ].
        assert (Hle : Qabs (b - a) <= 0) by (rewrite Hd; apply Qle_refl).
        apply Hc in Hle. lra. }
      pose proof (proj1 IH Hrest) as Hflat.
      assert (Hall : forall x, In x (a :: b :: rest) -> x == b).
      { intros x [ <- | Hx ]; [ now symmetry | ].
        apply Hflat; [ exact Hx | now left ]. }
      intros x y Hx Hy. rewrite (Hall x Hx), (Hall y Hy). reflexivity.
    + intros H. constructor.
      * assert (E : b == a) by (apply H; [ right; now left | now left ]).
        rewrite E. setoid_replace (a - a) with 0 by ring. reflexivity.
      * apply IH. intros x y Hx Hy. apply H; now right.
Qed.

Lemma short_term_variability_value (a b : Q) (rest : list Q) :
  Variability.calculate_variability (a :: b :: rest)
  = Some (Py.sum (Variability.differences (a :: b :: rest))
          / inject_Z (Py.len (Variability.differences (a :: b :: rest)))).
Proof. reflexivity. Qed.

Lemma variability_sign (l : list Q) (v : Q) :
  Variability.calculate_variability l = Some v ->
  0 <= v /\ (v == 0 <-> forall x y, In x l -> In y l -> x == y).
Proof.
  destruct l as [ | a [ | b rest ] ].
  - intros H. injection H as <-. split; [ apply Qle_refl | ].
    split; [ intros _ x y [] | reflexivity ].
  - intros H. injection H as <-. split; [ apply Qle_refl | ].
    split; [ | reflexivity ].
    intros _ x y [ <- | [] ] [ <- | [] ]. reflexivity.
  - rewrite short_term_variability_value.
    set (ds := Variability.differences (a :: b :: rest)). intros H.
    assert (Hv : v = Py.sum ds / inject_Z (Py.len ds)) by congruence.
    clear H. subst v.
    assert (Hn : 0 < inject_Z (Py.len ds)).
    { unfold Py.len. subst ds. rewrite differences_cons2. cbn [length].
      change 0 with (inject_Z 0). rewrite <- Zlt_Qlt. lia. }
    pose proof (differences_nonneg (a :: b :: rest)) as Hnn. fold ds in Hnn.
    pose proof (total_nonneg ds Hnn) as Ht.
    rewrite sum_total. split.
    + apply Qle_shift_div_l; [ exact Hn | rewrite Qmult_0_l; exact Ht ].
    + rewrite <- differences_zero_iff_flat. fold ds.
      rewrite <- (total_zero_iff ds Hnn). split.
      * intros H.
        assert (E : Reference.total ds
                    == Reference.total ds / inject_Z (Py.len ds) * inject_Z (Py.len ds))
          by (field; lra).
        rewrite E, H. ring.
      * intros H. rewrite H. field. lra.
Qed.

Lemma classify_absent_iff (v : Q) :
  Variability.classify_variability v = "absent"%string <-> v == 0.
Proof.
  unfold Variability.classify_variability, Py.Qeqb.
  destruct (Qeq_bool v 0) eqn:E.
  - apply Qeq_bool_iff in E. tauto.
  - apply Qeq_bool_neq in E. split; [ | contradiction ].
    destruct (Py.Qltb v 5); [ discriminate | ].
    destruct (_ && _); discriminate.
Qed.

End Flatness.

(** X5.  The variability returned by [calculate_variability] is never
    negative, and it is classified [absent] exactly when all samples of the
    series are equal (in particular for series of fewer than 2 samples). *)
Theorem variability_absent_iff_flat (fhr_series : list Q) (v : Q) :
  Variability.calculate_variability fhr_series = Some v ->
  (0 <= v)%Q
  /\ (Variability.classify_variability v = "absent"
      <-> forall x y, In x fhr_series -> In y fhr_series -> (x == y)%Q).
Proof.
  intros H. destruct (variability_sign fhr_series v H) as (Hnn & Hz).
  split; [ exact Hnn | ]. rewrite classify_absent_iff. exact Hz.
Qed.

(** A trace alternating between 140 and 146 has a variability of 6. *)
Lemma variability_absent_iff_flat_witness :
  (0 <= 12 # 2)%Q
  /\ (Variability.classify_variability (12 # 2) = "absent"
      <-> forall x y, In x [140; 146; 140]%Q -> In y [140; 146; 140]%Q -> (x == y)%Q).
Proof.
  exact (variability_absent_iff_flat [140; 146; 140]%Q (12 # 2) eq_refl).
Defined.

(** ** Classifier results *)

Lemma calc_baseline_no_valid_sample (fhr_series : list Q) :
  Forall (fun v => ~ (50 <= v /\ v <= 200)%Q) fhr_series ->
  Common.calc_baseline fhr_series = Some 0%Q.
Proof.
  intros Hout. unfold Common.calc_baseline, Common.calc_baseline_ws.
  destruct fhr_series as [ | v l ]; [ reflexivity | ].
  now rewrite (filter_none _ Hout).
Qed.

Ltac unfold_adjusters :=
  unfold RiskAdjustment.adjust_figo_classification,
    RiskAdjustment.adjust_nichd_classification.

(** X6.  A flat trace, all samples equal (a flat line, a single sample or
    no sample at all), has absent variability and is classified Pathological
    (code 2) by FIGO for every risk-factor set and gestational age, with no
    risk adjustment applied. *)
Theorem flat_trace_is_pathological
    (fhr_series : list Q) (risk_factors : list (string * bool)) (ga_weeks : Z) :
  (forall x y, In x fhr_series -> In y fhr_series -> (x == y)%Q) ->
  exists r,
    FigoNice.classify_figo fhr_series risk_factors ga_weeks = Some r
    /\ FigoNice.variability_class r = "absent"
    /\ FigoNice.base_classification r = mk_classification "Pathological" 2
    /\ FigoNice.final_classification r = mk_classification "Pathological" 2
    /\ applied (FigoNice.risk_adjustment r) = false.
Proof.
  intros Hflat.
  destruct (calc_baseline_defined fhr_series) as (b & Hb).
  destruct (calculate_variability_defined fhr_series) as (v & Hv).
  assert (Hclass : Variability.classify_variability v = "absent").
  { apply classify_absent_iff. now apply (variability_sign fhr_series v Hv). }
  unfold FigoNice.classify_figo. rewrite Hb, Hv. cbn [Py.bind]. cbv zeta.
  rewrite Hclass.
  change (FigoNice.evaluate_variability v "absent") with "abnormal".
  generalize (FigoNice.evaluate_baseline b) as eb.
  generalize (FigoNice.evaluate_accelerations
                (Common.detect_accelerations fhr_series b ga_weeks)) as ea.
  generalize (FigoNice.evaluate_decelerations
                (Common.detect_decelerations fhr_series b
                   Common.default_deceleration_threshold)) as ed.
  intros ed ea eb.
  cbn [forallb existsb String.eqb Ascii.eqb Bool.eqb andb orb].
  rewrite andb_false_r, orb_true_r.
  unfold_adjusters.
  destruct (4 <=? RiskAdjustment.calculate_risk_score risk_factors);
    eexists; split_all; reflexivity.
Qed.

(** A flat line at 140 with a high-risk history. *)
Lemma flat_trace_is_pathological_witness :
  exists r,
    FigoNice.classify_figo (repeat 140%Q 30) Traces.high_risk 37 = Some r
    /\ FigoNice.final_classification r = mk_classification "Pathological" 2.
Proof.
  destruct (flat_trace_is_pathological (repeat 140%Q 30) Traces.high_risk 37)
    as (r & Hr & _ & _ & Hfinal & _).
  - intros x y Hx Hy. apply repeat_spec in Hx, Hy. subst. reflexivity.
  - exists r. split; assumption.
Defined.

(** X7.  Both classifiers return a result on every input, and the result
    keeps the escalation-only invariant: base and final labels belong to the
    standard and carry their own codes, the final code is the base code or one
    more and at most 2, the top-level label and code repeat the final
    classification, and the adjustment flag is set exactly when the risk score
    is at least 4 and the base is below the top, which is exactly when the code
    grew. *)
Theorem classifier_results_are_consistent
    (fhr_series : list Q) (risk_factors : list (string * bool)) (ga_weeks : Z) :
  let score := RiskAdjustment.calculate_risk_score risk_factors in
  let consistent :=
    fun (labels : list string) (code_map : list (string * Z))
        (base final : classification) (label : string) (code : Z)
        (adj : risk_adjustment_info) =>
      In (cls_label base) labels
      /\ cls_code base = RiskAdjustment.code_of code_map (cls_label base)
      /\ In (cls_label final) labels
      /\ cls_code final = RiskAdjustment.code_of code_map (cls_label final)
      /\ cls_code base <= cls_code final <= Z.min 2 (cls_code base + 1)
      /\ (label, code) = (cls_label final, cls_code final)
      /\ info_risk_score adj = score
      /\ (applied adj = true <-> 4 <= score /\ cls_code base < 2)
      /\ (applied adj = true <-> cls_code final = cls_code base + 1) in
  (exists r,
      FigoNice.classify_figo fhr_series risk_factors ga_weeks = Some r
      /\ consistent Reference.figo_labels RiskAdjustment.figo_code_map
           (FigoNice.base_classification r) (FigoNice.final_classification r)
           (FigoNice.label r) (FigoNice.code r) (FigoNice.risk_adjustment r))
  /\ (exists r,
         NichdAcog.classify_nichd fhr_series risk_factors ga_weeks = Some r
         /\ consistent Reference.nichd_labels RiskAdjustment.nichd_code_map
              (NichdAcog.base_classification r) (NichdAcog.final_classification r)
              (NichdAcog.label r) (NichdAcog.code r) (NichdAcog.risk_adjustment r)).
Proof.
  intros score consistent. subst consistent. cbv beta.
  destruct (calc_baseline_defined fhr_series) as (b & Hb).
  destruct (calculate_variability_defined fhr_series) as (v & Hv).
  unfold FigoNice.classify_figo, NichdAcog.classify_nichd.
  rewrite Hb, Hv. cbn [Py.bind]. cbv zeta. fold score.
  unfold NichdAcog.classify_nichd_category. unfold_adjusters.
  split.
  - destruct (forallb _ _); [ | destruct (existsb _ _) ];
      destruct (Z.leb_spec 4 score);
      cbn [String.eqb Ascii.eqb Bool.eqb];
      eexists; (split; [ reflexivity | ]);
      cbn; split_all; try reflexivity; try tauto; try lia;
      try (split; intros; try discriminate; lia).
  - destruct (_ && _ && _ && _); [ | destruct (_ && _) ];
      destruct (Z.leb_spec 4 score);
      cbn [String.eqb Ascii.eqb Bool.eqb];
      eexists; (split; [ reflexivity | ]);
      cbn; split_all; try reflexivity; try tauto; try lia;
      try (split; intros; try discriminate; lia).
Qed.

(** X8.  The gestational age never changes the NICHD classification: it
    only reaches the reported acceleration count, which the category rules do
    not read.  Two runs that differ in [ga_weeks] agree on every other field. *)
Theorem nichd_ignores_gestational_age
    (fhr_series : list Q) (risk_factors : list (string * bool)) (ga ga' : Z) :
  exists r r',
    NichdAcog.classify_nichd fhr_series risk_factors ga = Some r
    /\ NichdAcog.classify_nichd fhr_series risk_factors ga' = Some r'
    /\ r' = NichdAcog.mk_nichd_result
              (NichdAcog.source r) (NichdAcog.baseline r) (NichdAcog.variability r)
              (NichdAcog.variability_class r) (NichdAcog.accelerations r')
              (NichdAcog.decelerations r) (NichdAcog.base_classification r)
              (NichdAcog.final_classification r) (NichdAcog.risk_adjustment r)
              (NichdAcog.label r) (NichdAcog.code r).
Proof.
  destruct (calc_baseline_defined fhr_series) as (b & Hb).
  destruct (calculate_variability_defined fhr_series) as (v & Hv).
  unfold NichdAcog.classify_nichd. rewrite Hb, Hv. cbn [Py.bind]. cbv zeta.
  unfold NichdAcog.classify_nichd_category.
  destruct (_ && _ && _ && _); [ | destruct (_ && _) ];
    do 2 eexists; split_all; reflexivity.
Qed.

Lemma run_flush_nonneg (hit : Q -> bool) (l : list Q) :
  forall s, 0 <= Common.events s ->
            0 <= Common.run_flush (fold_left (Common.run_step hit) l s).
Proof.
  induction l as [ | v l IH ]; intros s Hs.
  - unfold Common.run_flush. simpl. destruct (_ && _); lia.
  - cbn [fold_left]. apply IH. unfold Common.run_step.
    destruct (hit v); [ destruct (negb _); simpl; lia | ].
    simpl. destruct (_ && _); lia.
Qed.

Lemma detect_decelerations_nonneg (fhr_series : list Q) (baseline : Q) (threshold : Z) :
  0 <= Common.detect_decelerations fhr_series baseline threshold.
Proof.
  unfold Common.detect_decelerations. destruct (_ || _); [ lia | ].
  apply run_flush_nonneg. simpl. lia.
Qed.

Lemma detect_accelerations_nonneg (fhr_series : list Q) (baseline : Q) (ga_weeks : Z) :
  0 <= Common.detect_accelerations fhr_series baseline ga_weeks.
Proof.
  unfold Common.detect_accelerations. destruct (_ || _); [ lia | ].
  apply run_flush_nonneg. simpl. lia.
Qed.

Ltac close_atom :=
  first [ reflexivity | assumption | lia | lra
        | (left; assumption) | (right; lia) | (left; lra) ].

Ltac nichd_case :=
  lazymatch goal with
  | |- _ \/ _ =>
      first [ left; reflexivity | right; left; reflexivity | right; right; reflexivity ]
  | |- _ <-> _ =>
      split;
      [ let H := fresh in
        intros H; first [ discriminate H | (split_all; close_atom) ]
      | let H := fresh in
        intros H;
        first [ reflexivity
              | (exfalso; decompose [and or] H;
                 first [ discriminate | lia | lra | tauto ]) ] ]
  end.

(** X9.  The NICHD base category is fixed by the baseline, the variability
    class and the deceleration count alone: Category I exactly when the
    baseline lies in [110, 160], the variability is moderate and at most 2
    decelerations are counted; Category III exactly when the variability is
    absent and the baseline is below 110 or at least 3 decelerations are
    counted; Category II otherwise. *)
Theorem nichd_base_category
    (fhr_series : list Q) (risk_factors : list (string * bool)) (ga_weeks : Z) (b : Q) :
  Common.calc_baseline fhr_series = Some b ->
  exists r,
    NichdAcog.classify_nichd fhr_series risk_factors ga_weeks = Some r
    /\ let decels := NichdAcog.dec_count (NichdAcog.decelerations r) in
       let base := NichdAcog.base_classification r in
       0 <= decels
       /\ (base = mk_classification "Category I" 0
           <-> (110 <= b)%Q /\ (b <= 160)%Q
               /\ NichdAcog.variability_class r = "moderate" /\ decels <= 2)
       /\ (base = mk_classification "Category III" 2
           <-> NichdAcog.variability_class r = "absent"
               /\ ((b < 110)%Q \/ 3 <= decels))
       /\ (base = mk_classification "Category I" 0
           \/ base = mk_classification "Category II" 1
           \/ base = mk_classification "Category III" 2).
Proof.
  intros Hb. destruct (calculate_variability_defined fhr_series) as (v & Hv).
  unfold NichdAcog.classify_nichd. rewrite Hb, Hv. cbn [Py.bind]. cbv zeta.
  pose proof (detect_decelerations_nonneg fhr_series b
                Common.default_deceleration_threshold) as Hd.
  set (d := Common.detect_decelerations fhr_series b
              Common.default_deceleration_threshold) in *.
  set (vc := Variability.classify_variability v).
  unfold NichdAcog.classify_nichd_category.
  assert (Hband : Qle_bool 110 b && Qle_bool b 160 = true
                  <-> (110 <= b)%Q /\ (b <= 160)%Q).
  { rewrite andb_true_iff, !Qle_bool_iff. tauto. }
  assert (Hlow : Py.Qltb b 110 = true <-> (b < 110)%Q) by apply Qltb_true.
  assert (Hvc : vc = "absent" \/ vc = "minimal" \/ vc = "moderate" \/ vc = "marked").
  { subst vc. unfold Variability.classify_variability.
    destruct (Py.Qeqb v 0); [ now left | ].
    destruct (Py.Qltb v 5); [ right; now left | ].
    destruct (Qle_bool 5 v && Qle_bool v 25);
      [ right; right; now left | right; right; now right ]. }
  destruct (Qle_bool 110 b && Qle_bool b 160) eqn:EB;
    [ assert (HB : (110 <= b)%Q /\ (b <= 160)%Q) by (now apply Hband);
      destruct HB as (HB1 & HB2)
    | assert (HB : ~ ((110 <= b)%Q /\ (b <= 160)%Q))
        by (intros H; apply Hband in H; discriminate H) ];
    clear Hband;
    (destruct (Py.Qltb b 110) eqn:EL;
     [ assert (HL : (b < 110)%Q) by (now apply Hlow)
     | assert (HL : ~ (b < 110)%Q) by (intros H; apply Hlow in H; discriminate H) ]);
    clear Hlow;
    try (exfalso; lra);
    destruct Hvc as [ -> | [ -> | [ -> | -> ] ] ];
    destruct (Z.eqb_spec d 0) as [ E0 | N0 ];
    destruct (Z.leb_spec d 2); destruct (Z.leb_spec d 5); destruct (Z.ltb_spec 3 d);
    try lia;
    cbn [String.eqb Ascii.eqb Bool.eqb existsb andb orb];
    eexists; (split; [ reflexivity | ]); cbn;
    (split; [ lia | ]);
    (split; [ | split ]);
    nichd_case.
Qed.

(** The reassuring sample trace is Category I before risk adjustment. *)
Lemma nichd_base_category_witness :
  exists r,
    NichdAcog.classify_nichd Traces.reassuring_trace [] 37 = Some r
    /\ 0 <= NichdAcog.dec_count (NichdAcog.decelerations r).
Proof.
  assert (Hb : Common.calc_baseline Traces.reassuring_trace = Some (286 # 2)%Q)
    by (vm_compute; reflexivity).
  destruct (nichd_base_category Traces.reassuring_trace [] 37 (286 # 2) Hb)
    as (r & Hr & Hd & _).
  exists r. split; assumption.
Defined.

(** X10.  A series with no sample in [50, 200] (signal loss, saturation or
    no sample at all) has baseline 0, which is reported as bradycardia; no
    acceleration and no deceleration is counted; FIGO classifies it
    Pathological (code 2) and NICHD at least Category II, for every risk-factor
    set and gestational age. *)
Theorem signal_loss_is_pathological
    (fhr_series : list Q) (risk_factors : list (string * bool)) (ga_weeks : Z) :
  Forall (fun v => ~ (50 <= v /\ v <= 200)%Q) fhr_series ->
  Common.calc_baseline fhr_series = Some 0%Q
  /\ AnalysisService._determine_status 0 = "bradycardia"
  /\ exists figo nichd,
       FigoNice.classify_figo fhr_series risk_factors ga_weeks = Some figo
       /\ NichdAcog.classify_nichd fhr_series risk_factors ga_weeks = Some nichd
       /\ FigoNice.accelerations figo = 0 /\ FigoNice.decelerations figo = 0
       /\ FigoNice.base_classification figo = mk_classification "Pathological" 2
       /\ FigoNice.final_classification figo = mk_classification "Pathological" 2
       /\ NichdAcog.accelerations nichd = 0
       /\ NichdAcog.dec_count (NichdAcog.decelerations nichd) = 0
       /\ 1 <= cls_code (NichdAcog.base_classification nichd)
       /\ 1 <= NichdAcog.code nichd.
Proof.
  intros Hout. pose proof (calc_baseline_no_valid_sample fhr_series Hout) as Hb.
  split; [ exact Hb | ]. split; [ reflexivity | ].
  destruct (calculate_variability_defined fhr_series) as (v & Hv).
  unfold FigoNice.classify_figo, NichdAcog.classify_nichd.
  rewrite Hb, Hv. cbn [Py.bind]. cbv zeta.
  assert (Ha : Common.detect_accelerations fhr_series 0 ga_weeks = 0).
  { unfold Common.detect_accelerations. now rewrite orb_true_r. }
  assert (Hd : Common.detect_decelerations fhr_series 0
                 Common.default_deceleration_threshold = 0).
  { unfold Common.detect_decelerations. now rewrite orb_true_r. }
  rewrite Ha, Hd.
  change (FigoNice.evaluate_baseline 0) with "abnormal".
  generalize (FigoNice.evaluate_variability v (Variability.classify_variability v))
    as ev.
  intros ev.
  cbn [forallb existsb String.eqb Ascii.eqb Bool.eqb andb orb
         FigoNice.evaluate_accelerations FigoNice.evaluate_decelerations
         Z.leb Z.eqb Z.compare Pos.compare Pos.compare_cont].
  unfold NichdAcog.classify_nichd_category. unfold_adjusters.
  change (Qle_bool 110 0) with false. cbn [andb].
  destruct (String.eqb (Variability.classify_variability v) "absent" && _);
    destruct (4 <=? RiskAdjustment.calculate_risk_score risk_factors);
    cbn [String.eqb Ascii.eqb Bool.eqb];
    do 2 eexists; split_all; try reflexivity; cbn; lia.
Qed.

(** Three samples of signal loss and saturation. *)
Lemma signal_loss_is_pathological_witness :
  Common.calc_baseline [0; 250; 0]%Q = Some 0%Q.
Proof.
  refine (proj1 (signal_loss_is_pathological [0; 250; 0]%Q [] 37 _)).
  repeat constructor; intros (H1 & H2); vm_compute in H1, H2;
    first [ apply H1; reflexivity | apply H2; reflexivity ].
Defined.

(** ** Events need room *)

Lemma segmentation_occupancy (P : Q -> Prop) (l : list Q) (runs : list (list Q)) :
  Reference.segmentation P l runs ->
  (length (concat runs) + length runs <= length l + 1)%nat
  /\ (forall x l', l = x :: l' -> ~ P x ->
                   (length (concat runs) + length runs <= length l)%nat).
Proof.
  induction 1 as [ | x l runs HnP _ (IHa & IHb) | r l runs Hne HP Hnext Hseg (IHa & IHb) ].
  - split; [ simpl; lia | intros x l' E; discriminate E ].
  - split; [ simpl; lia | intros _ _ _ _; simpl; lia ].
  - split.
    + cbn [concat length]. rewrite !length_app.
      destruct Hnext as [ -> | (x & l' & -> & HnP) ].
      * apply segmentation_nil_runs in Hseg. subst. simpl. lia.
      * specialize (IHb x l' eq_refl HnP). lia.
    + intros x l' E HnP. exfalso. destruct r as [ | y r ]; [ congruence | ].
      injection E as -> _. inversion HP; subst. contradiction.
Qed.

Lemma count_long_occupancy (runs : list (list Q)) :
  16 * Reference.count_long 15 runs <= Z.of_nat (length (concat runs) + length runs).
Proof.
  induction runs as [ | r runs IH ]; [ unfold Reference.count_long; simpl; lia | ].
  rewrite count_long_cons. cbn [concat length]. rewrite length_app.
  destruct (Nat.leb_spec 15 (length r)); lia.
Qed.

Lemma run_detector_bound (hit : Q -> bool) (l : list Q) :
  16 * Common.run_flush (fold_left (Common.run_step hit) l Common.run_init)
  <= Z.of_nat (length l) + 1.
Proof.
  pose proof (maximal_runs_segmentation hit (fun v => hit v = true)
                (fun v => conj (fun H => H) (fun H => H)) l) as Hseg.
  unfold Common.run_init.
  rewrite (detector_counts_runs hit (fun v => hit v = true)
             (fun v => conj (fun H => H) (fun H => H)) l _ Hseg 0).
  pose proof (count_long_occupancy (Reference.maximal_runs hit l)).
  destruct (segmentation_occupancy _ _ _ Hseg) as (Hocc & _). lia.
Qed.

Lemma detect_accelerations_bound (fhr_series : list Q) (baseline : Q) (ga_weeks : Z) :
  16 * Common.detect_accelerations fhr_series baseline ga_weeks
  <= Py.len fhr_series + 1.
Proof.
  unfold Common.detect_accelerations, Py.len.
  destruct (_ || _); [ lia | apply run_detector_bound ].
Qed.

Lemma detect_decelerations_bound (fhr_series : list Q) (baseline : Q) (threshold : Z) :
  16 * Common.detect_decelerations fhr_series baseline threshold
  <= Py.len fhr_series + 1.
Proof.
  unfold Common.detect_decelerations, Py.len.
  destruct (_ || _); [ lia | apply run_detector_bound ].
Qed.

(** X11.  An event takes at least 15 samples and two events are separated
    by at least one sample: for every series, baseline, gestational age and
    threshold, the acceleration and deceleration counts are non-negative and
    16 times the count is at most the series length plus one. *)
Theorem detector_counts_are_bounded
    (fhr_series : list Q) (baseline : Q) (ga_weeks threshold : Z) :
  0 <= Common.detect_accelerations fhr_series baseline ga_weeks
  /\ 16 * Common.detect_accelerations fhr_series baseline ga_weeks
     <= Py.len fhr_series + 1
  /\ 0 <= Common.detect_decelerations fhr_series baseline threshold
  /\ 16 * Common.detect_decelerations fhr_series baseline threshold
     <= Py.len fhr_series + 1.
Proof.
  split_all.
  - apply detect_accelerations_nonneg.
  - apply detect_accelerations_bound.
  - apply detect_decelerations_nonneg.
  - apply detect_decelerations_bound.
Qed.

(** X12.  A trace of fewer than 31 samples cannot hold 2 accelerations, so
    FIGO never classifies it Normal: its base code is at least 1 for every
    risk-factor set and gestational age. *)
Theorem short_trace_is_never_normal
    (fhr_series : list Q) (risk_factors : list (string * bool)) (ga_weeks : Z) :
  (length fhr_series < 31)%nat ->
  exists r,
    FigoNice.classify_figo fhr_series risk_factors ga_weeks = Some r
    /\ FigoNice.accelerations r <= 1
    /\ FigoNice.ev_accelerations (FigoNice.evals r) = "non-reassuring"
    /\ 1 <= cls_code (FigoNice.base_classification r)
    /\ 1 <= FigoNice.code r.
Proof.
  intros Hlen.
  destruct (calc_baseline_defined fhr_series) as (b & Hb).
  destruct (calculate_variability_defined fhr_series) as (v & Hv).
  pose proof (detect_accelerations_bound fhr_series b ga_weeks) as Hbound.
  unfold Py.len in Hbound.
  assert (Hacc : Common.detect_accelerations fhr_series b ga_weeks <= 1) by lia.
  unfold FigoNice.classify_figo. rewrite Hb, Hv. cbn [Py.bind]. cbv zeta.
  unfold FigoNice.evaluate_accelerations.
  destruct (Z.leb_spec 2 (Common.detect_accelerations fhr_series b ga_weeks));
    [ lia | ].
  generalize (FigoNice.evaluate_baseline b) as eb.
  generalize (FigoNice.evaluate_variability v (Variability.classify_variability v))
    as ev.
  generalize (FigoNice.evaluate_decelerations
                (Common.detect_decelerations fhr_series b
                   Common.default_deceleration_threshold)) as ed.
  intros ed ev eb.
  cbn [forallb String.eqb Ascii.eqb Bool.eqb andb].
  rewrite !andb_false_r.
  unfold_adjusters.
  destruct (existsb _ _);
    destruct (4 <=? RiskAdjustment.calculate_risk_score risk_factors);
    cbn [String.eqb Ascii.eqb Bool.eqb];
    eexists; split_all; try reflexivity; try assumption; cbn; lia.
Qed.

(** Thirty samples, fifteen of them raised: one acceleration at most. *)
Lemma short_trace_is_never_normal_witness :
  exists r,
    FigoNice.classify_figo (repeat 140 15 ++ repeat 160 15)%Q [] 37 = Some r
    /\ 1 <= FigoNice.code r.
Proof.
  destruct (short_trace_is_never_normal (repeat 140 15 ++ repeat 160 15)%Q [] 37)
    as (r & Hr & _ & _ & _ & Hcode).
  - simpl. lia.
  - exists r. split; assumption.
Defined.

(** ** The baseline stays in the physiological band *)

Lemma insert_sorted_length (x : Q) (l : list Q) :
  length (Py.insert_sorted x l) = S (length l).
Proof.
  induction l as [ | y l IH ]; simpl; [ reflexivity | ].
  destruct (Qle_bool x y); simpl; [ reflexivity | now rewrite IH ].
Qed.

Lemma sort_length (l : list Q) : length (Py.sort l) = length l.
Proof.
  induction l as [ | x l IH ]; simpl; [ reflexivity | ].
  now rewrite insert_sorted_length, IH.
Qed.

Lemma insert_sorted_Forall (P : Q -> Prop) (x : Q) (l : list Q) :
  P x -> Forall P l -> Forall P (Py.insert_sorted x l).
Proof.
  intros Hx. induction 1 as [ | y l Hy Hl IH ]; simpl.
  - constructor; [ assumption | constructor ].
  - destruct (Qle_bool x y); repeat constructor; assumption.
Qed.

Lemma sort_Forall (P : Q -> Prop) (l : list Q) : Forall P l -> Forall P (Py.sort l).
Proof.
  induction 1 as [ | x l Hx _ IH ]; simpl; [ constructor | ].
  now apply insert_sorted_Forall.
Qed.

Lemma slice_Forall (P : Q -> Prop) (l : list Q) (i j : nat) :
  Forall P l -> Forall P (Py.slice l i j).
Proof.
  intros H. unfold Py.slice.
  rewrite <- (firstn_skipn i l) in H. apply Forall_app in H. destruct H as (_ & Hs).
  rewrite <- (firstn_skipn (j - i) (skipn i l)) in Hs.
  apply Forall_app in Hs. tauto.
Qed.

Section MedianRange.

Local Open Scope Q_scope.

Variables lo hi : Q.

Let inside (v : Q) : Prop := lo <= v /\ v <= hi.

(** The median of values in a band lies in the band. *)
Lemma np_median_range (l : list Q) (m : Q) :
  Forall inside l -> Py.np_median l = Some m -> inside m.
Proof.
  intros Hl. destruct l as [ | x l ]; [ discriminate | ].
  unfold Py.np_median.
  pose proof (sort_Forall inside (x :: l) Hl) as Hs.
  pose proof (sort_length (x :: l)) as Hlen.
  set (s := Py.sort (x :: l)) in *. set (n := length s) in *.
  assert (Hn : (0 < n)%nat) by (rewrite Hlen; simpl; lia).
  assert (Hhalf : (n / 2 < n)%nat) by (apply Nat.div_lt; lia).
  assert (Hnth : forall k, (k < n)%nat -> inside (nth k s 0)).
  { intros k Hk. apply (proj1 (Forall_nth inside s) Hs). exact Hk. }
  pose proof (Hnth (n / 2 - 1)%nat ltac:(lia)) as Ha.
  pose proof (Hnth (n / 2)%nat Hhalf) as Hc.
  set (a := nth (n / 2 - 1) s 0) in *. set (c := nth (n / 2) s 0) in *.
  clearbody a c. destruct Ha as (A1 & A2). destruct Hc as (B1 & B2).
  destruct (Nat.even n); intros H; injection H as <-.
  - unfold inside. split.
    + apply Qle_shift_div_l; [ reflexivity | lra ].
    + apply Qle_shift_div_r; [ reflexivity | lra ].
  - split; assumption.
Qed.

End MedianRange.

Lemma filter_in_range (fhr_series : list Q) :
  Forall (fun v => (50 <= v /\ v <= 200)%Q) (filter Common.in_range_50_200 fhr_series).
Proof.
  apply Forall_forall. intros v Hv. apply filter_In in Hv. destruct Hv as (_ & Hv).
  unfold Common.in_range_50_200 in Hv. apply andb_true_iff in Hv.
  destruct Hv as (H1 & H2). split; now apply Qle_bool_iff.
Qed.

(** X13.  [calc_baseline] returns 0 exactly when no sample lies in
    [50, 200]; otherwise the baseline itself lies in [50, 200]: out-of-range
    samples never pull it out of the band. *)
Theorem calc_baseline_stays_in_band (fhr_series : list Q) (b : Q) :
  Common.calc_baseline fhr_series = Some b ->
  (filter Common.in_range_50_200 fhr_series = [] /\ b = 0%Q)
  \/ (filter Common.in_range_50_200 fhr_series <> [] /\ (50 <= b)%Q /\ (b <= 200)%Q).
Proof.
  unfold Common.calc_baseline, Common.calc_baseline_ws.
  destruct fhr_series as [ | v l ].
  - intros H. injection H as <-. now left.
  - pose proof (filter_in_range (v :: l)) as Hf.
    destruct (filter Common.in_range_50_200 (v :: l)) as [ | y ys ] eqn:Ef.
    + intros H. injection H as <-. now left.
    + intros H. right. split; [ discriminate | ].
      destruct (length (y :: ys) <? 10)%nat.
      * apply (np_median_range 50 200 (y :: ys) b Hf H).
      * destruct (Py.mapM _ _) as [ meds | ] eqn:Em; [ | discriminate H ].
        cbn [Py.bind] in H.
        apply (np_median_range 50 200 meds b); [ | exact H ].
        apply (mapM_Forall _ _ _ (fun i m _ Hm =>
                 np_median_range 50 200 _ m (slice_Forall _ _ _ _ Hf) Hm) _ Em).
Qed.

(** Two valid samples among artefacts: the baseline is their median. *)
Lemma calc_baseline_stays_in_band_witness :
  (filter Common.in_range_50_200 [0; 140; 250; 150]%Q = [] /\ (290 # 2)%Q = 0%Q)
  \/ (filter Common.in_range_50_200 [0; 140; 250; 150]%Q <> []
      /\ (50 <= 290 # 2)%Q /\ (290 # 2 <= 200)%Q).
Proof.
  exact (calc_baseline_stays_in_band [0; 140; 250; 150]%Q (290 # 2) eq_refl).
Defined.

(** ** The risk score and its two other readings *)

Lemma risk_key_cases (k : string) :
  In k (map fst RiskAdjustment.RISK_SCORES)
  \/ (RiskAdjustment.dict_get RiskAdjustment.RISK_SCORES k = None
      /\ RiskAdjustment.dict_get RiskAdjustment.factor_names k = None).
Proof.
  unfold RiskAdjustment.RISK_SCORES, RiskAdjustment.factor_names.
  cbn [map fst RiskAdjustment.dict_get In].
  repeat match goal with
         | |- context [ String.eqb ?a k ] =>
             destruct (String.eqb_spec a k); [ left; tauto | ]
         end.
  right. split; reflexivity.
Qed.

Lemma dict_get_absent {V : Type} (d : list (string * V)) (key : string) :
  ~ In key (map fst d) -> RiskAdjustment.dict_get d key = None.
Proof.
  induction d as [ | (k, v) d IH ]; intros Hn; [ reflexivity | ].
  cbn [RiskAdjustment.dict_get]. cbn [map fst In] in Hn.
  destruct (String.eqb_spec k key); [ tauto | apply IH; tauto ].
Qed.

(** The weight an item adds to the score. *)
Lemma calculate_risk_score_cons (k : string) (v : bool)
    (risk_factors : list (string * bool)) :
  RiskAdjustment.calculate_risk_score ((k, v) :: risk_factors)
  = (if v then RiskAdjustment.code_of RiskAdjustment.RISK_SCORES k else 0)
    + RiskAdjustment.calculate_risk_score risk_factors.
Proof.
  unfold RiskAdjustment.calculate_risk_score. cbn [fold_left].
  set (f := fun (score : Z) (item : string * bool) => _).
  assert (H : forall l a, fold_left f l a = a + fold_left f l 0).
  { induction l as [ | (k', v') l IH ]; intros a; cbn [fold_left]; [ lia | ].
    rewrite (IH (f a (k', v'))), (IH (f 0 (k', v'))). subst f. cbv beta iota.
    destruct v'; [ | lia ].
    destruct (RiskAdjustment.dict_get RiskAdjustment.RISK_SCORES k'); lia. }
  rewrite H. unfold RiskAdjustment.code_of.
  destruct v; [ | reflexivity ].
  destruct (RiskAdjustment.dict_get RiskAdjustment.RISK_SCORES k); reflexivity.
Qed.

Lemma code_of_risk_nonneg (k : string) :
  0 <= RiskAdjustment.code_of RiskAdjustment.RISK_SCORES k.
Proof.
  unfold RiskAdjustment.code_of.
  destruct (risk_key_cases k) as [ Hin | (-> & _) ]; [ | lia ].
  cbn [map fst RiskAdjustment.RISK_SCORES In] in Hin.
  repeat (destruct Hin as [ <- | Hin ]; [ vm_compute; discriminate | ]).
  contradiction.
Qed.

Lemma extract_risk_score_cons (k : string) (v : bool)
    (risk_factors : list (string * bool)) :
  ~ In k (map fst risk_factors) ->
  AiModule.extract_risk_score ((k, v) :: risk_factors)
  = (if v then RiskAdjustment.code_of RiskAdjustment.RISK_SCORES k else 0)
    + AiModule.extract_risk_score risk_factors.
Proof.
  intros Hnew. pose proof (dict_get_absent risk_factors k Hnew) as Hk.
  unfold AiModule.extract_risk_score. cbv zeta beta.
  cbn [RiskAdjustment.dict_get fold_left].
  destruct (risk_key_cases k) as [ Hin | (Hnone & _) ].
  - cbn [map fst RiskAdjustment.RISK_SCORES In] in Hin.
    repeat (destruct Hin as [ <- | Hin ];
            [ cbn [String.eqb Ascii.eqb Bool.eqb]; rewrite Hk;
              match goal with
              | |- context [ RiskAdjustment.code_of ?t ?key ] =>
                  let c := eval vm_compute in (RiskAdjustment.code_of t key) in
                  change (RiskAdjustment.code_of t key) with c
              end;
              destruct v; lia | ]).
    contradiction.
  - unfold RiskAdjustment.code_of. rewrite Hnone.
    unfold RiskAdjustment.RISK_SCORES in Hnone.
    cbn [RiskAdjustment.dict_get] in Hnone.
    repeat match type of Hnone with
           | (if String.eqb ?a k then _ else _) = None =>
               let E := fresh "E" in
               destruct (String.eqb_spec a k) as [ E | E ];
               [ discriminate Hnone | rewrite (proj2 (String.eqb_neq k a)) by congruence ]
           end.
    destruct v; lia.
Qed.

Lemma extract_risk_score_bounds (risk_factors : list (string * bool)) :
  0 <= AiModule.extract_risk_score risk_factors <= 17.
Proof.
  unfold AiModule.extract_risk_score. cbv zeta beta. cbn [fold_left].
  repeat match goal with
         | |- context [ RiskAdjustment.dict_get risk_factors ?key ] =>
             destruct (RiskAdjustment.dict_get risk_factors key) as [ [ | ] | ]
         end; lia.
Qed.

(** X14.  For a risk-factor dict (distinct keys) the score that the
    predictor's feature extraction computes with its own weight list equals
    [calculate_risk_score], and the score lies between 0 and 17. *)
Theorem risk_score_sources_agree (risk_factors : list (string * bool)) :
  NoDup (map fst risk_factors) ->
  AiModule.extract_risk_score risk_factors
  = RiskAdjustment.calculate_risk_score risk_factors
  /\ 0 <= RiskAdjustment.calculate_risk_score risk_factors <= 17.
Proof.
  intros Hnd.
  assert (E : AiModule.extract_risk_score risk_factors
              = RiskAdjustment.calculate_risk_score risk_factors).
  { induction risk_factors as [ | (k, v) rf IH ]; [ reflexivity | ].
    cbn [map fst] in Hnd. inversion Hnd as [ | ? ? Hnew Hrest ]; subst.
    rewrite (extract_risk_score_cons k v rf Hnew), calculate_risk_score_cons.
    now rewrite (IH Hrest). }
  split; [ exact E | ]. rewrite <- E. apply extract_risk_score_bounds.
Qed.

(** Preeclampsia and a placental pathology score 6 in both readings. *)
Lemma risk_score_sources_agree_witness :
  AiModule.extract_risk_score Traces.high_risk
  = RiskAdjustment.calculate_risk_score Traces.high_risk.
Proof.
  refine (proj1 (risk_score_sources_agree Traces.high_risk _)).
  repeat constructor; simpl; intuition discriminate.
Defined.

Lemma get_active_risk_factors_cons (k : string) (v : bool)
    (risk_factors : list (string * bool)) :
  RiskAdjustment.get_active_risk_factors ((k, v) :: risk_factors)
  = (if v then
       match RiskAdjustment.dict_get RiskAdjustment.factor_names k with
       | Some name =>
           [RiskAdjustment.mk_active_factor name
              (RiskAdjustment.code_of RiskAdjustment.RISK_SCORES k)]
       | None => []
       end
     else [])
    ++ RiskAdjustment.get_active_risk_factors risk_factors.
Proof.
  unfold RiskAdjustment.get_active_risk_factors. cbn [fold_left].
  set (f := fun (active : list RiskAdjustment.active_factor) (item : string * bool) => _).
  assert (H : forall l acc, fold_left f l acc = acc ++ fold_left f l []).
  { induction l as [ | (k', v') l IH ]; intros acc; cbn [fold_left];
      [ now rewrite app_nil_r | ].
    rewrite (IH (f acc (k', v'))), (IH (f [] (k', v'))). subst f. cbv beta iota.
    destruct v'; [ | reflexivity ].
    destruct (RiskAdjustment.dict_get RiskAdjustment.factor_names k');
      [ now rewrite <- app_assoc | reflexivity ]. }
  rewrite H. reflexivity.
Qed.

(** X15.  The active-factor report agrees with the score: the scores of
    the entries of [get_active_risk_factors] add up to [calculate_risk_score],
    and every entry carries the display name and the weight (1 to 3) of one
    key of the weight table. *)
Theorem active_factors_add_up_to_score (risk_factors : list (string * bool)) :
  let active := RiskAdjustment.get_active_risk_factors risk_factors in
  fold_right Z.add 0 (map RiskAdjustment.score active)
  = RiskAdjustment.calculate_risk_score risk_factors
  /\ Forall
       (fun a =>
          1 <= RiskAdjustment.score a <= 3
          /\ exists k,
               In (k, true) risk_factors
               /\ RiskAdjustment.dict_get RiskAdjustment.factor_names k
                  = Some (RiskAdjustment.factor a)
               /\ RiskAdjustment.dict_get RiskAdjustment.RISK_SCORES k
                  = Some (RiskAdjustment.score a))
       active.
Proof.
  cbv zeta. induction risk_factors as [ | (k, v) rf (IHsum & IHall) ].
  - split; [ reflexivity | constructor ].
  - rewrite get_active_risk_factors_cons, calculate_risk_score_cons.
    rewrite map_app, fold_right_app, Forall_app.
    assert (Hrest : Forall
                      (fun a =>
                         1 <= RiskAdjustment.score a <= 3
                         /\ exists k0,
                              In (k0, true) ((k, v) :: rf)
                              /\ RiskAdjustment.dict_get RiskAdjustment.factor_names k0
                                 = Some (RiskAdjustment.factor a)
                              /\ RiskAdjustment.dict_get RiskAdjustment.RISK_SCORES k0
                                 = Some (RiskAdjustment.score a))
                      (RiskAdjustment.get_active_risk_factors rf)).
    { eapply Forall_impl; [ | exact IHall ].
      intros a (Hs & k0 & Hin & Hn & Hw). split; [ exact Hs | ].
      exists k0. split; [ now right | split; assumption ]. }
    assert (Hsum : forall head : list RiskAdjustment.active_factor,
               fold_right Z.add
                 (fold_right Z.add 0
                    (map RiskAdjustment.score (RiskAdjustment.get_active_risk_factors rf)))
                 (map RiskAdjustment.score head)
               = fold_right Z.add 0 (map RiskAdjustment.score head)
                 + RiskAdjustment.calculate_risk_score rf).
    { intros head. rewrite IHsum. induction head as [ | a head IH ]; simpl; lia. }
    rewrite Hsum.
    destruct v; [ | split; [ reflexivity | split; [ constructor | exact Hrest ] ] ].
    destruct (risk_key_cases k) as [ Hin | (Hnone & Hname) ].
    + cbn [map fst RiskAdjustment.RISK_SCORES In] in Hin.
      repeat (destruct Hin as [ <- | Hin ];
              [ split;
                [ reflexivity
                | split; [ | exact Hrest ];
                  constructor; [ | constructor ];
                  split; [ vm_compute; split; discriminate | ];
                  eexists; split; [ left; reflexivity | split; reflexivity ] ]
              | ]).
      contradiction.
    + rewrite Hname. unfold RiskAdjustment.code_of. rewrite Hnone.
      split; [ reflexivity | split; [ constructor | exact Hrest ] ].
Qed.

(** ** Threshold bands *)

Lemma Qle_bool_false (a b : Q) : Qle_bool a b = false -> (b < a)%Q.
Proof.
  intros E. apply Qnot_le_lt. intros H. apply Qle_bool_iff in H. congruence.
Qed.

Ltac q_cases :=
  repeat match goal with
         | |- context [ Qle_bool ?a ?b ] =>
             let E := fresh "E" in
             destruct (Qle_bool a b) eqn:E;
             [ apply Qle_bool_iff in E | apply Qle_bool_false in E ]
         | |- context [ Py.Qltb ?a ?b ] =>
             let E := fresh "E" in
             destruct (Py.Qltb a b) eqn:E;
             [ apply Qltb_true in E | apply Qltb_false in E ]
         end.

Ltac q_solve :=
  first [ lra | (split; q_solve) | (left; q_solve) | (right; q_solve) ].

Ltac band_iff :=
  split;
  [ let H := fresh in intros H; first [ discriminate H | q_solve ]
  | let H := fresh in
    intros H; first [ reflexivity | (exfalso; decompose [and or] H; lra) ] ].

(** X16.  FIGO rates the baseline reassuring on [110, 160] and
    non-reassuring on [100, 110) and [161, 180]; everything else is abnormal,
    including the baselines strictly between 160 and 161.  The session status
    is [normal] exactly when FIGO rates the baseline reassuring. *)
Theorem figo_baseline_bands (b : Q) :
  (FigoNice.evaluate_baseline b = "reassuring" <-> (110 <= b /\ b <= 160)%Q)
  /\ (FigoNice.evaluate_baseline b = "non-reassuring"
      <-> ((100 <= b /\ b < 110) \/ (161 <= b /\ b <= 180))%Q)
  /\ (FigoNice.evaluate_baseline b = "abnormal"
      <-> (b < 100 \/ (160 < b /\ b < 161) \/ 180 < b)%Q)
  /\ (AnalysisService._determine_status b = "normal"
      <-> FigoNice.evaluate_baseline b = "reassuring")
  /\ (AnalysisService._determine_status b = "bradycardia" <-> (b < 110)%Q)
  /\ (AnalysisService._determine_status b = "tachycardia" <-> (160 < b)%Q).
Proof.
  unfold FigoNice.evaluate_baseline, AnalysisService._determine_status.
  q_cases; cbn [andb orb]; try (exfalso; lra);
    split_all; first [ band_iff | (split; intros H; first [ reflexivity | discriminate H ]) ].
Qed.

(** ** The forecast synthesizer *)

Lemma last_item_in {A : Type} (l : list A) (a : A) :
  Py.last_item l = Some a -> In a l.
Proof. unfold Py.last_item. apply nth_error_In. Qed.

Lemma forecast_risk_bounds
    (figo_result nichd_result : option AnalysisService.classifier_view)
    (ai_result : option (list (string * AnalysisService.horizon_view)))
    (history : list Hypoxia.risk_point) (timeframe : string) :
  Forall (fun p => (0 <= Hypoxia.risk p /\ Hypoxia.risk p <= 1)%Q) history ->
  let forecast :=
    AnalysisService._generate_forecast_with_hypoxia_risk
      figo_result nichd_result ai_result history timeframe in
  (0 <= AnalysisService.hypoxia_risk forecast
   /\ AnalysisService.hypoxia_risk forecast <= 1)%Q.
Proof.
  intros Hall forecast. subst forecast.
  unfold AnalysisService._generate_forecast_with_hypoxia_risk. cbv zeta.
  cbn [AnalysisService.hypoxia_risk].
  unfold AnalysisService._predict_hypoxia_risk_for_timeframe.
  destruct (Common.is_empty history || (length history <? 2)%nat).
  - destruct (Py.last_item history) as [ p | ] eqn:E.
    + apply last_item_in in E. apply (proj1 (Forall_forall _ _) Hall p E).
    + split; [ apply Qle_refl | discriminate ].
  - cbv zeta. apply py_clamp_bounds. discriminate.
Qed.

(** X17.  The predicted hypoxia risk of a forecast lies in [0, 1] whenever
    every value of the risk history does, in particular for every history that
    the hypoxia estimator returns. *)
Theorem forecast_risk_in_unit_interval
    (figo_result nichd_result : option AnalysisService.classifier_view)
    (ai_result : option (list (string * AnalysisService.horizon_view)))
    (history : list Hypoxia.risk_point) (timeframe : string) :
  let risk :=
    AnalysisService.hypoxia_risk
      (AnalysisService._generate_forecast_with_hypoxia_risk
         figo_result nichd_result ai_result history timeframe) in
  (Forall (fun p => (0 <= Hypoxia.risk p /\ Hypoxia.risk p <= 1)%Q) history ->
   (0 <= risk /\ risk <= 1)%Q)
  /\ (forall fhr_series uc_series variability_value time_series
             window_minutes step_minutes,
         Hypoxia.calculate_hypoxia_risk_with fhr_series uc_series variability_value
           time_series window_minutes step_minutes = Some history ->
         (0 <= risk /\ risk <= 1)%Q).
Proof.
  intros risk. split.
  - intros Hall. now apply forecast_risk_bounds.
  - intros fhr uc v ts wm sm Hh. apply forecast_risk_bounds.
    exact (hypoxia_series_bounds _ _ _ _ _ _ _ Hh).
Qed.

(** A single history point of risk 0.3 is forecast unchanged. *)
Lemma forecast_risk_in_unit_interval_witness :
  let risk :=
    AnalysisService.hypoxia_risk
      (AnalysisService._generate_forecast_with_hypoxia_risk
         None None None [Hypoxia.mk_risk_point 60 (3 # 10)] "30min") in
  (0 <= risk /\ risk <= 1)%Q.
Proof.
  refine (proj1 (forecast_risk_in_unit_interval None None None
                   [Hypoxia.mk_risk_point 60 (3 # 10)] "30min") _).
  repeat constructor; discriminate.
Defined.

Section SteadyHistory.

Local Open Scope Q_scope.





End SteadyHistory.






Lemma py_clamp_mono (lo hi x y : Q) :
  (x <= y)%Q -> (Py.max lo (Py.min hi x) <= Py.max lo (Py.min hi y))%Q.
Proof.
  intros H. unfold Py.max, Py.min. repeat destruct (Qlt_le_dec _ _); lra.
Qed.

(** X19.  With at least 2 history points and a non-negative current risk,
    the predicted risk follows the sign of the trend across the horizons: it
    does not decrease from 15min to 30min to 60min when the trend is
    non-negative, and does not increase when the trend is non-positive. *)
Theorem predicted_risk_follows_trend
    (current_risk : Q) (history : list Hypoxia.risk_point) :
  (2 <= length history)%nat ->
  (0 <= current_risk)%Q ->
  let trend :=
    AnalysisService._calculate_risk_trend
      (map Hypoxia.risk (Py.last_n history 10)) in
  let predicted :=
    AnalysisService._predict_hypoxia_risk_for_timeframe current_risk history in
  ((0 <= trend)%Q ->
   (predicted "15min" <= predicted "30min")%Q
   /\ (predicted "30min" <= predicted "60min")%Q)
  /\ ((trend <= 0)%Q ->
      (predicted "60min" <= predicted "30min")%Q
      /\ (predicted "30min" <= predicted "15min")%Q).
Proof.
  intros Hn Hcur trend predicted.
  assert (Hp : forall tf,
             predicted tf
             = Py.max 0 (Py.min 1 (current_risk
                                   * (1 + trend * AnalysisService.time_multiplier tf)))).
  { intros tf. subst predicted.
    unfold AnalysisService._predict_hypoxia_risk_for_timeframe.
    replace (Common.is_empty history) with false
      by (destruct history; [ simpl in Hn; lia | reflexivity ]).
    destruct (Nat.ltb_spec (length history) 2) as [ Hlt | _ ]; [ lia | ].
    reflexivity. }
  rewrite !Hp.
  change (AnalysisService.time_multiplier "15min") with (11 # 10)%Q.
  change (AnalysisService.time_multiplier "30min") with (13 # 10)%Q.
  change (AnalysisService.time_multiplier "60min") with (16 # 10)%Q.
  clearbody trend. clear Hp predicted.
  assert (Hexp : forall m, (current_risk * (1 + trend * m)
                            == current_risk + current_risk * trend * m)%Q)
    by (intros m; ring).
  split; intros Ht.
  - assert (Hu : (0 <= current_risk * trend)%Q) by (apply Qmult_le_0_compat; assumption).
    set (u := (current_risk * trend)%Q) in *.
    split; apply py_clamp_mono; rewrite !Hexp; fold u; lra.
  - assert (Hu : (0 <= current_risk * - trend)%Q)
      by (apply Qmult_le_0_compat; [ assumption | lra ]).
    assert (Eu : (current_risk * - trend == - (current_risk * trend))%Q) by ring.
    rewrite Eu in Hu.
    set (u := (current_risk * trend)%Q) in *.
    split; apply py_clamp_mono; rewrite !Hexp; fold u; lra.
Qed.

(** A rising history: 0.84, 0.92 and then the cap of 1. *)
Lemma predicted_risk_follows_trend_witness :
  let history :=
    [ Hypoxia.mk_risk_point 60 (2 # 10); Hypoxia.mk_risk_point 120 (3 # 10);
      Hypoxia.mk_risk_point 180 (4 # 10) ] in
  (AnalysisService._predict_hypoxia_risk_for_timeframe (4 # 10) history "15min"
   <= AnalysisService._predict_hypoxia_risk_for_timeframe (4 # 10) history "30min")%Q.
Proof.
  intros history.
  refine (proj1 (proj1 (predicted_risk_follows_trend (4 # 10) history _ _) _)).
  - simpl. lia.
  - discriminate.
  - vm_compute. discriminate.
Defined.

Lemma predict_timeframe_status (f : AiModule.features) (timeframe : string) :
  let level :=
    Py.min
      (Py.max
         (if String.eqb timeframe "15min" then AiModule.accumulated_risk f
          else if String.eqb timeframe "30min"
               then (AiModule.accumulated_risk f * (12 # 10))%Q
               else (AiModule.accumulated_risk f * (15 # 10))%Q)
         0)
      1 in
  AiModule.status (AiModule.predict_timeframe f timeframe)
  = (if Py.Qltb level (3 # 10) then "normal"
     else if Py.Qltb level (6 # 10) then "warning" else "danger")
  /\ AiModule.confidence (AiModule.predict_timeframe f timeframe)
     = (if Py.Qltb level (3 # 10) then (85 # 100)%Q
        else if Py.Qltb level (6 # 10) then (70 # 100)%Q else (60 # 100)%Q).
Proof.
  unfold AiModule.predict_timeframe. cbv zeta.
  destruct (Py.Qltb _ (3 # 10)); [ split; reflexivity | ].
  destruct (Py.Qltb _ (6 # 10)); split; reflexivity.
Qed.

(** X20.  For every feature vector the predictor's status never becomes
    less severe and its confidence never grows as the horizon lengthens from
    15min to 30min to 60min; the status is one of normal, warning and danger
    and the reported risk level lies in [0, 1]. *)
Theorem predictor_status_monotone_in_horizon (f : AiModule.features) :
  let p := AiModule.predict_timeframe f in
  let severity := fun tf => Reference.severity (AiModule.status (p tf)) in
  severity "15min" <= severity "30min" <= severity "60min"
  /\ (AiModule.confidence (p "60min") <= AiModule.confidence (p "30min"))%Q
  /\ (AiModule.confidence (p "30min") <= AiModule.confidence (p "15min"))%Q
  /\ (forall tf,
         In (AiModule.status (p tf)) ["normal"; "warning"; "danger"]
         /\ (0 <= AiModule.risk_level (p tf))%Q
         /\ (AiModule.risk_level (p tf) <= 1)%Q).
Proof.
  intros p severity. subst p severity. cbv beta.
  assert (Hall : forall tf,
             In (AiModule.status (AiModule.predict_timeframe f tf))
                ["normal"; "warning"; "danger"]
             /\ (0 <= AiModule.risk_level (AiModule.predict_timeframe f tf))%Q
             /\ (AiModule.risk_level (AiModule.predict_timeframe f tf) <= 1)%Q).
  { intros tf. destruct (predict_timeframe_status f tf) as (Hs & _).
    cbv zeta in Hs. rewrite Hs, predict_timeframe_risk_level.
    set (level := Py.min _ 1).
    assert (Hl : (0 <= level /\ level <= 1)%Q).
    { subst level. unfold Py.min, Py.max. repeat destruct (Qlt_le_dec _ _); lra. }
    split.
    - destruct (Py.Qltb level (3 # 10)); [ simpl; tauto | ].
      destruct (Py.Qltb level (6 # 10)); simpl; tauto.
    - split.
      + apply (Qle_trans _ (Py.round 0 2));
          [ vm_compute; discriminate | apply round_mono; tauto ].
      + apply (Qle_trans _ (Py.round 1 2));
          [ apply round_mono; tauto | vm_compute; discriminate ]. }
  split_all; try apply Hall.
  - destruct (predict_timeframe_status f "15min") as (-> & _).
    destruct (predict_timeframe_status f "30min") as (-> & _).
    cbn [String.eqb Ascii.eqb Bool.eqb]. unfold Py.min, Py.max.
    repeat destruct (Qlt_le_dec _ _); q_cases; try (exfalso; lra);
      vm_compute; discriminate.
  - destruct (predict_timeframe_status f "30min") as (-> & _).
    destruct (predict_timeframe_status f "60min") as (-> & _).
    cbn [String.eqb Ascii.eqb Bool.eqb]. unfold Py.min, Py.max.
    repeat destruct (Qlt_le_dec _ _); q_cases; try (exfalso; lra);
      vm_compute; discriminate.
  - destruct (predict_timeframe_status f "30min") as (_ & ->).
    destruct (predict_timeframe_status f "60min") as (_ & ->).
    cbn [String.eqb Ascii.eqb Bool.eqb]. unfold Py.min, Py.max.
    repeat destruct (Qlt_le_dec _ _); q_cases; try (exfalso; lra);
      vm_compute; discriminate.
  - destruct (predict_timeframe_status f "15min") as (_ & ->).
    destruct (predict_timeframe_status f "30min") as (_ & ->).
    cbn [String.eqb Ascii.eqb Bool.eqb]. unfold Py.min, Py.max.
    repeat destruct (Qlt_le_dec _ _); q_cases; try (exfalso; lra);
      vm_compute; discriminate.
Qed.

(** X21.  The forecast status never becomes less severe when the predicted
    hypoxia risk grows, whatever the classifier and predictor results are. *)
Theorem forecast_status_monotone_in_risk
    (figo_result nichd_result : option AnalysisService.classifier_view)
    (ai_result : option (list (string * AnalysisService.horizon_view)))
    (timeframe : string) (risk risk' : Q) :
  (risk <= risk')%Q ->
  Reference.severity
    (AnalysisService._determine_forecast_status
       figo_result nichd_result ai_result risk timeframe)
  <= Reference.severity
       (AnalysisService._determine_forecast_status
          figo_result nichd_result ai_result risk' timeframe).
Proof.
  intros Hle. unfold AnalysisService._determine_forecast_status. cbv zeta.
  set (base := AnalysisService.base_status_of _ _ _ _).
  pose proof (severity_danger_top base) as Htop.
  destruct (Py.Qltb (7 # 10) risk) eqn:A7; destruct (Py.Qltb (7 # 10) risk') eqn:B7;
    destruct (Py.Qltb (4 # 10) risk) eqn:A4; destruct (Py.Qltb (4 # 10) risk') eqn:B4;
    repeat match goal with
           | H : Py.Qltb _ _ = true |- _ => apply Qltb_true in H
           | H : Py.Qltb _ _ = false |- _ => apply Qltb_false in H
           end;
    try (exfalso; lra);
    destruct (String.eqb_spec base "normal") as [ E | _ ];
    try rewrite E; try (vm_compute; discriminate); try lia;
    try apply severity_danger_top.
Qed.

(** A warning base at risk 0.5 against risk 0.8. *)
Lemma forecast_status_monotone_in_risk_witness :
  let figo := Some (AnalysisService.mk_classifier_view (Some 1)) in
  Reference.severity
    (AnalysisService._determine_forecast_status figo None None (5 # 10) "15min")
  <= Reference.severity
       (AnalysisService._determine_forecast_status figo None None (8 # 10) "15min").
Proof.
  intros figo.
  refine (forecast_status_monotone_in_risk figo None None "15min" (5 # 10) (8 # 10) _).
  discriminate.
Defined.

(** ** Risk texts *)




(** ** Smoothing and long-term variability *)

Section MeanRange.

Local Open Scope Q_scope.

Variables lo hi : Q.



End MeanRange.



Section Extremes.

Local Open Scope Q_scope.







End Extremes.





(** ** Window anchoring *)

Lemma mapM_nth {A B : Type} (f : A -> option B) (l : list A) :
  forall bs, Py.mapM f l = Some bs ->
  forall k b, nth_error bs k = Some b ->
              exists a, nth_error l k = Some a /\ f a = Some b.
Proof.
  induction l as [ | a l IH ]; intros bs Hm k b Hk; simpl in Hm.
  - injection Hm as <-. destruct k; discriminate Hk.
  - destruct (f a) as [ b0 | ] eqn:Eb; [ | discriminate ].
    destruct (Py.mapM f l) as [ bs' | ] eqn:Ebs; [ | discriminate ].
    injection Hm as <-. destruct k as [ | k ].
    + injection Hk as <-. exists a. split; [ reflexivity | exact Eb ].
    + apply (IH bs' eq_refl k b Hk).
Qed.

Lemma range_step_nth (stop step : Z) (k : nat) (i : Z) :
  nth_error (Py.range_step stop step) k = Some i -> i = Z.of_nat k * step.
Proof.
  unfold Py.range_step. destruct (stop <=? 0); [ destruct k; discriminate | ].
  intros H. rewrite nth_error_map in H.
  destruct (nth_error (seq 0 _) k) as [ j | ] eqn:Ej; [ | discriminate ].
  injection H as <-.
  assert (Hk : (k < length (seq 0 (Z.to_nat ((stop + step - 1) / step))))%nat)
    by (apply nth_error_Some; congruence).
  rewrite length_seq in Hk.
  rewrite (nth_error_nth' _ 0%nat) in Ej by (rewrite length_seq; exact Hk).
  rewrite seq_nth in Ej by exact Hk. injection Ej as <-. reflexivity.
Qed.

(** X25.  For FHR and timestamp series of one length, the k-th point of
    the hypoxia-risk series carries the timestamp of sample 60k + 60, the
    centre of its 120-sample window; the window-start fallback is never
    taken. *)
Theorem hypoxia_points_are_window_centres
    (fhr_series uc_series time_series : list Q) (variability_value : option Q)
    (points : list Hypoxia.risk_point) :
  length time_series = length fhr_series ->
  Hypoxia.calculate_hypoxia_risk fhr_series uc_series variability_value time_series
  = Some points ->
  forall k p,
    nth_error points k = Some p ->
    nth_error time_series (60 * k + 60) = Some (Hypoxia.time p)
    /\ (60 * k + 120 <= length fhr_series)%nat.
Proof.
  intros Hts Hp k p Hk.
  unfold Hypoxia.calculate_hypoxia_risk, Hypoxia.calculate_hypoxia_risk_with in Hp.
  cbv zeta in Hp. change (2 * 60) with 120 in Hp. change (1 * 60) with 60 in Hp.
  destruct (mapM_nth _ _ _ Hp k p Hk) as (i & Hi & Hw).
  pose proof (range_step_nth _ _ _ _ Hi) as Ei.
  apply nth_error_In in Hi. apply range_step_in in Hi; [ | lia ].
  destruct Hi as (H0 & Hstop & _). unfold Py.len in Hstop.
  unfold Hypoxia.window_result in Hw. cbv zeta in Hw.
  destruct (if Common.is_empty _ then Some 0%Q else Py.np_median _) as [ b | ];
    [ | discriminate ].
  cbn [Py.bind Hypoxia.detect_accelerations_in_window
         Hypoxia.detect_decelerations_in_window] in Hw.
  change (120 / 2) with 60 in Hw.
  destruct (Z.ltb_spec (i + 60) (Py.len time_series)) as [ _ | Hge ];
    [ | unfold Py.len in Hge; lia ].
  destruct (nth_error time_series (Z.to_nat (i + 60))) as [ t | ] eqn:Et;
    [ | discriminate ].
  cbn [Py.bind] in Hw. injection Hw as <-. cbn [Hypoxia.time].
  split; [ | lia ].
  replace (60 * k + 60)%nat with (Z.to_nat (i + 60)) by lia. exact Et.
Qed.

(** The single window of a 120-sample record is anchored at sample 60. *)
Lemma hypoxia_points_are_window_centres_witness :
  exists p,
    nth_error (map (fun k => inject_Z (Z.of_nat k)) (seq 0 120)) (60 * 0 + 60)
    = Some (Hypoxia.time p).
Proof.
  destruct (Hypoxia.calculate_hypoxia_risk (repeat 140%Q 120) (repeat 10%Q 120)
              (Some 8%Q) (map (fun k => inject_Z (Z.of_nat k)) (seq 0 120)))
    as [ points | ] eqn:E; [ | vm_compute in E; discriminate E ].
  destruct points as [ | p points ]; [ vm_compute in E; discriminate E | ].
  exists p.
  exact (proj1 (hypoxia_points_are_window_centres
                  (repeat 140%Q 120) (repeat 10%Q 120)
                  (map (fun k => inject_Z (Z.of_nat k)) (seq 0 120)) (Some 8%Q)
                  (p :: points) eq_refl E 0%nat p eq_refl)).
Defined.
